(** * ZombieDetector: classification codec, enrichment policy and lifecycle tracker

    A shallow embedding of
    - [zombie_detector/core/classifier.py]  (module [Classifier]),
    - [zombie_detector/core/processor.py]   (module [Processor]),
    - [zombie_detector/core/zombie_tracker.py] (module [Tracker]),
    followed by the properties of the specification that concern them.

    Python dictionaries with string keys are [gmap string _], Python sets are
    [gset _], a raised exception is [None] in the option monad, and the three
    JSON files of the tracker are the three fields of a [store]. *)

From Stdlib Require Import ZArith Ascii Floats.SpecFloat.
From stdpp Require Import sorting countable gmap strings list fin_maps.

Local Open Scope string_scope.
Local Open Scope list_scope.
Local Open Scope nat_scope.

(** ** Python values

    The values a decoded JSON document can hold.  Nested objects are kept as
    association lists so that the type stays strictly positive. *)

#[warnings="-register-all"]
Inductive py_value : Type :=
  | PyNone
  | PyBool (b : bool)
  | PyInt (z : Z)
  | PyFloat (f : spec_float)
  | PyStr (s : string)
  | PyList (l : list py_value)
  | PyDict (d : list (string * py_value)).

(** Scalars, as leaves of the generic tree used to count [py_value]. *)
Definition py_leaf : Type :=
  (unit + bool + Z + (bool + bool + unit + bool * positive * Z) + string)%type.

Definition float_to_sum (f : spec_float)
  : bool + bool + unit + bool * positive * Z :=
  match f with
  | S754_zero s => inl (inl (inl s))
  | S754_infinity s => inl (inl (inr s))
  | S754_nan => inl (inr tt)
  | S754_finite s m e => inr (s, m, e)
  end.

Definition float_of_sum (x : bool + bool + unit + bool * positive * Z)
  : spec_float :=
  match x with
  | inl (inl (inl s)) => S754_zero s
  | inl (inl (inr s)) => S754_infinity s
  | inl (inr _) => S754_nan
  | inr (s, m, e) => S754_finite s m e
  end.

Fixpoint py_to_tree (v : py_value) : gen_tree py_leaf :=
  match v with
  | PyNone => GenLeaf (inl (inl (inl (inl tt))))
  | PyBool b => GenLeaf (inl (inl (inl (inr b))))
  | PyInt z => GenLeaf (inl (inl (inr z)))
  | PyFloat f => GenLeaf (inl (inr (float_to_sum f)))
  | PyStr s => GenLeaf (inr s)
  | PyList l => GenNode 0 (map py_to_tree l)
  | PyDict d =>
      GenNode 1 (map (fun kv => GenNode 2 [GenLeaf (inr (fst kv)); py_to_tree (snd kv)]) d)
  end.

Fixpoint py_of_tree (t : gen_tree py_leaf) : option py_value :=
  match t with
  | GenLeaf (inl (inl (inl (inl _)))) => Some PyNone
  | GenLeaf (inl (inl (inl (inr b)))) => Some (PyBool b)
  | GenLeaf (inl (inl (inr z))) => Some (PyInt z)
  | GenLeaf (inl (inr x)) => Some (PyFloat (float_of_sum x))
  | GenLeaf (inr s) => Some (PyStr s)
  | GenNode 0 ts => PyList <$> mapM py_of_tree ts
  | GenNode 1 ts =>
      PyDict <$> mapM (fun t =>
        match t with
        | GenNode 2 [GenLeaf (inr k); tv] => (fun v => (k, v)) <$> py_of_tree tv
        | _ => None
        end) ts
  | GenNode _ _ => None
  end.

(** Induction over [py_value] that reaches the values nested in lists and
    objects. *)
Lemma py_value_ind' (P : py_value -> Prop) :
  P PyNone ->
  (forall b, P (PyBool b)) ->
  (forall z, P (PyInt z)) ->
  (forall f, P (PyFloat f)) ->
  (forall s, P (PyStr s)) ->
  (forall l, Forall P l -> P (PyList l)) ->
  (forall d, Forall (fun kv => P (snd kv)) d -> P (PyDict d)) ->
  forall v, P v.
Proof.
  intros HN HB HI HF HS HL HD.
  fix IH 1. intros [ | b | z | f | s | l | d].
  - exact HN.
  - apply HB.
  - apply HI.
  - apply HF.
  - apply HS.
  - apply HL. induction l as [|x l IHl]; constructor; [apply IH | exact IHl].
  - apply HD. induction d as [|[k x] d IHd]; constructor; [apply IH | exact IHd].
Qed.

Lemma float_of_to_sum f : float_of_sum (float_to_sum f) = f.
Proof. by destruct f. Qed.

Lemma py_of_to_tree v : py_of_tree (py_to_tree v) = Some v.
Proof.
  induction v as [ | b | z | f | s | l IH | d IH] using py_value_ind'; simpl;
    try done.
  - by rewrite float_of_to_sum.
  - assert (mapM py_of_tree (map py_to_tree l) = Some l) as ->; [|done].
    induction IH as [|x l Hx _ IHl]; simpl; [done|].
    by rewrite Hx, IHl.
  - match goal with |- PyDict <$> ?m = _ => assert (m = Some d) as -> end; [|done].
    induction IH as [|[k x] d Hx _ IHd]; simpl in *; [done|].
    by rewrite Hx; simpl; rewrite IHd.
Qed.

Global Instance py_to_tree_inj : Inj (=) (=) py_to_tree.
Proof.
  intros x y Hxy. apply (inj Some).
  by rewrite <- (py_of_to_tree x), Hxy, py_of_to_tree.
Qed.

Global Instance py_value_eq_dec : EqDecision py_value.
Proof.
  intros x y. destruct (decide (py_to_tree x = py_to_tree y)) as [H|H].
  - left. by apply (inj py_to_tree).
  - right. congruence.
Defined.

Global Instance py_value_countable : Countable py_value :=
  inj_countable py_to_tree py_of_tree py_of_to_tree.

(** [m.update(l)] and a Python [dict] display or comprehension: entries are
    stored from left to right, a later entry replacing an earlier one with
    the same key. *)
Definition py_update {K V} `{Countable K} (m : gmap K V) (l : list (K * V))
  : gmap K V :=
  foldl (fun m kv => <[fst kv := snd kv]> m) m l.

Definition py_dict {K V} `{Countable K} (l : list (K * V)) : gmap K V :=
  py_update ∅ l.

(** [enumerate(l)]. *)
Definition enumerate {A} (l : list A) : list (nat * A) := imap pair l.

(** Truthiness of a value ([bool(v)]). *)
Definition py_truthy (v : py_value) : bool :=
  match v with
  | PyNone => false
  | PyBool b => b
  | PyInt z => negb (z =? 0)%Z
  | PyFloat (S754_zero _) => false
  | PyFloat _ => true
  | PyStr s => negb (String.eqb s "")
  | PyList l => match l with [] => false | _ => true end
  | PyDict d => match d with [] => false | _ => true end
  end.

(** [int(f)] for a float: truncation towards zero; [OverflowError] on an
    infinity and [ValueError] on a NaN. *)
Definition int_of_float (f : spec_float) : option Z :=
  match f with
  | S754_zero _ => Some 0%Z
  | S754_infinity _ => None
  | S754_nan => None
  | S754_finite s m e =>
      let mag := Z.shiftl (Z.pos m) e in
      Some (if s then (- mag)%Z else mag)
  end.

(** What the embedding takes from the Python runtime: the parser behind
    [int(s)] for a string [s] ([None] is [ValueError]). *)
Class PyRuntime := { int_of_str : string -> option Z }.

(** [int(v)]; [None] stands for the [TypeError], [ValueError] or
    [OverflowError] that the call raises. *)
Definition py_int `{PyRuntime} (v : py_value) : option Z :=
  match v with
  | PyNone => None
  | PyBool b => Some (Z.b2z b)
  | PyInt z => Some z
  | PyFloat f => int_of_float f
  | PyStr s => int_of_str s
  | PyList _ => None
  | PyDict _ => None
  end.

(** A host record: a dictionary from field names to values. *)
Abbreviation host := (gmap string py_value).

(** ** classifier.py *)
Module Classifier.

Definition CRITERIA_KEYS : list string :=
  [ "Recent_CPU_decrease_criterion";
    "Recent_net_traffic_decrease_criterion";
    "Sustained_Low_CPU_criterion";
    "Excessively_constant_RAM_criterion";
    "Daily_CPU_profile_lost_criterion" ].

Definition CRITERIA_DESCRIPTIONS : list string :=
  [ "Detectada una bajada repentina en el uso de CPU";
    "Detectada una caída brusca en el tráfico de red reciente";
    "El uso de CPU se mantiene demasiado bajo durante un tiempo prolongado";
    "El uso de RAM permanece anormalmente constante, sin variaciones";
    "El patrón diario esperado de uso de CPU no se está cumpliendo" ].

Definition ALIAS_BY_CODE : gmap string string :=
  py_dict
    [ ("5", "Coloso");
      ("4A", "Nemesis"); ("4B", "Clicker"); ("4C", "Revenant");
      ("4D", "Ghoul"); ("4E", "Gael");
      ("3A", "Solomon"); ("3B", "Bud"); ("3C", "Tarman"); ("3D", "Ben");
      ("3E", "Fido"); ("3F", "Bloater"); ("3G", "Shambler");
      ("3H", "Stalker"); ("3I", "Zeus"); ("3J", "Wights");
      ("2A", "Mummy"); ("2B", "Wraith"); ("2C", "Vampire");
      ("2D", "Banshee"); ("2E", "Phantom"); ("2F", "Specter");
      ("2G", "Shade"); ("2H", "Poltergeist"); ("2I", "Spirit");
      ("2J", "Apparition");
      ("1A", "Zombie"); ("1B", "Walker"); ("1C", "Crawler");
      ("1D", "Lurker"); ("1E", "Sleeper");
      ("0", "No Zombie Detected") ].

Definition FOUR_OF_FIVE_MISSING_TO_CODE : gmap nat string :=
  py_dict [ (0, "4A"); (1, "4B"); (2, "4C"); (3, "4D"); (4, "4E") ].

Definition THREE_COMBOS : list (list nat) :=
  [ [0; 1; 2]; [0; 1; 3]; [0; 1; 4]; [0; 2; 3]; [0; 2; 4];
    [0; 3; 4]; [1; 2; 3]; [1; 2; 4]; [1; 3; 4]; [2; 3; 4] ].

(** [chr(ord('A') + i)] as a one-character string. *)
Definition letter (i : nat) : string :=
  String (Ascii.ascii_of_nat (65 + i)) EmptyString.

(** [frozenset(c)]. *)
Definition frozenset (c : list nat) : gset nat := list_to_set c.

Definition THREE_SET_TO_CODE : gmap (gset nat) string :=
  py_dict (map (fun ic => (frozenset (snd ic), "3" +:+ letter (fst ic)))
               (enumerate THREE_COMBOS)).

Definition TWO_COMBOS : list (list nat) :=
  [ [0; 1]; [0; 2]; [0; 3]; [0; 4]; [1; 2];
    [1; 3]; [1; 4]; [2; 3]; [2; 4]; [3; 4] ].

Definition TWO_SET_TO_CODE : gmap (gset nat) string :=
  py_dict (map (fun ic => (frozenset (snd ic), "2" +:+ letter (fst ic)))
               (enumerate TWO_COMBOS)).

Definition ONE_INDEX_TO_CODE : gmap nat string :=
  py_dict [ (0, "1A"); (1, "1B"); (2, "1C"); (3, "1D"); (4, "1E") ].

Section WithRuntime.
Context `{PyRuntime}.

(** The test of the loop body of [_active_indices]:
    [int(host.get(key, 0)) == 1], an exception counting as [False]. *)
Definition criterion_active (h : host) (key : string) : bool :=
  match py_int (default (PyInt 0) (h !! key)) with
  | Some z => (z =? 1)%Z
  | None => false
  end.

Definition _active_indices (h : host) : list nat :=
  omap (fun ik => if criterion_active h (snd ik) then Some (fst ik) else None)
       (enumerate CRITERIA_KEYS).

End WithRuntime.

(** [_code_for_active]; [None] is the [KeyError] of a failed table lookup.
    The set difference of the four-of-five case is popped at its least
    member. *)
Definition _code_for_active (active_idxs : list nat) : option string :=
  let n := length active_idxs in
  if n =? 5 then Some "5"
  else if n =? 4 then
    missing ← head (list_difference [0; 1; 2; 3; 4] active_idxs);
    FOUR_OF_FIVE_MISSING_TO_CODE !! missing
  else if n =? 3 then THREE_SET_TO_CODE !! frozenset active_idxs
  else if n =? 2 then TWO_SET_TO_CODE !! frozenset active_idxs
  else if n =? 1 then
    i ← head active_idxs;
    ONE_INDEX_TO_CODE !! i
  else Some "0".

Definition _alias_for_code (code : string) : string :=
  default code (ALIAS_BY_CODE !! code).

(** [_description_for_active]; [None] is the [IndexError] of an index past
    the description table. *)
Definition _description_for_active (active_idxs : list nat) : option string :=
  parts ← mapM (fun i => CRITERIA_DESCRIPTIONS !! i) active_idxs;
  Some (match parts with
        | [] => "Sin criterios de zombie activos"
        | _ => String.concat ", " parts
        end).

Definition classify_host `{PyRuntime} (h : host)
  : option (string * string * string) :=
  let active := _active_indices h in
  code ← _code_for_active active;
  let alias := _alias_for_code code in
  description ← _description_for_active active;
  Some (code, alias, description).

(** [sorted(s)] for a set of indices. *)
Definition sorted (s : gset nat) : list nat := merge_sort (≤) (elements s).

(** [[CRITERIA_KEYS[i] for i in idxs]]; [None] is an [IndexError]. *)
Definition criteria_list (idxs : list nat) : option (list string) :=
  mapM (fun i => CRITERIA_KEYS !! i) idxs.

(** One turn of a [for k, code in table.items()] loop that stores the
    criteria list computed from [k] under [code]. *)
Definition store_combination {K} (idxs_of : K -> list nat)
    (acc : option (gmap string (list string))) (item : K * string)
  : option (gmap string (list string)) :=
  combinations ← acc;
  criteria ← criteria_list (idxs_of (fst item));
  Some (<[snd item := criteria]> combinations).

Definition get_criteria_combinations : option (gmap string (list string)) :=
  let combinations : gmap string (list string) :=
    py_update ∅
      [ ("1A", ["Recent_CPU_decrease_criterion"]);
        ("1B", ["Recent_net_traffic_decrease_criterion"]);
        ("1C", ["Sustained_Low_CPU_criterion"]);
        ("1D", ["Excessively_constant_RAM_criterion"]);
        ("1E", ["Daily_CPU_profile_lost_criterion"]);
        ("2A", ["Recent_CPU_decrease_criterion";
                 "Recent_net_traffic_decrease_criterion"]);
        ("2B", ["Recent_CPU_decrease_criterion";
                 "Sustained_Low_CPU_criterion"]);
        ("2C", ["Recent_CPU_decrease_criterion";
                 "Excessively_constant_RAM_criterion"]);
        ("2D", ["Recent_CPU_decrease_criterion";
                 "Daily_CPU_profile_lost_criterion"]);
        ("2E", ["Recent_net_traffic_decrease_criterion";
                 "Sustained_Low_CPU_criterion"]);
        ("2F", ["Recent_net_traffic_decrease_criterion";
                 "Excessively_constant_RAM_criterion"]);
        ("2G", ["Recent_net_traffic_decrease_criterion";
                 "Daily_CPU_profile_lost_criterion"]);
        ("2H", ["Sustained_Low_CPU_criterion";
                 "Excessively_constant_RAM_criterion"]);
        ("2I", ["Sustained_Low_CPU_criterion";
                 "Daily_CPU_profile_lost_criterion"]);
        ("2J", ["Excessively_constant_RAM_criterion";
                 "Daily_CPU_profile_lost_criterion"]) ] in
  combinations ←
    foldl (store_combination sorted) (Some combinations)
          (map_to_list THREE_SET_TO_CODE);
  combinations ←
    foldl (store_combination
             (fun missing_idx => sorted ({[0; 1; 2; 3; 4]} ∖ {[missing_idx]})))
          (Some combinations) (map_to_list FOUR_OF_FIVE_MISSING_TO_CODE);
  let combinations := <["5" := CRITERIA_KEYS]> combinations in
  let combinations := <["0" := []]> combinations in
  Some combinations.

End Classifier.

(** ** zombie_tracker.py *)
Module Tracker.

(** A naive [datetime]: microseconds since 0001-01-01T00:00:00.  The ISO
    text written by [isoformat()] and read back by [fromisoformat()] denotes
    the same instant, so the persisted timestamps are kept as instants. *)
Abbreviation datetime := Z (only parsing).

Definition MICROSECONDS_PER_DAY : Z := 86400000000.

(** One past [datetime.max] (9999-12-31T23:59:59.999999). *)
Definition DATETIME_END : Z := 3652059 * MICROSECONDS_PER_DAY.

(** [timedelta(days=d)]; [None] is the [OverflowError] raised beyond
    999999999 days. *)
Definition timedelta_days (d : Z) : option Z :=
  if decide (-999999999 <= d <= 999999999)%Z
  then Some (d * MICROSECONDS_PER_DAY)%Z else None.

(** [t - delta] on a [datetime]; [None] is the [OverflowError] raised when
    the result leaves the representable range. *)
Definition datetime_sub (t : datetime) (delta : Z) : option datetime :=
  let r := (t - delta)%Z in
  if decide (0 <= r < DATETIME_END)%Z then Some r else None.

(** The ["stats"] object of a snapshot. *)
Record stats := {
  st_total_zombies : nat;
  st_new_zombies : nat;
  st_persisting_zombies : nat;
  st_killed_zombies : nat;
}.

(** Content of [current_zombies.json]. *)
Record current_zombies := {
  cz_timestamp : datetime;
  cz_zombies : list host;
  cz_zombie_ids : list py_value;
  cz_stats : stats;
}.

(** One element of the ["history"] list of [zombie_history.json]. *)
Record history_entry := {
  he_timestamp : datetime;
  he_zombie_count : nat;
  he_zombies : list host;
}.

(** One element of the ["killed_zombies"] list of [killed_zombies.json]. *)
Record killed_entry := {
  ke_dynatrace_host_id : py_value;
  ke_hostname : py_value;
  ke_criterion_type : py_value;
  ke_criterion_alias : py_value;
  ke_killed_at : datetime;
  ke_last_detection : host;
}.

(** The data directory of a tracker.  A file that is missing or does not
    decode ([FileNotFoundError], [json.JSONDecodeError]) is [None]; a file
    written by [json.dump] is read back by [json.load] with the content
    that was written. *)
Record store := {
  current_zombies_file : option current_zombies;
  zombie_history_file : option (list history_entry);
  killed_zombies_file : option (list killed_entry);
}.

(** What [save_current_zombies] returns. *)
Record tracking_info := {
  new_zombies : list py_value;
  persisting_zombies : list py_value;
  killed_zombies : list py_value;
  tracking_stats : stats;
}.

(** Lists and dictionaries cannot be hashed. *)
Definition hashable (v : py_value) : bool :=
  match v with
  | PyList _ | PyDict _ => false
  | _ => true
  end.

(** [z["dynatrace_host_id"]] used as a set member; [None] is the
    [KeyError] of a record without the field or the [TypeError] of an
    identifier that cannot be hashed.  Identifiers are strings in the
    source ([Set[str]], [zombie_id: str]), and the embedding compares them
    as values: this is Python's [==] and [hash] whenever one of the two is
    a string, and it is not between numbers ([1 == 1.0 == True]).  Whether
    a call raises does not depend on the comparison; what the sets and the
    searches hold is stated below for string identifiers. *)
Definition host_id (z : host) : option py_value :=
  v ← z !! "dynatrace_host_id";
  if hashable v then Some v else None.

(** [{z["dynatrace_host_id"] for z in zombies}]. *)
Definition id_set (zombies : list host) : option (gset py_value) :=
  ids ← mapM host_id zombies;
  Some (list_to_set ids).

Definition _load_current_zombies (s : store) : list host :=
  match current_zombies_file s with
  | Some data => cz_zombies data
  | None => []
  end.

Definition _update_zombie_history (s : store) (zombies : list host)
    (timestamp : datetime) : store :=
  let history := default [] (zombie_history_file s) in
  let history_entry :=
    {| he_timestamp := timestamp;
       he_zombie_count := length zombies;
       he_zombies := zombies |} in
  let history := history ++ [history_entry] in
  let history :=
    if 1000 <? length history
    then drop (length history - 1000) history
    else history in
  {| current_zombies_file := current_zombies_file s;
     zombie_history_file := Some history;
     killed_zombies_file := killed_zombies_file s |}.

(** The body of the loop of [_track_killed_zombies]: the entry appended
    for [zombie], if it is one of the killed. *)
Definition killed_entry_of (killed_ids : gset py_value) (timestamp : datetime)
    (zombie : host) : option (list killed_entry) :=
  id ← host_id zombie;
  if decide (id ∈ killed_ids) then
    Some [ {| ke_dynatrace_host_id := id;
              ke_hostname := default (PyStr "unknown") (zombie !! "hostname");
              ke_criterion_type :=
                default (PyStr "unknown") (zombie !! "criterion_type");
              ke_criterion_alias :=
                default (PyStr "unknown") (zombie !! "criterion_alias");
              ke_killed_at := timestamp;
              ke_last_detection := zombie |} ]
  else Some [].

Definition _track_killed_zombies (s : store) (killed_ids : gset py_value)
    (previous_zombies : list host) (timestamp : datetime) : option store :=
  let killed_data := default [] (killed_zombies_file s) in
  appended ← mapM (killed_entry_of killed_ids timestamp) previous_zombies;
  Some {| current_zombies_file := current_zombies_file s;
          zombie_history_file := zombie_history_file s;
          killed_zombies_file := Some (killed_data ++ concat appended) |}.

(** [save_current_zombies] at the instant [now] read from the clock. *)
Definition save_current_zombies (s : store) (zombies : list host)
    (now : datetime) : option (tracking_info * store) :=
  let current_time := now in
  let previous_zombies := _load_current_zombies s in
  previous_zombie_ids ← id_set previous_zombies;
  current_zombie_ids ← id_set zombies;
  let new_zombies := current_zombie_ids ∖ previous_zombie_ids in
  let persisting_zombies := current_zombie_ids ∩ previous_zombie_ids in
  let killed_zombies := previous_zombie_ids ∖ current_zombie_ids in
  let zombie_data :=
    {| cz_timestamp := current_time;
       cz_zombies := zombies;
       cz_zombie_ids := elements current_zombie_ids;
       cz_stats :=
         {| st_total_zombies := length zombies;
            st_new_zombies := size new_zombies;
            st_persisting_zombies := size persisting_zombies;
            st_killed_zombies := size killed_zombies |} |} in
  let s := {| current_zombies_file := Some zombie_data;
              zombie_history_file := zombie_history_file s;
              killed_zombies_file := killed_zombies_file s |} in
  let s := _update_zombie_history s zombies current_time in
  s ← (if decide (killed_zombies = ∅) then Some s
       else _track_killed_zombies s killed_zombies previous_zombies
                                  current_time);
  Some ({| new_zombies := elements new_zombies;
           persisting_zombies := elements persisting_zombies;
           killed_zombies := elements killed_zombies;
           tracking_stats := cz_stats zombie_data |}, s).

(** [is_zombie_killed]; the result [None] is Python's [None].  The test
    [entry["dynatrace_host_id"] == zombie_id] is the comparison of values
    when [zombie_id] is a string. *)
Definition is_zombie_killed (s : store) (zombie_id : py_value)
  : option killed_entry :=
  match killed_zombies_file s with
  | None => None
  | Some killed_data =>
      snd <$> list_find (fun entry => ke_dynatrace_host_id entry = zombie_id)
                        killed_data
  end.

(** [cleanup_old_data] at the instant [now]; [None] is the [OverflowError]
    of a cutoff that cannot be represented. *)
Definition cleanup_old_data (s : store) (days_to_keep : Z) (now : datetime)
  : option store :=
  delta ← timedelta_days days_to_keep;
  cutoff_time ← datetime_sub now delta;
  match zombie_history_file s with
  | None => Some s
  | Some history =>
      let filtered_history :=
        filter (fun entry => (cutoff_time <= he_timestamp entry)%Z) history in
      let s := {| current_zombies_file := current_zombies_file s;
                  zombie_history_file := Some filtered_history;
                  killed_zombies_file := killed_zombies_file s |} in
      match killed_zombies_file s with
      | None => Some s
      | Some killed =>
          let filtered_killed :=
            filter (fun entry => (cutoff_time <= ke_killed_at entry)%Z) killed in
          Some {| current_zombies_file := current_zombies_file s;
                  zombie_history_file := zombie_history_file s;
                  killed_zombies_file := Some filtered_killed |}
      end
  end.

End Tracker.

(** ** processor.py *)
Module Processor.
Import Classifier Tracker.

(** The tracking report as the dictionary stored under
    ["_tracking_info"]. *)
Definition tracking_info_value (t : tracking_info) : py_value :=
  let n := fun k : nat => PyInt (Z.of_nat k) in
  PyDict
    [ ("new_zombies", PyList (new_zombies t));
      ("persisting_zombies", PyList (persisting_zombies t));
      ("killed_zombies", PyList (killed_zombies t));
      ("stats",
       PyDict
         [ ("total_zombies", n (st_total_zombies (tracking_stats t)));
           ("new_zombies", n (st_new_zombies (tracking_stats t)));
           ("persisting_zombies", n (st_persisting_zombies (tracking_stats t)));
           ("killed_zombies", n (st_killed_zombies (tracking_stats t))) ]) ].

Section WithRuntime.
Context `{PyRuntime}.

(** The body of the first loop of [process_host_data] (the [else] of the
    [isinstance] test is never taken: [classify_host] returns a tuple). *)
Definition enrich_host (states_config : gmap string Z) (h : host)
  : option host :=
  classification ← classify_host h;
  let '(criterion_type, criterion_alias, description) := classification in
  let criterion_state := default 1%Z (states_config !! criterion_type) in
  let '(criterion_type, criterion_alias, description, is_zombie) :=
    if (criterion_state =? 0)%Z
    then ("0", "No Zombie Detected", "Sin criterios de zombie activos", false)
    else (criterion_type, criterion_alias, description,
          negb (String.eqb criterion_type "0")) in
  let enriched_host := h in
  Some (py_update enriched_host
          [ ("dynatrace_host_id", default PyNone (h !! "dynatrace_host_id"));
            ("hostname", default PyNone (h !! "hostname"));
            ("criterion_type", PyStr criterion_type);
            ("criterion_alias", PyStr criterion_alias);
            ("criterion_description", PyStr description);
            ("criterion_state", PyInt criterion_state);
            ("is_zombie", PyBool is_zombie) ]).

(** [host.get("is_zombie", False)] as a condition. *)
Definition is_zombie (h : host) : bool :=
  py_truthy (default (PyBool false) (h !! "is_zombie")).

(** [process_host_data] on the data directory [s] that [data_dir] (or the
    default) designates, at the instant [now]; the directory is taken to
    exist, so that constructing the [ZombieTracker] succeeds.  The Kafka
    step that [enable_kafka] guards (between the tracking step and the
    final attachment) only reads [enriched_hosts] and [tracking_info] and
    swallows every exception; it writes neither the returned records nor
    the data directory and is left out. *)
Definition process_host_data (s : store) (host_data : list host)
    (states_config : gmap string Z) (enable_tracking : bool) (now : datetime)
  : option (list host * store) :=
  enriched_hosts ← mapM (enrich_host states_config) host_data;
  tracked ←
    (if enable_tracking then
       let zombies_only := filter (fun h => is_zombie h = true) enriched_hosts in
       match zombies_only with
       | [] => Some (None, s)
       | _ =>
           r ← save_current_zombies s zombies_only now;
           Some (Some (fst r), snd r)
       end
     else Some (None, s));
  let '(tracking_info, s) := tracked in
  let enriched_hosts :=
    match tracking_info, enriched_hosts with
    | Some info, first :: rest =>
        <["_tracking_info" := tracking_info_value info]> first :: rest
    | _, _ => enriched_hosts
    end in
  Some (enriched_hosts, s).

End WithRuntime.

End Processor.

(** ** What the specification says, in its own words *)
Module Spec.
Import Classifier.

(** The letters A..J by offset. *)
Definition spec_letter (k : nat) : option string :=
  ["A"; "B"; "C"; "D"; "E"; "F"; "G"; "H"; "I"; "J"] !! k.

(** All ascending [k]-tuples drawn from [l], ordered by their first member,
    then the next: the canonical listing of the subsets of size [k]. *)
Fixpoint lex_subsets (k : nat) (l : list nat) : list (list nat) :=
  match k, l with
  | 0, _ => [[]]
  | S _, [] => []
  | S k', x :: l' => map (cons x) (lex_subsets k' l') ++ lex_subsets k l'
  end.

(** The place of [x] in a listing. *)
Definition position {A} `{EqDecision A} (x : A) (l : list A) : option nat :=
  fst <$> list_find (fun y => y = x) l.

(** The code of a subset [S] of {0..4} given as its ascending tuple. *)
Definition spec_code (S : list nat) : option string :=
  match length S with
  | 0 => Some "0"
  | 1 => i ← head S; L ← spec_letter i; Some ("1" +:+ L)
  | 2 => k ← position S (lex_subsets 2 (seq 0 5)); L ← spec_letter k;
         Some ("2" +:+ L)
  | 3 => k ← position S (lex_subsets 3 (seq 0 5)); L ← spec_letter k;
         Some ("3" +:+ L)
  | 4 => i ← head (filter (fun j => j ∉ S) (seq 0 5)); L ← spec_letter i;
         Some ("4" +:+ L)
  | 5 => Some "5"
  | _ => None
  end.

(** The indices named by a list of criterion fields. *)
Definition criteria_indices (fields : list string) : option (list nat) :=
  mapM (fun f => position f CRITERIA_KEYS) fields.

(** All sub-sequences of a list: the subsets of {0..4} are the
    sub-sequences of [0; 1; 2; 3; 4]. *)
Fixpoint sublists {A} (l : list A) : list (list A) :=
  match l with
  | [] => [[]]
  | x :: l' => map (cons x) (sublists l') ++ sublists l'
  end.

(** The reading of the policy default under which code ["0"], when absent
    from the states map, is looked up as disabled (state 0). *)
Definition absent_zero_is_disabled `{PyRuntime}
    (states_config : gmap string Z) (h : host) : Prop :=
  states_config !! "0" = None ->
  (exists alias description,
      classify_host h = Some ("0", alias, description)) ->
  exists e, Processor.enrich_host states_config h = Some e /\
            e !! "criterion_state" = Some (PyInt 0).

(** The entry the tracker writes for a record [z] of the previous snapshot
    that was killed at [timestamp]. *)
Definition killed_record (id : py_value) (z : host) (timestamp : Z)
  : Tracker.killed_entry :=
  {| Tracker.ke_dynatrace_host_id := id;
     Tracker.ke_hostname := default (PyStr "unknown") (z !! "hostname");
     Tracker.ke_criterion_type := default (PyStr "unknown") (z !! "criterion_type");
     Tracker.ke_criterion_alias := default (PyStr "unknown") (z !! "criterion_alias");
     Tracker.ke_killed_at := timestamp;
     Tracker.ke_last_detection := z |}.

(** The 32 classification codes: the codes of the 32 subsets. *)
Definition all_codes : list string :=
  omap _code_for_active (sublists (seq 0 5)).

End Spec.

Import Classifier Tracker Processor Spec.

(** ** Sample data *)
Module Samples.

(** A runtime whose [int] reads plain decimal numerals with an optional
    minus sign, for evaluating the embedding on sample hosts. *)
Definition digit_value (c : Ascii.ascii) : option Z :=
  let n := Ascii.nat_of_ascii c in
  if (48 <=? n) && (n <=? 57) then Some (Z.of_nat (n - 48)) else None.

Fixpoint digits_value (acc : Z) (s : string) : option Z :=
  match s with
  | EmptyString => Some acc
  | String c s' => d ← digit_value c; digits_value (10 * acc + d) s'
  end.

Definition decimal_int (s : string) : option Z :=
  match s with
  | EmptyString => None
  | String "-"%char EmptyString => None
  | String "-"%char s' => Z.opp <$> digits_value 0 s'
  | _ => digits_value 0 s
  end.

Definition decimal_runtime : PyRuntime := {| int_of_str := decimal_int |}.

(** A zombie record as the tracker receives it. *)
Definition zombie_record (id hostname code alias : string) : host :=
  py_dict [ ("dynatrace_host_id", PyStr id);
            ("hostname", PyStr hostname);
            ("criterion_type", PyStr code);
            ("criterion_alias", PyStr alias);
            ("is_zombie", PyBool true) ].

Definition HOST_1 : host :=
  zombie_record "HOST-1" "hostname1" "T1" "CPU Performance Decline".
Definition HOST_2 : host :=
  zombie_record "HOST-2" "hostname2" "T2" "Network and CPU Decline".
Definition HOST_3 : host :=
  zombie_record "HOST-3" "hostname3" "T3" "Resource Stagnation".

(** A data directory with no file yet. *)
Definition fresh_store : store :=
  {| current_zombies_file := None;
     zombie_history_file := None;
     killed_zombies_file := None |}.

(** A data directory whose current snapshot holds HOST-1 and HOST-2. *)
Definition store_after_round1 : store :=
  {| current_zombies_file :=
       Some {| cz_timestamp := 0;
               cz_zombies := [HOST_1; HOST_2];
               cz_zombie_ids := [PyStr "HOST-1"; PyStr "HOST-2"];
               cz_stats := {| st_total_zombies := 2;
                              st_new_zombies := 2;
                              st_persisting_zombies := 0;
                              st_killed_zombies := 0 |} |};
     zombie_history_file :=
       Some [ {| he_timestamp := 0;
                 he_zombie_count := 2;
                 he_zombies := [HOST_1; HOST_2] |} ];
     killed_zombies_file := None |}.

(** 2025-01-01T00:00:00 and forty days before. *)
Definition new_year_2025 : Z := 739251 * MICROSECONDS_PER_DAY.
Definition forty_days_before : Z := (739251 - 40) * MICROSECONDS_PER_DAY.

(** A data directory whose history file is missing while the killed
    registry holds one entry, forty days old on 2025-01-01. *)
Definition store_without_history : store :=
  {| current_zombies_file := None;
     zombie_history_file := None;
     killed_zombies_file :=
       Some [ killed_record (PyStr "HOST-1") HOST_1 forty_days_before ] |}.

(** A host with no active criterion. *)
Definition idle_host : host :=
  py_dict [ ("dynatrace_host_id", PyStr "HOST-1");
            ("hostname", PyStr "hostname1");
            ("Recent_CPU_decrease_criterion", PyInt 0);
            ("Sustained_Low_CPU_criterion", PyInt (-1)) ].

End Samples.

Import Samples.

(** ** classifier.py: the introspection helpers *)
Module ClassifierTables.

Definition get_all_zombie_types : gmap string string := ALIAS_BY_CODE.

(** [code.startswith(prefix)]. *)
Definition startswith (code prefix : string) : bool := String.prefix prefix code.

(** The [if]/[elif] chain of [get_zombie_types_by_criteria_count]: the
    group a code is filed under, if any. *)
Definition group_of (code : string) : option nat :=
  if decide (code = "0") then Some 0
  else if decide (code = "5") then Some 5
  else if startswith code "4" then Some 4
  else if startswith code "3" then Some 3
  else if startswith code "2" then Some 2
  else if startswith code "1" then Some 1
  else None.

(** [get_zombie_types_by_criteria_count]; [grouped[k][code] = alias] is an
    [alter] because the six groups are created first. *)
Definition get_zombie_types_by_criteria_count : gmap nat (gmap string string) :=
  let grouped : gmap nat (gmap string string) :=
    py_dict [ (0, ∅); (1, ∅); (2, ∅); (3, ∅); (4, ∅); (5, ∅) ] in
  foldl (fun grouped item =>
           match group_of (fst item) with
           | Some k => alter (insert (fst item) (snd item)) k grouped
           | None => grouped
           end)
        grouped (map_to_list ALIAS_BY_CODE).

End ClassifierTables.

(** ** zombie_tracker.py: the queries *)
Module TrackerQueries.

Definition MICROSECONDS_PER_HOUR : Z := 3600000000.

(** [timedelta(hours=h)]; [None] is the [OverflowError] raised when the
    normalised number of days exceeds 999999999 in magnitude. *)
Definition timedelta_hours (h : Z) : option Z :=
  let us := (h * MICROSECONDS_PER_HOUR)%Z in
  if decide (-999999999 <= us `div` MICROSECONDS_PER_DAY <= 999999999)%Z
  then Some us else None.

(** [get_killed_zombies] at the instant [now]; [None] is the
    [OverflowError] of a cutoff that cannot be represented. *)
Definition get_killed_zombies (s : store) (since_hours : Z) (now : datetime)
  : option (list killed_entry) :=
  match killed_zombies_file s with
  | None => Some []
  | Some killed_data =>
      delta ← timedelta_hours since_hours;
      cutoff_time ← datetime_sub now delta;
      Some (filter (fun entry => (cutoff_time <= ke_killed_at entry)%Z)
                   killed_data)
  end.

(** One element of ["detection_history"]. *)
Record detection := {
  d_timestamp : datetime;
  d_criterion_type : py_value;
  d_criterion_alias : py_value;
}.

(** What [get_zombie_lifecycle] returns. *)
Record lifecycle := {
  lc_zombie_id : py_value;
  lc_first_seen : option datetime;
  lc_last_seen : option datetime;
  lc_total_detections : nat;
  lc_is_active : bool;
  lc_killed_info : option killed_entry;
  lc_detection_history : list detection;
}.

(** The body of the inner loop of [get_zombie_lifecycle]; [None] is the
    [KeyError] of a record without the field read. *)
Definition detection_of (zombie_id : py_value) (timestamp : datetime)
    (zombie : host) : option (list detection) :=
  id ← zombie !! "dynatrace_host_id";
  if decide (id = zombie_id) then
    criterion_type ← zombie !! "criterion_type";
    criterion_alias ← zombie !! "criterion_alias";
    Some [ {| d_timestamp := timestamp;
              d_criterion_type := criterion_type;
              d_criterion_alias := criterion_alias |} ]
  else Some [].

(** [any(z["dynatrace_host_id"] == zombie_id for z in zombies)]: the scan
    stops at the first match. *)
Fixpoint any_has_id (zombie_id : py_value) (zombies : list host)
  : option bool :=
  match zombies with
  | [] => Some false
  | z :: zombies' =>
      id ← z !! "dynatrace_host_id";
      if decide (id = zombie_id) then Some true
      else any_has_id zombie_id zombies'
  end.

Definition get_zombie_lifecycle (s : store) (zombie_id : py_value)
  : option lifecycle :=
  let history := default [] (zombie_history_file s) in
  per_entry ←
    mapM (fun entry =>
            found ← mapM (detection_of zombie_id (he_timestamp entry))
                         (he_zombies entry);
            Some (concat found))
         history;
  let zombie_detections := concat per_entry in
  let current_zombies := _load_current_zombies s in
  is_active ← any_has_id zombie_id current_zombies;
  let killed_info := is_zombie_killed s zombie_id in
  Some {| lc_zombie_id := zombie_id;
          lc_first_seen := d_timestamp <$> head zombie_detections;
          lc_last_seen := d_timestamp <$> last zombie_detections;
          lc_total_detections := length zombie_detections;
          lc_is_active := is_active;
          lc_killed_info := killed_info;
          lc_detection_history := zombie_detections |}.

End TrackerQueries.

(** ** processor.py: filtering and summaries *)
Module ProcessorSummaries.
Import TrackerQueries.

(** What the embedding takes from the Python runtime for floats:
    [round((z / t) * 100, 2)] on two counts, [t] positive. *)
Class PyFloatArith := { round_percentage : nat -> nat -> spec_float }.

Definition filter_zombies (hosts : list host) : list host :=
  filter (fun h => is_zombie h = true) hosts.

(** [counts[key] = counts.get(key, 0) + 1]; [None] is the [TypeError] of a
    key that cannot be hashed.  Keys are compared as values, which is the
    comparison of a Python dict on strings, the type of a
    [criterion_type]; the counts are stated below for string keys. *)
Definition count_key (counts : option (gmap py_value nat)) (key : py_value)
  : option (gmap py_value nat) :=
  counts ← counts;
  if hashable key then Some (<[key := default 0 (counts !! key) + 1]> counts)
  else None.

(** What [get_zombie_summary] returns. *)
Record zombie_summary := {
  total_hosts : nat;
  zombie_hosts : nat;
  non_zombie_hosts : nat;
  zombie_percentage : py_value;
  criterion_breakdown : gmap py_value nat;
}.

Definition get_zombie_summary `{PyFloatArith} (hosts : list host)
  : option zombie_summary :=
  let total_hosts := length hosts in
  let zombie_hosts := length (filter (fun h => is_zombie h = true) hosts) in
  criterion_counts ←
    foldl (fun counts h =>
             count_key counts (default (PyStr "0") (h !! "criterion_type")))
          (Some ∅) hosts;
  Some {| total_hosts := total_hosts;
          zombie_hosts := zombie_hosts;
          non_zombie_hosts := total_hosts - zombie_hosts;
          zombie_percentage :=
            if 0 <? total_hosts
            then PyFloat (round_percentage zombie_hosts total_hosts)
            else PyInt 0;
          criterion_breakdown := criterion_counts |}.

(** What [get_killed_zombies_summary] returns. *)
Record killed_summary := {
  killed_zombies_count : nat;
  ks_since_hours : Z;
  ks_killed_zombies : list killed_entry;
  ks_criterion_breakdown : gmap py_value nat;
}.

(** [get_killed_zombies_summary] on the data directory [s] that [data_dir]
    (or the default) designates, at the instant [now]. *)
Definition get_killed_zombies_summary (s : store) (since_hours : Z)
    (now : datetime) : option killed_summary :=
  killed_zombies ← get_killed_zombies s since_hours now;
  criterion_counts ←
    foldl (fun counts zombie => count_key counts (ke_criterion_type zombie))
          (Some ∅) killed_zombies;
  Some {| killed_zombies_count := length killed_zombies;
          ks_since_hours := since_hours;
          ks_killed_zombies := killed_zombies;
          ks_criterion_breakdown := criterion_counts |}.

End ProcessorSummaries.

(** ** state_loader.py *)
Module StateLoader.

(** The states file: absent, present but unreadable or undecodable, or a
    JSON object of states. *)
Inductive state_file :=
  | StateFileMissing
  | StateFileUnreadable
  | StateFileContent (states : gmap string Z).

Definition load_criterion_type_states (state_path : state_file)
  : gmap string Z :=
  match state_path with
  | StateFileMissing =>
      py_dict [ ("T1", 1%Z); ("T2", 1%Z); ("T3", 1%Z); ("T4", 1%Z);
                ("T5", 0%Z); ("T6", 0%Z) ]
  | StateFileContent states => states
  | StateFileUnreadable =>
      py_dict [ ("T1", 1%Z); ("T2", 1%Z); ("T3", 1%Z); ("T4", 1%Z);
                ("T5", 0%Z); ("T6", 0%Z) ]
  end.

End StateLoader.

(** ** utils.py *)
Module Utils.

Definition required_fields : list string :=
  [ "dynatrace_host_id";
    "hostname";
    "Recent_CPU_decrease_criterion";
    "Recent_net_traffic_decrease_criterion";
    "Sustained_Low_CPU_criterion";
    "Excessively_constant_RAM_criterion";
    "Daily_CPU_profile_lost_criterion" ].

Definition validate_host_data (h : host) : bool :=
  forallb (fun field => bool_decide (is_Some (h !! field))) required_fields.

End Utils.

(** ** __init__.py *)
Module Package.
Import StateLoader.

(** [process_zombies]; the data file is [None] when [open] or [json.load]
    raises on it. *)
Definition process_zombies `{PyRuntime} (s : store)
    (data_path : option (list host)) (state_path : state_file)
    (now : datetime) : option (list host * store) :=
  hosts ← data_path;
  let state_map := load_criterion_type_states state_path in
  process_host_data s hosts state_map true now.

End Package.

(** ** main.py *)
Module Cli.

(** [{k: v for k, v in result.items() if k != "_tracking_info"}], the
    cleaning of a record before [handle_detect_command] prints or saves
    it. *)
Definition clean_result (result : host) : host :=
  delete "_tracking_info" result.

Definition clean_results (results : list host) : list host :=
  map clean_result results.

End Cli.

(** ** api/rest.py: the detection endpoint *)
Module Rest.
Import StateLoader Utils Package ProcessorSummaries.

Record DetectionOptions := {
  zombies_only : bool;
  include_summary : bool;
}.

(** The states the endpoint starts from. *)
Definition default_states : gmap string Z :=
  py_dict
    [ ("0", 0%Z);
      ("1A", 1%Z); ("1B", 1%Z); ("1C", 1%Z); ("1D", 1%Z); ("1E", 1%Z);
      ("2A", 1%Z); ("2B", 1%Z); ("2C", 1%Z); ("2D", 1%Z); ("2E", 1%Z);
      ("2F", 1%Z); ("2G", 1%Z); ("2H", 1%Z); ("2I", 1%Z); ("2J", 1%Z);
      ("3A", 1%Z); ("3B", 1%Z); ("3C", 1%Z); ("3D", 1%Z); ("3E", 1%Z);
      ("3F", 1%Z); ("3G", 1%Z); ("3H", 1%Z); ("3I", 1%Z); ("3J", 1%Z);
      ("4A", 1%Z); ("4B", 1%Z); ("4C", 1%Z); ("4D", 1%Z); ("4E", 1%Z);
      ("5", 1%Z) ].

(** [{**default_states, **states}]. *)
Definition final_states (states : gmap string Z) : gmap string Z :=
  states ∪ default_states.

(** How a request to [detect_zombies] ends. *)
Inductive detection_outcome :=
  | BadRequestNoHosts
  | BadRequestInvalidHosts (invalid_host_indices : list nat)
  | InternalServerError
  | DetectionResponse (results : list host) (summary : option zombie_summary).

(** [detect_zombies] on a parsed request, with the data directory before
    and after.  The two temporary files hold [hosts] and [final_states] as
    they are read back; an exception raised while processing leaves the
    directory as it was, because [save_current_zombies] reads every
    identifier before it writes. *)
Definition detect_zombies `{PyRuntime} `{PyFloatArith} (s : store)
    (hosts : list host) (states : option (gmap string Z))
    (options : option DetectionOptions) (now : datetime)
  : detection_outcome * store :=
  let states := default ∅ states in
  let options :=
    default {| zombies_only := false; include_summary := false |} options in
  match hosts with
  | [] => (BadRequestNoHosts, s)
  | _ =>
      let invalid_hosts :=
        omap (fun ih => if validate_host_data (snd ih) then None
                        else Some (fst ih))
             (enumerate hosts) in
      match invalid_hosts with
      | _ :: _ => (BadRequestInvalidHosts invalid_hosts, s)
      | [] =>
          match process_zombies s (Some hosts)
                                (StateFileContent (final_states states)) now with
          | None => (InternalServerError, s)
          | Some (results, s') =>
              let results :=
                if zombies_only options then filter_zombies results
                else results in
              if include_summary options then
                match get_zombie_summary results with
                | Some summary => (DetectionResponse results (Some summary), s')
                | None => (InternalServerError, s')
                end
              else (DetectionResponse results None, s')
          end
      end
  end.

End Rest.

Import ClassifierTables TrackerQueries ProcessorSummaries StateLoader Utils
       Package Cli.

(** ** Notions used to state the further properties *)

(** The decimal digit of a count below ten, as a character. *)
Definition digit_char (n : nat) : ascii := ascii_of_nat (48 + n).

(** The three facts of a subset that the classifier reports. *)
Definition classification_of (S : list nat)
  : option (string * string * string) :=
  code ← _code_for_active S;
  description ← _description_for_active S;
  Some (code, _alias_for_code code, description).

(** What is checked of one subset against the group of each count. *)
Definition grouping_check (S : list nat) : bool :=
  match _code_for_active S with
  | None => false
  | Some code =>
      forallb (fun k =>
                 match get_zombie_types_by_criteria_count !! k with
                 | None => false
                 | Some g =>
                     if decide (k = length S) then
                       bool_decide (g !! code = Some (_alias_for_code code)) &&
                       bool_decide (size g
                                    = length (lex_subsets (length S) (seq 0 5)))
                     else bool_decide (g !! code = None)
                 end)
              (seq 0 6)
  end.

(** What is checked of the code, alias and description of one subset: the
    code starts with the size of the subset, the description is not empty,
    and a subset that shares one of the three is the same subset. *)
Definition fields_check (S : list nat) : bool :=
  match classification_of S with
  | None => false
  | Some (c, a, d) =>
      bool_decide (String.get 0 c = Some (digit_char (length S))) &&
      negb (String.eqb d "") &&
      forallb (fun S' =>
                 match classification_of S' with
                 | None => false
                 | Some (c', a', d') =>
                     implb (String.eqb c' c || String.eqb a' a
                            || String.eqb d' d)
                           (bool_decide (S' = S))
                 end)
              (sublists (seq 0 5))
  end.

(** The fields [process_host_data] writes into a record, and those among
    them that hold the classification. *)
Definition enrichment_fields : list string :=
  [ "dynatrace_host_id"; "hostname"; "criterion_type"; "criterion_alias";
    "criterion_description"; "criterion_state"; "is_zombie" ].

Definition classification_fields : list string :=
  [ "criterion_type"; "criterion_alias"; "criterion_description";
    "criterion_state"; "is_zombie" ].

(** A stand-in for the float arithmetic of the runtime on sample data:
    the percentage as a whole number, rounded down. *)
Definition whole_percentage : PyFloatArith :=
  {| round_percentage := fun z t =>
       match (100 * z) `div` t with
       | 0 => S754_zero false
       | S n => S754_finite false (Pos.of_succ_nat n) 0
       end |}.

(** The last step of [process_host_data]: the report stored in the first
    record. *)
Definition attach_tracking_info (info : tracking_info) (records : list host)
  : list host :=
  match records with
  | [] => []
  | first :: rest =>
      <["_tracking_info" := tracking_info_value info]> first :: rest
  end.

(** The [criterion_type] a summary counts a record under. *)
Definition counted_type (h : host) : py_value :=
  default (PyStr "0") (h !! "criterion_type").

(** What the summaries rely on in a processed record. *)
Definition processed_record (r : host) : Prop :=
  exists code b, code ∈ all_codes /\
    r !! "criterion_type" = Some (PyStr code) /\
    r !! "is_zombie" = Some (PyBool b) /\
    (b = false <-> code = "0").

(** A record whose identifier is a string, and a list of such records.
    On them the sets and the searches of the tracker's embedding are
    Python's. *)
Definition string_id (z : host) : bool :=
  match z !! "dynatrace_host_id" with
  | Some (PyStr _) => true
  | _ => false
  end.

Definition string_ids (zombies : list host) : bool :=
  forallb string_id zombies.

(** A record that a summary counts under a string, and a killed entry
    whose [criterion_type] is a string. *)
Definition string_type (h : host) : bool :=
  match counted_type h with
  | PyStr _ => true
  | _ => false
  end.

Definition string_killed_type (e : killed_entry) : bool :=
  match ke_criterion_type e with
  | PyStr _ => true
  | _ => false
  end.

(** The first entry of a registry that carries an identifier. *)
Definition first_entry_of (id : py_value) (killed : list killed_entry)
    (e : killed_entry) : Prop :=
  exists i,
    killed !! i = Some e /\
    ke_dynatrace_host_id e = id /\
    forall j e', j < i -> killed !! j = Some e' ->
                 ke_dynatrace_host_id e' <> id.

(** A record with the fields the tracker reads back: an identifier that
    can be hashed, [criterion_type] and [criterion_alias]. *)
Definition tracked_record (z : host) : bool :=
  bool_decide (is_Some (host_id z)) &&
  bool_decide (is_Some (z !! "criterion_type")) &&
  bool_decide (is_Some (z !! "criterion_alias")).

(** A data directory whose snapshot and history hold such records only. *)
Definition tracked_store (s : store) : bool :=
  forallb tracked_record (_load_current_zombies s) &&
  forallb (fun entry => forallb tracked_record (he_zombies entry))
          (default [] (zombie_history_file s)).

(** The instants at which a history log holds a record of [zombie_id], one
    per record, in the order of the log. *)
Definition detections_in (zombie_id : py_value)
    (history : list history_entry) : list Z :=
  entry ← history;
  z ← he_zombies entry;
  if decide (z !! "dynatrace_host_id" = Some zombie_id)
  then [he_timestamp entry] else [].

(** A data directory with a history and a killed registry that both hold
    an entry forty days old and an entry one day old on 2025-01-01. *)
Definition store_with_registry : store :=
  {| current_zombies_file := None;
     zombie_history_file :=
       Some [ {| he_timestamp := forty_days_before;
                 he_zombie_count := 2;
                 he_zombies := [HOST_1; HOST_2] |};
              {| he_timestamp := new_year_2025 - MICROSECONDS_PER_DAY;
                 he_zombie_count := 1;
                 he_zombies := [HOST_3] |} ];
     killed_zombies_file :=
       Some [ killed_record (PyStr "HOST-1") HOST_1 forty_days_before;
              killed_record (PyStr "HOST-2") HOST_2
                (new_year_2025 - MICROSECONDS_PER_DAY) ] |}.

(** ** Checks by evaluation *)

(** The 32 (code, fields) pairs of the decode map. *)
Definition decode_listing : list (string * list string) :=
  Eval vm_compute in default [] (map_to_list <$> get_criteria_combinations).

(** The properties of one subset that are checked by evaluation. *)
Definition codec_check (S : list nat) : bool :=
  match _code_for_active S with
  | None => false
  | Some code =>
      bool_decide (spec_code S = Some code) &&
      bool_decide (Forall (fun S' => _code_for_active S' = Some code -> S' = S)
                          (sublists (seq 0 5))) &&
      match criteria_list S with
      | None => false
      | Some fields =>
          bool_decide ((code, fields) ∈ decode_listing) &&
          bool_decide (criteria_indices fields = Some S)
      end
  end.

(** A pair of the decode map is the image of a subset. *)
Definition decode_check (cf : string * list string) : bool :=
  match criteria_indices (snd cf) with
  | None => false
  | Some S' =>
      bool_decide (S' ∈ sublists (seq 0 5)) &&
      bool_decide (_code_for_active S' = Some (fst cf)) &&
      bool_decide (criteria_list S' = Some (snd cf))
  end.

(** Splits a conjunction of boolean checks into the propositions checked. *)
Ltac unpack_checks :=
  repeat match goal with
         | H : _ && _ = true |- _ => apply andb_prop in H as [? ?]
         | H : bool_decide _ = true |- _ => apply bool_decide_eq_true in H
         end.

(** * Properties *)

(** ** The codec *)

Lemma sublist_sublists {A} (l k : list A) :
  l `sublist_of` k -> l ∈ sublists k.
Proof.
  induction 1 as [|x l k _ IH|x l k _ IH]; simpl.
  - by left.
  - apply elem_of_app; left. by apply list_elem_of_fmap_2.
  - apply elem_of_app; by right.
Qed.

Example lex_pairs :
  lex_subsets 2 (seq 0 5) = TWO_COMBOS.
Proof. reflexivity. Qed.

Example lex_triples :
  lex_subsets 3 (seq 0 5) = THREE_COMBOS.
Proof. reflexivity. Qed.

Lemma get_criteria_combinations_listing :
  map_to_list <$> get_criteria_combinations = Some decode_listing.
Proof. vm_compute; reflexivity. Qed.

Lemma codec_check_all : Forall (fun S => codec_check S = true) (sublists (seq 0 5)).
Proof. apply (bool_decide_unpack _). vm_compute. exact I. Qed.

Lemma sublists_sublist {A} (l k : list A) :
  l ∈ sublists k -> l `sublist_of` k.
Proof.
  revert l. induction k as [|x k IH]; simpl; intros l Hl.
  - apply list_elem_of_singleton in Hl as ->. constructor.
  - apply elem_of_app in Hl as [Hl|Hl].
    + apply list_elem_of_fmap in Hl as (l' & -> & Hl'). constructor. by apply IH.
    + constructor. by apply IH.
Qed.

Lemma decode_check_all : Forall (fun cf => decode_check cf = true) decode_listing.
Proof. apply (bool_decide_unpack _). vm_compute. exact I. Qed.

(** C1. The codec is a bijection between the 32 subsets of {0,1,2,3,4}
    (given as ascending index tuples) and the 32 codes.  For every subset
    [S]: [_code_for_active] returns a code, the one the canonical letter
    assignment of the specification gives ([spec_code]); no other subset has
    that code; the decode map [get_criteria_combinations] holds, for that
    code, the criterion field names at the indices of [S] in ascending
    order, from which [S] is read back; and the decode map has exactly 32
    codes, each of them the code of a subset whose fields it lists. *)
Theorem codec_bijection (S : list nat) :
  S `sublist_of` seq 0 5 ->
  exists code decode fields,
    _code_for_active S = Some code /\
    spec_code S = Some code /\
    (forall S', S' `sublist_of` seq 0 5 ->
                _code_for_active S' = Some code -> S' = S) /\
    get_criteria_combinations = Some decode /\
    size decode = 32 /\
    decode !! code = Some fields /\
    Forall2 (fun i f => CRITERIA_KEYS !! i = Some f) S fields /\
    criteria_indices fields = Some S /\
    (forall code' fields',
        decode !! code' = Some fields' ->
        exists S', S' `sublist_of` seq 0 5 /\
                   _code_for_active S' = Some code' /\
                   Forall2 (fun i f => CRITERIA_KEYS !! i = Some f) S' fields' /\
                   criteria_indices fields' = Some S').
Proof.
  intros HS. apply sublist_sublists in HS.
  pose proof codec_check_all as Hall.
  rewrite list.Forall_forall in Hall. specialize (Hall S HS).
  unfold codec_check in Hall.
  destruct (_code_for_active S) as [code|] eqn:Hcode; [|done].
  destruct (criteria_list S) as [fields|] eqn:Hfields;
    [|by rewrite andb_false_r in Hall].
  unpack_checks.
  pose proof get_criteria_combinations_listing as Hdec.
  destruct get_criteria_combinations as [decode|]; [|done].
  injection Hdec as Hdec.
  exists code, decode, fields. split_and!; try done.
  - intros S' HS' HS'code. apply sublist_sublists in HS'.
    match goal with H : Forall _ _ |- _ => rewrite list.Forall_forall in H; eauto end.
  - by rewrite <- length_map_to_list, Hdec.
  - apply elem_of_map_to_list. by rewrite Hdec.
  - by apply mapM_Some_1.
  - intros code' fields' Hcf. apply elem_of_map_to_list in Hcf.
    rewrite Hdec in Hcf.
    pose proof decode_check_all as Hd. rewrite list.Forall_forall in Hd.
    specialize (Hd _ Hcf). unfold decode_check in Hd. simpl in Hd.
    destruct (criteria_indices fields') as [S'|]; [|done].
    unpack_checks.
    exists S'. split_and!; try done.
    + by apply sublists_sublist.
    + by apply mapM_Some_1.
Qed.

Lemma codec_bijection_witness :
  [0; 2; 4] `sublist_of` seq 0 5 /\
  exists code decode fields,
    _code_for_active [0; 2; 4] = Some code /\
    spec_code [0; 2; 4] = Some code /\
    (forall S', S' `sublist_of` seq 0 5 ->
                _code_for_active S' = Some code -> S' = [0; 2; 4]) /\
    get_criteria_combinations = Some decode /\
    size decode = 32 /\
    decode !! code = Some fields /\
    Forall2 (fun i f => CRITERIA_KEYS !! i = Some f) [0; 2; 4] fields /\
    criteria_indices fields = Some [0; 2; 4] /\
    (forall code' fields',
        decode !! code' = Some fields' ->
        exists S', S' `sublist_of` seq 0 5 /\
                   _code_for_active S' = Some code' /\
                   Forall2 (fun i f => CRITERIA_KEYS !! i = Some f) S' fields' /\
                   criteria_indices fields' = Some S').
Proof.
  assert ([0; 2; 4] `sublist_of` seq 0 5) as Hsub.
  { simpl. repeat constructor. }
  split; [exact Hsub | apply (codec_bijection [0; 2; 4] Hsub)].
Defined.

(** The code does not depend on the order in which the active indices are
    listed. *)
Lemma list_difference_perm (l k k' : list nat) :
  k ≡ₚ k' -> list_difference l k = list_difference l k'.
Proof.
  intros Hp. induction l as [|x l IH]; simpl; [done|]. rewrite IH.
  destruct (decide_rel elem_of x k) as [Hk|Hk],
           (decide_rel elem_of x k') as [Hk'|Hk']; try done.
  - by rewrite Hp in Hk.
  - by rewrite <- Hp in Hk'.
Qed.

Lemma code_for_active_perm (l k : list nat) :
  l ≡ₚ k -> _code_for_active l = _code_for_active k.
Proof.
  intros Hp. unfold _code_for_active, frozenset.
  rewrite (Permutation_length Hp), (list_difference_perm _ _ _ Hp),
    (list_to_set_perm_L (C:=gset nat) _ _ Hp).
  repeat case_match; try done.
  destruct k as [|b [|]]; try done.
  by apply Permutation_singleton_r in Hp as ->.
Qed.

Lemma code_for_active_any_order (l : list nat) :
  NoDup l -> Forall (fun i => i < 5) l ->
  exists S, S `sublist_of` seq 0 5 /\ S ≡ₚ l /\
            _code_for_active l = _code_for_active S.
Proof.
  intros Hnd Hlt. exists (filter (fun i => i ∈ l) (seq 0 5)).
  assert (filter (fun i => i ∈ l) (seq 0 5) ≡ₚ l) as Hp.
  { apply NoDup_Permutation; [apply NoDup_filter, NoDup_seq | done |].
    intros i. rewrite list_elem_of_filter, elem_of_seq.
    rewrite list.Forall_forall in Hlt. split; [tauto|].
    intros Hi. specialize (Hlt i Hi). split; [done | lia]. }
  split_and!; [apply sublist_filter | exact Hp | by apply code_for_active_perm].
Qed.

(** ** The alias table *)

(** C9. The alias table gives each of the 32 classification codes an alias
    of its own: the keys of [ALIAS_BY_CODE] are the 32 codes, the 32
    aliases are pairwise distinct, none is empty, every one is an entry of
    the table (no code falls back to itself), and no alias equals its
    code. *)
Theorem alias_table_unique :
  length all_codes = 32 /\
  NoDup all_codes /\
  dom ALIAS_BY_CODE = list_to_set all_codes /\
  NoDup (map _alias_for_code all_codes) /\
  Forall (fun code => ALIAS_BY_CODE !! code = Some (_alias_for_code code) /\
                      _alias_for_code code <> "" /\
                      _alias_for_code code <> code) all_codes.
Proof.
  split_and!; apply (bool_decide_unpack _); vm_compute; exact I.
Qed.

(** ** The classifier *)

Section ClassifierProperties.
Context `{PyRuntime}.

Lemma criterion_active_spec (h : host) (key : string) :
  criterion_active h key = true <->
  py_int (default (PyInt 0) (h !! key)) = Some 1%Z.
Proof.
  unfold criterion_active.
  destruct (py_int _) as [z|]; [|done].
  rewrite Z.eqb_eq. split; [by intros -> | by intros [= ->]].
Qed.

Lemma elem_of_active_indices (h : host) (i : nat) :
  i ∈ _active_indices h <->
  exists key, CRITERIA_KEYS !! i = Some key /\ criterion_active h key = true.
Proof.
  unfold _active_indices, enumerate. rewrite list_elem_of_omap. split.
  - intros ([j key] & Hin & Hsel). simpl in Hsel.
    apply elem_of_lookup_imap in Hin as (j' & key' & [= -> ->] & Hkey).
    destruct (criterion_active h key') eqn:Hact; [|done].
    injection Hsel as ->. eauto.
  - intros (key & Hkey & Hact). exists (i, key). split.
    + apply elem_of_lookup_imap. eauto.
    + simpl. by rewrite Hact.
Qed.

Lemma active_indices_sublist (h : host) :
  _active_indices h `sublist_of` seq 0 5.
Proof.
  unfold _active_indices, enumerate. simpl.
  repeat match goal with
         | |- context [criterion_active h ?k] => destruct (criterion_active h k)
         end; simpl; repeat constructor.
Qed.

Lemma code_for_subset (S : list nat) :
  S `sublist_of` seq 0 5 -> is_Some (_code_for_active S).
Proof.
  intros HS. apply sublist_sublists in HS. revert S HS.
  apply list.Forall_forall. apply (bool_decide_unpack _). vm_compute. exact I.
Qed.

Lemma description_for_subset (S : list nat) :
  S `sublist_of` seq 0 5 -> is_Some (_description_for_active S).
Proof.
  intros HS. apply sublist_sublists in HS. revert S HS.
  apply list.Forall_forall. apply (bool_decide_unpack _). vm_compute. exact I.
Qed.

Lemma classify_host_some (h : host) :
  exists code alias description,
    classify_host h = Some (code, alias, description).
Proof.
  unfold classify_host.
  pose proof (active_indices_sublist h) as Hsub.
  destruct (code_for_subset _ Hsub) as [code ->].
  destruct (description_for_subset _ Hsub) as [description ->].
  simpl. eauto.
Qed.

(** C7. [classify_host] returns a (code, alias, description) triple for
    every host dictionary, whatever its fields hold; and the index [i] of a
    criterion field [key] is among the active indices exactly when the
    field's value (0 when the field is missing), coerced by [int], is 1: a
    missing field and a value that [int] rejects are inactive. *)
Theorem classify_host_total (h : host) (i : nat) (key : string) :
  CRITERIA_KEYS !! i = Some key ->
  (exists code alias description,
      classify_host h = Some (code, alias, description)) /\
  (i ∈ _active_indices h <->
   py_int (default (PyInt 0) (h !! key)) = Some 1%Z) /\
  (h !! key = None -> i ∉ _active_indices h) /\
  (forall v, h !! key = Some v -> py_int v = None -> i ∉ _active_indices h).
Proof.
  intros Hkey.
  assert (i ∈ _active_indices h <->
          py_int (default (PyInt 0) (h !! key)) = Some 1%Z) as Hiff.
  { rewrite elem_of_active_indices, <- criterion_active_spec. split.
    - intros (key' & Hkey' & Hact). congruence.
    - eauto. }
  split_and!; [|exact Hiff| |].
  - apply classify_host_some.
  - intros Hnone. rewrite Hiff, Hnone. simpl. discriminate.
  - intros v Hv Hfail. rewrite Hiff, Hv. simpl. by rewrite Hfail.
Qed.

End ClassifierProperties.

(** A host whose fields hold an integer, a numeral in a string, a float, a
    list and nothing at all. *)
Example mixed_host_classified :
  let h : host :=
    py_dict [ ("Recent_CPU_decrease_criterion", PyInt 1);
              ("Recent_net_traffic_decrease_criterion", PyStr "1");
              ("Sustained_Low_CPU_criterion", PyFloat (S754_finite false 3 (-1)));
              ("Excessively_constant_RAM_criterion", PyList [PyInt 1]) ] in
  @_active_indices decimal_runtime h = [0; 1; 2] /\
  exists description,
    @classify_host decimal_runtime h = Some ("3A", "Solomon", description).
Proof. vm_compute. eauto. Qed.

Lemma classify_host_total_witness :
  let h : host := {[ "Sustained_Low_CPU_criterion" := PyStr "abc" ]} in
  CRITERIA_KEYS !! 2 = Some "Sustained_Low_CPU_criterion" /\
  ((exists code alias description,
       @classify_host decimal_runtime h = Some (code, alias, description)) /\
   (2 ∈ @_active_indices decimal_runtime h <->
    @py_int decimal_runtime
      (default (PyInt 0) (h !! "Sustained_Low_CPU_criterion")) = Some 1%Z) /\
   (h !! "Sustained_Low_CPU_criterion" = None ->
    2 ∉ @_active_indices decimal_runtime h) /\
   (forall v, h !! "Sustained_Low_CPU_criterion" = Some v ->
              @py_int decimal_runtime v = None ->
              2 ∉ @_active_indices decimal_runtime h)).
Proof.
  split; [reflexivity|].
  apply (@classify_host_total decimal_runtime). reflexivity.
Defined.

(** ** The enrichment step *)

Section ProcessorProperties.
Context `{PyRuntime}.

(** The fields of an enriched record, from the raw classification of the
    host and the state found for its code. *)
Lemma enrich_host_fields (states_config : gmap string Z) (h : host)
    (code alias description : string) :
  classify_host h = Some (code, alias, description) ->
  let state := default 1%Z (states_config !! code) in
  exists e,
    enrich_host states_config h = Some e /\
    e !! "criterion_state" = Some (PyInt state) /\
    e !! "criterion_type" =
      Some (PyStr (if (state =? 0)%Z then "0" else code)) /\
    e !! "criterion_alias" =
      Some (PyStr (if (state =? 0)%Z then "No Zombie Detected" else alias)) /\
    e !! "criterion_description" =
      Some (PyStr (if (state =? 0)%Z then "Sin criterios de zombie activos"
                   else description)) /\
    e !! "is_zombie" =
      Some (PyBool (if (state =? 0)%Z then false
                    else negb (String.eqb code "0"))) /\
    e !! "dynatrace_host_id" = Some (default PyNone (h !! "dynatrace_host_id")) /\
    e !! "_tracking_info" = h !! "_tracking_info".
Proof.
  intros Hclass state. unfold enrich_host. rewrite Hclass. simpl.
  fold state. destruct (state =? 0)%Z; eexists; (split; [reflexivity|]);
    unfold py_update; simpl; by simplify_map_eq.
Qed.

Lemma enrich_host_total (states_config : gmap string Z) (h : host) :
  is_Some (enrich_host states_config h).
Proof.
  destruct (classify_host_some h) as (code & alias & description & Hclass).
  destruct (enrich_host_fields states_config h _ _ _ Hclass) as (e & -> & _).
  eauto.
Qed.

Lemma is_zombie_flag (code : string) :
  negb (String.eqb code "0") = bool_decide (code <> "0").
Proof.
  destruct (String.eqb_spec code "0") as [->|Hne].
  - reflexivity.
  - symmetry. by apply bool_decide_eq_true_2.
Qed.

(** A host classified ["0"] has no active criterion: its alias and
    description are the fixed ones. *)
Lemma classify_host_zero (h : host) (alias description : string) :
  classify_host h = Some ("0", alias, description) ->
  alias = "No Zombie Detected" /\
  description = "Sin criterios de zombie activos".
Proof.
  unfold classify_host. intros Hclass.
  pose proof (active_indices_sublist h) as Hsub.
  apply sublist_sublists in Hsub.
  destruct (_code_for_active (_active_indices h)) as [code|] eqn:Hcode;
    [|done].
  simpl in Hclass.
  destruct (_description_for_active (_active_indices h)) as [d|] eqn:Hd;
    [|done].
  simpl in Hclass. injection Hclass as -> <- <-.
  assert (_active_indices h = []) as Hnil.
  { pose proof codec_check_all as Hall.
    rewrite list.Forall_forall in Hall. specialize (Hall [] (sublist_sublists _ _ (sublist_nil_l _))).
    unfold codec_check in Hall. simpl in Hall. unpack_checks.
    match goal with
    | HF : Forall _ _ |- _ => rewrite list.Forall_forall in HF; by apply HF
    end. }
  rewrite Hnil in Hd. by injection Hd as <-.
Qed.


(** C6, as the code has it.  When code ["0"] is absent from the states map,
    a host whose raw classification is ["0"] gets the lookup default of
    every absent code, 1: its [criterion_state] is 1 and the raw
    classification stands, that is [criterion_type] ["0"], alias
    ["No Zombie Detected"], the fixed description, and [is_zombie] [False]
    because the code is ["0"]. *)
Theorem absent_zero_defaults_active (states_config : gmap string Z) (h : host)
    (alias description : string) :
  states_config !! "0" = None ->
  classify_host h = Some ("0", alias, description) ->
  exists e,
    enrich_host states_config h = Some e /\
    e !! "criterion_state" = Some (PyInt 1) /\
    e !! "criterion_type" = Some (PyStr "0") /\
    e !! "criterion_alias" = Some (PyStr "No Zombie Detected") /\
    e !! "criterion_description" =
      Some (PyStr "Sin criterios de zombie activos") /\
    e !! "is_zombie" = Some (PyBool false).
Proof.
  intros Hstate Hclass.
  destruct (classify_host_zero _ _ _ Hclass) as [-> ->].
  destruct (enrich_host_fields states_config h _ _ _ Hclass)
    as (e & He & Hst & Htype & Halias & Hdesc & Hzombie & _).
  rewrite Hstate in *. simpl in *. exists e. done.
Qed.

(** Every absent code is looked up as active. *)
Lemma absent_code_defaults_active (states_config : gmap string Z) (h : host)
    (code alias description : string) :
  classify_host h = Some (code, alias, description) ->
  states_config !! code = None ->
  exists e,
    enrich_host states_config h = Some e /\
    e !! "criterion_state" = Some (PyInt 1).
Proof.
  intros Hclass Hstate.
  destruct (enrich_host_fields states_config h _ _ _ Hclass)
    as (e & He & Hst & _).
  rewrite Hstate in Hst. eauto.
Qed.

Lemma mapM_enrich_host (states_config : gmap string Z) (hosts : list host) :
  exists enriched,
    mapM (enrich_host states_config) hosts = Some enriched /\
    Forall2 (fun h e => enrich_host states_config h = Some e) hosts enriched.
Proof.
  destruct (mapM_is_Some_2 (enrich_host states_config) hosts) as [enriched He].
  - apply list.Forall_forall. intros h _. apply enrich_host_total.
  - exists enriched. split; [done|]. by apply mapM_Some_1.
Qed.

(** C10. When tracking is enabled but no host is enriched with
    [is_zombie = True], [process_host_data] does not call the tracker: it
    returns the enriched records as they are, with the three files of the
    data directory unchanged, and the ["_tracking_info"] entry of every
    returned record is that of the input host (none is attached). *)
Theorem no_zombie_no_tracking (s : store) (hosts : list host)
    (states_config : gmap string Z) (now : Z) :
  Forall (fun h => forall e, enrich_host states_config h = Some e ->
                             e !! "is_zombie" <> Some (PyBool true)) hosts ->
  exists enriched,
    Forall2 (fun h e => enrich_host states_config h = Some e) hosts enriched /\
    process_host_data s hosts states_config true now = Some (enriched, s) /\
    Forall2 (fun h e => e !! "_tracking_info" = h !! "_tracking_info")
            hosts enriched.
Proof.
  intros Hnone.
  destruct (mapM_enrich_host states_config hosts) as (enriched & HmapM & Hall).
  exists enriched. split; [exact Hall|].
  assert (filter (fun h => is_zombie h = true) enriched = [] /\
          Forall2 (fun h e => e !! "_tracking_info" = h !! "_tracking_info")
                  hosts enriched) as [Hfilter Hinfo].
  { clear HmapM. induction Hall as [|h e hosts enriched He _ IH].
    - by split.
    - apply Forall_cons_1 in Hnone as [Hh Hnone].
      destruct (IH Hnone) as [IHf IHi].
      destruct (classify_host_some h) as (code & alias & description & Hclass).
      destruct (enrich_host_fields states_config h _ _ _ Hclass)
        as (e' & He' & _ & _ & _ & _ & Hzombie & _ & Hinfo).
      rewrite He in He'. injection He' as <-.
      specialize (Hh e He). split; [|by constructor].
      rewrite filter_cons_False; [exact IHf|].
      unfold is_zombie. rewrite Hzombie in *. simpl.
      match goal with
      | |- ?b <> true => destruct b; [done | discriminate]
      end. }
  split; [|exact Hinfo].
  unfold process_host_data. rewrite HmapM. simpl. by rewrite Hfilter.
Qed.

End ProcessorProperties.


(** C6, as stated, fails: with an empty states map, a host without any
    active criterion is classified ["0"] and enriched with
    [criterion_state] 1, not 0. *)
Lemma absent_zero_is_disabled_counterexample :
  (∅ : gmap string Z) !! "0" = None /\
  @classify_host decimal_runtime ∅ =
    Some ("0", "No Zombie Detected", "Sin criterios de zombie activos") /\
  (exists e, @enrich_host decimal_runtime ∅ ∅ = Some e /\
             e !! "criterion_state" = Some (PyInt 1)) /\
  ~ @absent_zero_is_disabled decimal_runtime ∅ ∅.
Proof.
  assert (@classify_host decimal_runtime ∅ =
          Some ("0", "No Zombie Detected", "Sin criterios de zombie activos"))
    as Hc.
  { vm_compute. reflexivity. }
  pose proof (@absent_code_defaults_active decimal_runtime ∅ ∅ _ _ _ Hc
                (lookup_empty _)) as Hone.
  split_and!; [apply lookup_empty | exact Hc | exact Hone |].
  intros Hclaim. destruct Hone as (e1 & He1 & Hs1).
  destruct Hclaim as (e & He & Hs); [apply lookup_empty | eauto |].
  rewrite He1 in He. injection He as <-. rewrite Hs1 in Hs. discriminate.
Qed.

Lemma absent_zero_defaults_active_witness :
  (∅ : gmap string Z) !! "0" = None /\
  @classify_host decimal_runtime {[ "hostname" := PyStr "web-01" ]} =
    Some ("0", "No Zombie Detected", "Sin criterios de zombie activos") /\
  exists e,
    @enrich_host decimal_runtime ∅ {[ "hostname" := PyStr "web-01" ]} = Some e /\
    e !! "criterion_state" = Some (PyInt 1) /\
    e !! "criterion_type" = Some (PyStr "0") /\
    e !! "criterion_alias" = Some (PyStr "No Zombie Detected") /\
    e !! "criterion_description" =
      Some (PyStr "Sin criterios de zombie activos") /\
    e !! "is_zombie" = Some (PyBool false).
Proof.
  assert (@classify_host decimal_runtime {[ "hostname" := PyStr "web-01" ]} =
          Some ("0", "No Zombie Detected", "Sin criterios de zombie activos"))
    as Hc.
  { vm_compute. reflexivity. }
  split; [apply lookup_empty|]. split; [exact Hc|].
  apply (@absent_zero_defaults_active decimal_runtime ∅ _ _ _
           (lookup_empty _) Hc).
Defined.

(** ** The lifecycle tracker *)

Lemma elem_of_id_set (zombies : list host) (X : gset py_value) (id : py_value) :
  id_set zombies = Some X ->
  id ∈ X <-> exists z, z ∈ zombies /\ host_id z = Some id.
Proof.
  unfold id_set. destruct (mapM host_id zombies) as [ids|] eqn:Hids; [|done].
  simpl. intros [= <-]. apply mapM_Some_1 in Hids.
  rewrite elem_of_list_to_set. split.
  - intros Hin. apply list_elem_of_lookup in Hin as [i Hi].
    destruct (Forall2_lookup_r _ _ _ _ _ Hids Hi) as (z & Hz & Hid).
    exists z. split; [by eapply list_elem_of_lookup_2 | done].
  - intros (z & Hz & Hid). apply list_elem_of_lookup in Hz as [i Hi].
    destruct (Forall2_lookup_l _ _ _ _ _ Hids Hi) as (id' & Hid' & Heq).
    rewrite Hid in Heq. injection Heq as ->.
    by eapply list_elem_of_lookup_2.
Qed.

Lemma id_set_host_id (zombies : list host) (X : gset py_value) (z : host) :
  id_set zombies = Some X -> z ∈ zombies -> is_Some (host_id z).
Proof.
  unfold id_set. destruct (mapM host_id zombies) as [ids|] eqn:Hids; [|done].
  intros _ Hz. apply mapM_Some_1 in Hids.
  apply list_elem_of_lookup in Hz as [i Hi].
  destruct (Forall2_lookup_l _ _ _ _ _ Hids Hi) as (id & _ & Hid). eauto.
Qed.

Lemma host_id_lookup (z : host) (id : py_value) :
  host_id z = Some id -> z !! "dynatrace_host_id" = Some id.
Proof.
  unfold host_id. destruct (z !! "dynatrace_host_id") as [v|]; [|done].
  simpl. by destruct (hashable v); intros [= ->].
Qed.

Lemma killed_entry_of_id (killed_ids : gset py_value) (timestamp : Z)
    (z : host) (id : py_value) :
  host_id z = Some id ->
  killed_entry_of killed_ids timestamp z =
    Some (if decide (id ∈ killed_ids)
          then [killed_record id z timestamp] else []).
Proof.
  intros Hid. unfold killed_entry_of. rewrite Hid. simpl.
  by destruct (decide (id ∈ killed_ids)).
Qed.

(** The killed entries of a previous snapshot whose identifiers can all be
    read: one per record whose identifier is among the killed, and no
    other. *)
Lemma killed_entries_appended (killed_ids X : gset py_value)
    (previous_zombies : list host) (timestamp : Z) :
  id_set previous_zombies = Some X ->
  exists appended,
    mapM (killed_entry_of killed_ids timestamp) previous_zombies
      = Some appended /\
    forall e, e ∈ concat appended <->
              exists z id, z ∈ previous_zombies /\ host_id z = Some id /\
                           id ∈ killed_ids /\ e = killed_record id z timestamp.
Proof.
  intros HX.
  assert (Forall (fun z => is_Some (host_id z)) previous_zombies) as Hids.
  { apply list.Forall_forall. intros z Hz. by eapply id_set_host_id. }
  clear HX. induction Hids as [|z zs [id Hid] _ (appended & Happ & Hin)].
  - exists []. split; [done|]. intros e. simpl. split.
    + by intros ?%elem_of_nil.
    + by intros (z & id & ?%elem_of_nil & _).
  - simpl. rewrite (killed_entry_of_id _ _ _ _ Hid). simpl.
    rewrite Happ. simpl.
    destruct (decide (id ∈ killed_ids)) as [Hk|Hk];
      eexists; (split; [reflexivity|]); intros e; simpl.
    + rewrite elem_of_cons, Hin. split.
      * intros [->|(z' & id' & Hz' & ?)].
        -- exists z, id. split_and!; try done. by left.
        -- exists z', id'. split_and!; try tauto. by right.
      * intros (z' & id' & Hz' & Hid' & Hk' & ->).
        apply elem_of_cons in Hz' as [->|Hz'].
        -- left. rewrite Hid in Hid'. by injection Hid' as ->.
        -- right. eauto 10.
    + rewrite Hin. split.
      * intros (z' & id' & Hz' & ?). exists z', id'. split_and!; try tauto.
        by right.
      * intros (z' & id' & Hz' & Hid' & Hk' & ->).
        apply elem_of_cons in Hz' as [->|Hz']; [|eauto 10].
        rewrite Hid in Hid'. injection Hid' as ->. done.
Qed.

(** What [save_current_zombies] returns and writes, when the identifiers
    of the previous and of the current records can be read. *)
Lemma save_current_zombies_result (s : store) (zombies : list host) (now : Z)
    (P C : gset py_value) :
  id_set (_load_current_zombies s) = Some P ->
  id_set zombies = Some C ->
  exists appended,
    mapM (killed_entry_of (P ∖ C) now) (_load_current_zombies s)
      = Some appended /\
    let counts :=
      {| st_total_zombies := length zombies;
         st_new_zombies := size (C ∖ P);
         st_persisting_zombies := size (C ∩ P);
         st_killed_zombies := size (P ∖ C) |} in
    save_current_zombies s zombies now =
      Some ({| new_zombies := elements (C ∖ P);
               persisting_zombies := elements (C ∩ P);
               killed_zombies := elements (P ∖ C);
               tracking_stats := counts |},
            {| current_zombies_file :=
                 Some {| cz_timestamp := now;
                         cz_zombies := zombies;
                         cz_zombie_ids := elements C;
                         cz_stats := counts |};
               zombie_history_file :=
                 zombie_history_file (_update_zombie_history s zombies now);
               killed_zombies_file :=
                 if decide (P ∖ C = ∅) then killed_zombies_file s
                 else Some (default [] (killed_zombies_file s)
                            ++ concat appended) |}).
Proof.
  intros HP HC.
  destruct (killed_entries_appended (P ∖ C) P _ now HP) as (appended & Happ & _).
  exists appended. split; [exact Happ|].
  unfold save_current_zombies. rewrite HP, HC. simpl.
  destruct (decide (P ∖ C = ∅)) as [Hk|Hk]; simpl.
  - reflexivity.
  - unfold _track_killed_zombies. simpl. rewrite Happ. reflexivity.
Qed.

(** C2. Whatever the previous snapshot, with identifier set [P], and the
    current zombie records, with identifier set [C], the identifiers being
    strings, [save_current_zombies] returns the identifiers of [C − P] as
    new, of [C ∩ P] as persisting and of [P − C] as killed, each once; the
    three sets are pairwise disjoint, persisting ∪ killed is [P], new ∪
    persisting is [C], and the stats hold the size of each category and the
    number of current records. *)
Theorem transition_partition (s : store) (zombies : list host) (now : Z)
    (P C : gset py_value) :
  string_ids (_load_current_zombies s) = true ->
  string_ids zombies = true ->
  id_set (_load_current_zombies s) = Some P ->
  id_set zombies = Some C ->
  exists r s',
    save_current_zombies s zombies now = Some (r, s') /\
    let new : gset py_value := list_to_set (new_zombies r) in
    let persisting : gset py_value := list_to_set (persisting_zombies r) in
    let killed : gset py_value := list_to_set (killed_zombies r) in
    new = C ∖ P /\ persisting = C ∩ P /\ killed = P ∖ C /\
    NoDup (new_zombies r) /\ NoDup (persisting_zombies r) /\
    NoDup (killed_zombies r) /\
    new ## persisting /\ new ## killed /\ persisting ## killed /\
    persisting ∪ killed = P /\ new ∪ persisting = C /\
    st_new_zombies (tracking_stats r) = length (new_zombies r) /\
    st_new_zombies (tracking_stats r) = size new /\
    st_persisting_zombies (tracking_stats r) = length (persisting_zombies r) /\
    st_persisting_zombies (tracking_stats r) = size persisting /\
    st_killed_zombies (tracking_stats r) = length (killed_zombies r) /\
    st_killed_zombies (tracking_stats r) = size killed /\
    st_total_zombies (tracking_stats r) = length zombies.
Proof.
  intros _ _ HP HC.
  destruct (save_current_zombies_result s zombies now P C HP HC)
    as (appended & _ & Hsave).
  eexists _, _. split; [exact Hsave|]. simpl.
  rewrite !list_to_set_elements_L.
  split_and!; try reflexivity; try apply NoDup_elements.
  - apply elem_of_disjoint. intros x.
    rewrite elem_of_intersection, elem_of_difference. tauto.
  - apply elem_of_disjoint. intros x. rewrite !elem_of_difference. tauto.
  - apply elem_of_disjoint. intros x.
    rewrite elem_of_intersection, elem_of_difference. tauto.
  - apply set_eq. intros x. rewrite elem_of_union, elem_of_intersection,
      !elem_of_difference. destruct (decide (x ∈ C)); tauto.
  - apply set_eq. intros x. rewrite elem_of_union, elem_of_intersection,
      !elem_of_difference. destruct (decide (x ∈ P)); tauto.
Qed.

Lemma is_zombie_killed_found (s : store) (killed : list killed_entry)
    (e : killed_entry) :
  killed_zombies_file s = Some killed ->
  e ∈ killed ->
  exists e', is_zombie_killed s (ke_dynatrace_host_id e) = Some e' /\
             e' ∈ killed /\
             ke_dynatrace_host_id e' = ke_dynatrace_host_id e.
Proof.
  intros Hfile He. unfold is_zombie_killed. rewrite Hfile.
  destruct (list_find_elem_of
              (fun entry => ke_dynatrace_host_id entry = ke_dynatrace_host_id e)
              killed e He eq_refl) as [[i e'] Hfind].
  rewrite Hfind. simpl. exists e'.
  apply list_find_Some in Hfind as (Hi & Hid & _).
  split_and!; [done | by eapply list_elem_of_lookup_2 | done].
Qed.

(** What recording a snapshot does to the killed registry. *)
Lemma save_current_zombies_killed (s : store) (zombies : list host) (now : Z)
    (P C : gset py_value) :
  id_set (_load_current_zombies s) = Some P ->
  id_set zombies = Some C ->
  exists r s' appended,
    save_current_zombies s zombies now = Some (r, s') /\
    _load_current_zombies s' = zombies /\
    (P ∖ C <> ∅ ->
     killed_zombies_file s' =
       Some (default [] (killed_zombies_file s) ++ appended)) /\
    (forall e, e ∈ appended ->
               exists z, z ∈ _load_current_zombies s /\
                         e = killed_record (ke_dynatrace_host_id e) z now) /\
    forall id, id ∈ P -> id ∉ C ->
      (exists z, z ∈ _load_current_zombies s /\
                 z !! "dynatrace_host_id" = Some id /\
                 killed_record id z now ∈ appended) /\
      (exists e, is_zombie_killed s' id = Some e /\
                 ke_dynatrace_host_id e = id).
Proof.
  intros HP HC.
  destruct (save_current_zombies_result s zombies now P C HP HC)
    as (appended & Happ & Hsave).
  destruct (killed_entries_appended (P ∖ C) P _ now HP)
    as (appended' & Happ' & Hin).
  rewrite Happ in Happ'. injection Happ' as <-.
  eexists _, _, (concat appended). split; [exact Hsave|]. simpl.
  split; [reflexivity|]. split; [|split].
  - intros Hne. by rewrite decide_False.
  - intros e (z & id & Hz & _ & _ & ->)%Hin. exists z. by split.
  - intros id HidP HidC.
    assert (id ∈ P ∖ C) as Hk by (by apply elem_of_difference).
    apply (elem_of_id_set _ _ _ HP) in HidP as (z & Hz & Hid).
    assert (killed_record id z now ∈ concat appended) as He.
    { apply Hin. eauto 10. }
    split.
    + exists z. split_and!; [done | by apply host_id_lookup | done].
    + rewrite decide_False by (intros Hempty; rewrite Hempty in Hk;
                               by apply not_elem_of_empty in Hk).
      match goal with
      | |- context [is_zombie_killed ?s'] =>
          destruct (is_zombie_killed_found s'
                      (default [] (killed_zombies_file s) ++ concat appended)
                      (killed_record id z now) eq_refl) as (e & He' & _ & Hide)
      end.
      * apply elem_of_app. by right.
      * exists e. split; [exact He' | exact Hide].
Qed.

Lemma is_zombie_killed_first (s : store) (id : py_value) (e : killed_entry) :
  is_zombie_killed s id = Some e <->
  exists killed, killed_zombies_file s = Some killed /\
                 first_entry_of id killed e.
Proof.
  unfold is_zombie_killed, first_entry_of.
  destruct (killed_zombies_file s) as [killed|].
  - split.
    + destruct (list_find _ killed) as [[i e']|] eqn:Hfind; [|done].
      cbn. intros [= <-].
      apply list_find_Some in Hfind as (Hi & Hid & Hfirst).
      exists killed. split; [done|]. exists i. split_and!; try done.
      intros j e'' Hj He''. by eapply Hfirst.
    + intros (killed' & [= <-] & i & Hi & Hid & Hfirst).
      assert (list_find (fun entry => ke_dynatrace_host_id entry = id) killed
              = Some (i, e)) as ->; [|done].
      apply list_find_Some. split_and!; try done.
      intros j e' He' Hj. by eapply Hfirst.
  - split; [done|]. by intros (killed & [=] & _).
Qed.

(** The entry [is_zombie_killed] returns for an identifier that a run has
    killed: the first one of the registry the run leaves, which is an entry
    of this run unless the identifier had one already. *)
Lemma save_current_zombies_killed_first (s : store) (zombies : list host)
    (now : Z) (P C : gset py_value) :
  id_set (_load_current_zombies s) = Some P ->
  id_set zombies = Some C ->
  exists r s' appended,
    save_current_zombies s zombies now = Some (r, s') /\
    _load_current_zombies s' = zombies /\
    (P ∖ C <> ∅ ->
     killed_zombies_file s' =
       Some (default [] (killed_zombies_file s) ++ appended)) /\
    forall id, id ∈ P -> id ∉ C ->
      (exists z, z ∈ _load_current_zombies s /\
                 z !! "dynatrace_host_id" = Some id /\
                 killed_record id z now ∈ appended) /\
      (exists e, is_zombie_killed s' id = Some e /\
                 ke_dynatrace_host_id e = id /\
                 first_entry_of id
                   (default [] (killed_zombies_file s) ++ appended) e /\
                 (is_zombie_killed s id = None ->
                  exists z, z ∈ _load_current_zombies s /\
                            e = killed_record id z now)).
Proof.
  intros HP HC.
  destruct (save_current_zombies_killed s zombies now P C HP HC)
    as (r & s' & appended & Hsave & Hload & Hfile & Hrun & Hkilled).
  exists r, s', appended. split_and!; try done.
  intros id HidP HidC. destruct (Hkilled id HidP HidC) as [Hz (e & He & Hide)].
  split; [exact Hz|]. exists e. split; [exact He|]. split; [exact Hide|].
  assert (P ∖ C <> ∅) as Hne.
  { intros Hempty. apply (not_elem_of_empty (C:=gset py_value) id).
    rewrite <- Hempty. by apply elem_of_difference. }
  apply is_zombie_killed_first in He as (killed' & Hfile' & Hfirst).
  rewrite (Hfile Hne) in Hfile'. injection Hfile' as <-.
  split; [exact Hfirst|].
  intros Hbefore. destruct Hfirst as (i & Hi & _ & _).
  apply lookup_app_Some in Hi as [Hold|[_ Hnew]].
  - exfalso. apply list_elem_of_lookup_2 in Hold.
    destruct (killed_zombies_file s) as [killed|] eqn:Hkilled_file;
      [|by apply elem_of_nil in Hold].
    destruct (is_zombie_killed_found s killed e Hkilled_file Hold)
      as (e' & He' & _).
    rewrite Hide, Hbefore in He'. done.
  - apply list_elem_of_lookup_2 in Hnew.
    destruct (Hrun e Hnew) as (z & Hz' & Heq).
    exists z. split; [exact Hz'|]. by rewrite <- Hide.
Qed.

(** C4. After [save_current_zombies] records a snapshot, the identifiers
    being strings, for every identifier of the previous snapshot that is
    not in the current one a killed entry with that identifier, the
    hostname, [criterion_type] and [criterion_alias] of its previous record
    (["unknown"] where the record has none) and the run's timestamp is
    appended to the killed registry, and [is_zombie_killed] then returns
    the first entry of the registry with that identifier, an entry of this
    run unless the identifier had one before.  In particular, when the
    empty snapshot is recorded next, [is_zombie_killed] returns such an
    entry for every identifier of the snapshot just recorded. *)
Theorem killed_zombies_recorded (s : store) (zombies : list host)
    (now later : Z) (P C : gset py_value) :
  string_ids (_load_current_zombies s) = true ->
  string_ids zombies = true ->
  id_set (_load_current_zombies s) = Some P ->
  id_set zombies = Some C ->
  exists r s' appended,
    save_current_zombies s zombies now = Some (r, s') /\
    (P ∖ C <> ∅ ->
     killed_zombies_file s' =
       Some (default [] (killed_zombies_file s) ++ appended)) /\
    (forall id, id ∈ P -> id ∉ C ->
      (exists z, z ∈ _load_current_zombies s /\
                 z !! "dynatrace_host_id" = Some id /\
                 killed_record id z now ∈ appended) /\
      (exists e, is_zombie_killed s' id = Some e /\
                 ke_dynatrace_host_id e = id /\
                 first_entry_of id
                   (default [] (killed_zombies_file s) ++ appended) e /\
                 (is_zombie_killed s id = None ->
                  exists z, z ∈ _load_current_zombies s /\
                            e = killed_record id z now))) /\
    exists r2 s2 killed2,
      save_current_zombies s' [] later = Some (r2, s2) /\
      (C <> ∅ -> killed_zombies_file s2 = Some killed2) /\
      forall id, id ∈ C ->
        exists e, is_zombie_killed s2 id = Some e /\
                  ke_dynatrace_host_id e = id /\
                  first_entry_of id killed2 e /\
                  (is_zombie_killed s' id = None ->
                   exists z, z ∈ zombies /\ e = killed_record id z later).
Proof.
  intros _ _ HP HC.
  destruct (save_current_zombies_killed_first s zombies now P C HP HC)
    as (r & s' & appended & Hsave & Hload & Hfile & Hkilled).
  exists r, s', appended. split_and!; try done.
  assert (id_set (_load_current_zombies s') = Some C) as HP' by by rewrite Hload.
  destruct (save_current_zombies_killed_first s' [] later C ∅ HP' eq_refl)
    as (r2 & s2 & appended2 & Hsave2 & _ & Hfile2 & Hkilled2).
  exists r2, s2, (default [] (killed_zombies_file s') ++ appended2).
  split; [exact Hsave2|]. split.
  - intros Hne. apply Hfile2. by rewrite difference_empty_L.
  - intros id Hid.
    destruct (Hkilled2 id Hid (not_elem_of_empty id))
      as [_ (e & He & Hide & Hfirst & Hrun)].
    exists e. split_and!; try done.
    intros Hbefore. rewrite <- Hload. by apply Hrun.
Qed.

Lemma sample_id_set (zombies : list host) (ids : list py_value) :
  mapM host_id zombies = Some ids ->
  id_set zombies = Some (list_to_set ids).
Proof. intros Hids. unfold id_set. by rewrite Hids. Qed.

Lemma transition_partition_witness :
  let P : gset py_value := list_to_set [PyStr "HOST-1"; PyStr "HOST-2"] in
  let C : gset py_value := list_to_set [PyStr "HOST-1"; PyStr "HOST-3"] in
  let s := Samples.store_after_round1 in
  let zombies := [Samples.HOST_1; Samples.HOST_3] in
  string_ids (_load_current_zombies s) = true /\
  string_ids zombies = true /\
  id_set (_load_current_zombies s) = Some P /\
  id_set zombies = Some C /\
  exists r s',
    save_current_zombies s zombies 1 = Some (r, s') /\
    let new : gset py_value := list_to_set (new_zombies r) in
    let persisting : gset py_value := list_to_set (persisting_zombies r) in
    let killed : gset py_value := list_to_set (killed_zombies r) in
    new = C ∖ P /\ persisting = C ∩ P /\ killed = P ∖ C /\
    NoDup (new_zombies r) /\ NoDup (persisting_zombies r) /\
    NoDup (killed_zombies r) /\
    new ## persisting /\ new ## killed /\ persisting ## killed /\
    persisting ∪ killed = P /\ new ∪ persisting = C /\
    st_new_zombies (tracking_stats r) = length (new_zombies r) /\
    st_new_zombies (tracking_stats r) = size new /\
    st_persisting_zombies (tracking_stats r) = length (persisting_zombies r) /\
    st_persisting_zombies (tracking_stats r) = size persisting /\
    st_killed_zombies (tracking_stats r) = length (killed_zombies r) /\
    st_killed_zombies (tracking_stats r) = size killed /\
    st_total_zombies (tracking_stats r) = length zombies.
Proof.
  intros P C s zombies.
  assert (id_set (_load_current_zombies s) = Some P) as HP.
  { apply sample_id_set. vm_compute. reflexivity. }
  assert (id_set zombies = Some C) as HC.
  { apply sample_id_set. vm_compute. reflexivity. }
  assert (string_ids (_load_current_zombies s) = true) as Hprevious
    by (vm_compute; reflexivity).
  assert (string_ids zombies = true) as Hcurrent by (vm_compute; reflexivity).
  split; [exact Hprevious|]. split; [exact Hcurrent|].
  split; [exact HP|]. split; [exact HC|].
  apply (transition_partition s zombies 1 P C Hprevious Hcurrent HP HC).
Defined.

(** The second round of the tracking test: HOST-1 persists, HOST-3 is new,
    HOST-2 is killed. *)
Example second_round_report :
  fst <$> save_current_zombies Samples.store_after_round1
            [Samples.HOST_1; Samples.HOST_3] 1 =
  Some {| new_zombies := [PyStr "HOST-3"];
          persisting_zombies := [PyStr "HOST-1"];
          killed_zombies := [PyStr "HOST-2"];
          tracking_stats := {| st_total_zombies := 2;
                               st_new_zombies := 1;
                               st_persisting_zombies := 1;
                               st_killed_zombies := 1 |} |}.
Proof. vm_compute. reflexivity. Qed.

Lemma killed_zombies_recorded_witness :
  let P : gset py_value := list_to_set [PyStr "HOST-1"; PyStr "HOST-2"] in
  let C : gset py_value := list_to_set [PyStr "HOST-1"; PyStr "HOST-3"] in
  let s := Samples.store_after_round1 in
  let zombies := [Samples.HOST_1; Samples.HOST_3] in
  string_ids (_load_current_zombies s) = true /\
  string_ids zombies = true /\
  id_set (_load_current_zombies s) = Some P /\
  id_set zombies = Some C /\
  exists r s' appended,
    save_current_zombies s zombies 1 = Some (r, s') /\
    (P ∖ C <> ∅ ->
     killed_zombies_file s' =
       Some (default [] (killed_zombies_file s) ++ appended)) /\
    (forall id, id ∈ P -> id ∉ C ->
      (exists z, z ∈ _load_current_zombies s /\
                 z !! "dynatrace_host_id" = Some id /\
                 killed_record id z 1 ∈ appended) /\
      (exists e, is_zombie_killed s' id = Some e /\
                 ke_dynatrace_host_id e = id /\
                 first_entry_of id
                   (default [] (killed_zombies_file s) ++ appended) e /\
                 (is_zombie_killed s id = None ->
                  exists z, z ∈ _load_current_zombies s /\
                            e = killed_record id z 1))) /\
    exists r2 s2 killed2,
      save_current_zombies s' [] 2 = Some (r2, s2) /\
      (C <> ∅ -> killed_zombies_file s2 = Some killed2) /\
      forall id, id ∈ C ->
        exists e, is_zombie_killed s2 id = Some e /\
                  ke_dynatrace_host_id e = id /\
                  first_entry_of id killed2 e /\
                  (is_zombie_killed s' id = None ->
                   exists z, z ∈ zombies /\ e = killed_record id z 2).
Proof.
  intros P C s zombies.
  assert (id_set (_load_current_zombies s) = Some P) as HP.
  { apply sample_id_set. vm_compute. reflexivity. }
  assert (id_set zombies = Some C) as HC.
  { apply sample_id_set. vm_compute. reflexivity. }
  assert (string_ids (_load_current_zombies s) = true) as Hprevious
    by (vm_compute; reflexivity).
  assert (string_ids zombies = true) as Hcurrent by (vm_compute; reflexivity).
  split; [exact Hprevious|]. split; [exact Hcurrent|].
  split; [exact HP|]. split; [exact HC|].
  apply (killed_zombies_recorded s zombies 1 2 P C Hprevious Hcurrent HP HC).
Defined.

(** The killed-zombie test: HOST-1 is recorded, then the empty snapshot. *)
Example killed_after_empty_snapshot :
  (s1 ← snd <$> save_current_zombies Samples.fresh_store [Samples.HOST_1] 1;
   s2 ← snd <$> save_current_zombies s1 [] 2;
   is_zombie_killed s2 (PyStr "HOST-1")) =
  Some (killed_record (PyStr "HOST-1") Samples.HOST_1 2).
Proof. vm_compute. reflexivity. Qed.

(** C8. After a snapshot is recorded the history log holds at most 1000
    entries: the log is the old one with the entry of this run appended,
    cut to its last 1000 entries when it is longer, so the entries kept are
    the most recent ones, the one just appended among them, and the ones
    dropped are the oldest.  [save_current_zombies] leaves the log so. *)
Theorem history_capped (s : store) (zombies : list host) (now : Z) :
  let entry := {| he_timestamp := now;
                  he_zombie_count := length zombies;
                  he_zombies := zombies |} in
  let full := default [] (zombie_history_file s) ++ [entry] in
  exists history,
    zombie_history_file (_update_zombie_history s zombies now) = Some history /\
    length history <= 1000 /\
    length history = length full `min` 1000 /\
    history = drop (length full - 1000) full /\
    full = take (length full - 1000) full ++ history /\
    last history = Some entry /\
    forall r s', save_current_zombies s zombies now = Some (r, s') ->
                 zombie_history_file s' = Some history.
Proof.
  intros entry full.
  assert (length full = S (length (default [] (zombie_history_file s)))) as Hlen.
  { unfold full. rewrite length_app. simpl. lia. }
  exists (drop (length full - 1000) full).
  assert (zombie_history_file (_update_zombie_history s zombies now)
          = Some (drop (length full - 1000) full)) as Hfile.
  { unfold _update_zombie_history. simpl. fold entry. fold full.
    destruct (1000 <? length full) eqn:Hcap; [done|].
    apply Nat.ltb_ge in Hcap.
    by replace (length full - 1000) with 0 by lia. }
  split_and!.
  - exact Hfile.
  - rewrite length_drop. lia.
  - rewrite length_drop. lia.
  - reflexivity.
  - by rewrite take_drop.
  - unfold full at 2. rewrite drop_app_le by lia. apply last_snoc.
  - intros r s' Hsave. rewrite <- Hfile. unfold save_current_zombies in Hsave.
    destruct (id_set (_load_current_zombies s)) as [P|]; [|done].
    destruct (id_set zombies) as [C|]; [|done]. simpl in Hsave.
    destruct (decide (P ∖ C = ∅)); simpl in Hsave.
    + by injection Hsave as _ <-.
    + unfold _track_killed_zombies in Hsave.
      destruct (mapM _ _); [|done]. simpl in Hsave.
      by injection Hsave as _ <-.
Qed.

(** A log of 1000 entries: recording once more drops the oldest one. *)
Example history_full_evicts_oldest :
  let old := {| he_timestamp := 0; he_zombie_count := 0; he_zombies := [] |} in
  let recent := {| he_timestamp := 1; he_zombie_count := 0; he_zombies := [] |} in
  let s := {| current_zombies_file := None;
              zombie_history_file := Some (old :: replicate 999 recent);
              killed_zombies_file := None |} in
  zombie_history_file (_update_zombie_history s [] 2) =
  Some (replicate 999 recent
        ++ [ {| he_timestamp := 2; he_zombie_count := 0; he_zombies := [] |} ]).
Proof. vm_compute. reflexivity. Qed.

(** ** Retention *)

(** When both the history file and the killed registry can be read,
    [cleanup_old_data] keeps exactly the entries that are not older than
    the cutoff. *)
Lemma cleanup_old_data_retention (s : store) (days_to_keep now cutoff : Z)
    (history : list history_entry) (killed : list killed_entry) :
  timedelta_days days_to_keep ≫= datetime_sub now = Some cutoff ->
  zombie_history_file s = Some history ->
  killed_zombies_file s = Some killed ->
  exists s',
    cleanup_old_data s days_to_keep now = Some s' /\
    current_zombies_file s' = current_zombies_file s /\
    zombie_history_file s' =
      Some (filter (fun e => (cutoff <= he_timestamp e)%Z) history) /\
    killed_zombies_file s' =
      Some (filter (fun e => (cutoff <= ke_killed_at e)%Z) killed) /\
    (forall e, e ∈ filter (fun e => (cutoff <= he_timestamp e)%Z) history <->
               e ∈ history /\ ~ (he_timestamp e < cutoff)%Z) /\
    (forall e, e ∈ filter (fun e => (cutoff <= ke_killed_at e)%Z) killed <->
               e ∈ killed /\ ~ (ke_killed_at e < cutoff)%Z).
Proof.
  intros Hcut Hh Hk. unfold cleanup_old_data.
  destruct (timedelta_days days_to_keep) as [delta|]; [|done].
  simpl in Hcut |- *. rewrite Hcut. simpl. rewrite Hh. simpl. rewrite Hk.
  eexists. split; [reflexivity|]. simpl. split_and!; try reflexivity.
  - intros e. rewrite list_elem_of_filter. split; intros [? ?]; split; (done || lia).
  - intros e. rewrite list_elem_of_filter. split; intros [? ?]; split; (done || lia).
Qed.

(** C5, where the code departs from it.  With the history file missing or
    undecodable, [cleanup_old_data] returns before it reaches the killed
    registry: on 2025-01-01, with 30 days to keep, a killed entry forty
    days old is still in the registry afterwards. *)
Theorem cleanup_skips_killed_registry :
  let s := Samples.store_without_history in
  let now := Samples.new_year_2025 in
  let stale :=
    killed_record (PyStr "HOST-1") Samples.HOST_1 Samples.forty_days_before in
  timedelta_days 30 ≫= datetime_sub now
    = Some (now - 30 * MICROSECONDS_PER_DAY)%Z /\
  (ke_killed_at stale < now - 30 * MICROSECONDS_PER_DAY)%Z /\
  cleanup_old_data s 30 now = Some s /\
  killed_zombies_file s = Some [stale].
Proof.
  split_and!.
  - vm_compute. reflexivity.
  - vm_compute. reflexivity.
  - reflexivity.
  - reflexivity.
Qed.

(** ** Tracking through [process_host_data] *)

Lemma no_zombie_no_tracking_witness :
  let s := Samples.store_after_round1 in
  let hosts := [Samples.idle_host] in
  Forall (fun h => forall e, @enrich_host decimal_runtime ∅ h = Some e ->
                             e !! "is_zombie" <> Some (PyBool true)) hosts /\
  exists enriched,
    Forall2 (fun h e => @enrich_host decimal_runtime ∅ h = Some e)
            hosts enriched /\
    @process_host_data decimal_runtime s hosts ∅ true 1 = Some (enriched, s) /\
    Forall2 (fun h e => e !! "_tracking_info" = h !! "_tracking_info")
            hosts enriched.
Proof.
  intros s hosts.
  assert (Forall (fun h => forall e,
                      @enrich_host decimal_runtime ∅ h = Some e ->
                      e !! "is_zombie" <> Some (PyBool true)) hosts) as Hnone.
  { apply Forall_singleton. intros e He.
    assert (@classify_host decimal_runtime Samples.idle_host =
            Some ("0", "No Zombie Detected", "Sin criterios de zombie activos"))
      as Hc.
    { vm_compute. reflexivity. }
    destruct (@enrich_host_fields decimal_runtime ∅ _ _ _ _ Hc)
      as (e' & He' & _ & _ & _ & _ & Hz & _).
    rewrite He in He'. injection He' as <-.
    rewrite Hz. rewrite lookup_empty. simpl. discriminate. }
  split; [exact Hnone|].
  apply (@no_zombie_no_tracking decimal_runtime s hosts ∅ 1 Hnone).
Defined.

(** With a zombie among the hosts the tracker is called: the directory
    changes and the report is attached to the first record. *)
Example zombie_is_tracked :
  let h : host := py_dict [ ("dynatrace_host_id", PyStr "HOST-1");
                            ("Sustained_Low_CPU_criterion", PyInt 1) ] in
  match @process_host_data decimal_runtime Samples.fresh_store [h] ∅ true 1 with
  | Some ([e], s') =>
      e !! "_tracking_info" =
        Some (PyDict
                [ ("new_zombies", PyList [PyStr "HOST-1"]);
                  ("persisting_zombies", PyList []);
                  ("killed_zombies", PyList []);
                  ("stats", PyDict [ ("total_zombies", PyInt 1);
                                     ("new_zombies", PyInt 1);
                                     ("persisting_zombies", PyInt 0);
                                     ("killed_zombies", PyInt 0) ]) ]) /\
      (cz_zombie_ids <$> current_zombies_file s') = Some [PyStr "HOST-1"]
  | _ => False
  end.
Proof. vm_compute. split; reflexivity. Qed.

(** * Further properties of the code *)

#[local] Set Warnings "-clear-no-such-hyp".

(** ** classifier.py *)

Lemma grouped_counts :
  dom get_zombie_types_by_criteria_count = list_to_set (seq 0 6).
Proof. apply (bool_decide_unpack _). vm_compute. exact I. Qed.

Lemma grouping_check_all :
  Forall (fun S => grouping_check S = true) (sublists (seq 0 5)).
Proof. apply (bool_decide_unpack _). vm_compute. exact I. Qed.

(** X1. [get_zombie_types_by_criteria_count] files the code of every
    subset of {0..4}, with its alias, under the size of the subset and
    under no other count, and the group of a size has as many entries as
    there are subsets of that size. *)
Theorem zombie_types_grouped_by_size (S : list nat) :
  S `sublist_of` seq 0 5 ->
  exists code group,
    _code_for_active S = Some code /\
    get_zombie_types_by_criteria_count !! length S = Some group /\
    group !! code = Some (_alias_for_code code) /\
    size group = length (lex_subsets (length S) (seq 0 5)) /\
    forall k g, get_zombie_types_by_criteria_count !! k = Some g ->
                is_Some (g !! code) -> k = length S.
Proof.
  intros HS.
  assert (length S < 6) as Hlen.
  { apply sublist_length in HS. rewrite length_seq in HS. lia. }
  apply sublist_sublists in HS.
  pose proof grouping_check_all as Hall.
  rewrite list.Forall_forall in Hall. specialize (Hall S HS).
  unfold grouping_check in Hall.
  destruct (_code_for_active S) as [code|]; [|discriminate Hall].
  rewrite forallb_forall in Hall.
  assert (forall k, k < 6 ->
            exists g, get_zombie_types_by_criteria_count !! k = Some g /\
              if decide (k = length S) then
                g !! code = Some (_alias_for_code code) /\
                size g = length (lex_subsets (length S) (seq 0 5))
              else g !! code = None) as Hgroups.
  { intros k Hk. specialize (Hall k).
    destruct (get_zombie_types_by_criteria_count !! k) as [g|].
    - exists g. split; [reflexivity|].
      assert (In k (seq 0 6)) as Hin by (apply in_seq; lia).
      specialize (Hall Hin).
      destruct (decide (k = length S)).
      + apply andb_prop in Hall as [H1 H2].
        apply bool_decide_eq_true in H1. apply bool_decide_eq_true in H2.
        split; [exact H1 | exact H2].
      + apply bool_decide_eq_true in Hall. exact Hall.
    - assert (In k (seq 0 6)) as Hin by (apply in_seq; lia).
      discriminate (Hall Hin). }
  clear Hall.
  destruct (Hgroups _ Hlen) as (group & Hg & Hown).
  rewrite decide_True in Hown by reflexivity. destruct Hown as [Halias Hsize].
  exists code, group.
  split; [reflexivity|]. split; [exact Hg|]. split; [exact Halias|].
  split; [exact Hsize|].
  intros k g Hk [a Ha].
  assert (k < 6) as Hk6.
  { assert (k ∈ dom get_zombie_types_by_criteria_count) as Hdom.
    { apply elem_of_dom. by exists g. }
    rewrite grouped_counts, elem_of_list_to_set, elem_of_seq in Hdom. lia. }
  destruct (Hgroups _ Hk6) as (g' & Hg' & Hother).
  rewrite Hk in Hg'. injection Hg' as <-.
  destruct (decide (k = length S)) as [Heq|Hne]; [exact Heq|].
  rewrite Ha in Hother. discriminate Hother.
Qed.

Lemma zombie_types_grouped_by_size_witness :
  [1; 3] `sublist_of` seq 0 5 /\
  exists code group,
    _code_for_active [1; 3] = Some code /\
    get_zombie_types_by_criteria_count !! length [1; 3] = Some group /\
    group !! code = Some (_alias_for_code code) /\
    size group = length (lex_subsets (length [1; 3]) (seq 0 5)) /\
    forall k g, get_zombie_types_by_criteria_count !! k = Some g ->
                is_Some (g !! code) -> k = length [1; 3].
Proof.
  assert ([1; 3] `sublist_of` seq 0 5) as Hsub.
  { simpl. repeat constructor. }
  split; [exact Hsub | apply (zombie_types_grouped_by_size [1; 3] Hsub)].
Defined.

Lemma fields_check_all :
  Forall (fun S => fields_check S = true) (sublists (seq 0 5)).
Proof. apply (bool_decide_unpack _). vm_compute. exact I. Qed.

Section ClassifierFurther.
Context `{PyRuntime}.

Lemma classify_host_classification (h : host) :
  classify_host h = classification_of (_active_indices h).
Proof.
  unfold classify_host, classification_of.
  destruct (_code_for_active _); simpl; [|done].
  by destruct (_description_for_active _).
Qed.

(** The facts [fields_check] establishes, for the active indices of two
    hosts. *)
Lemma classification_checked (h1 h2 : host) :
  exists c1 a1 d1 c2 a2 d2,
    classify_host h1 = Some (c1, a1, d1) /\
    classify_host h2 = Some (c2, a2, d2) /\
    String.get 0 c1 = Some (digit_char (length (_active_indices h1))) /\
    d1 <> "" /\
    (c2 = c1 \/ a2 = a1 \/ d2 = d1 ->
     _active_indices h2 = _active_indices h1).
Proof.
  pose proof fields_check_all as Hall. rewrite list.Forall_forall in Hall.
  pose proof (Hall _ (sublist_sublists _ _ (active_indices_sublist h1))) as H1.
  pose proof (sublist_sublists _ _ (active_indices_sublist h2)) as H2.
  unfold fields_check in H1. rewrite !classify_host_classification.
  destruct (classification_of (_active_indices h1)) as [[[c1 a1] d1]|];
    [|discriminate H1].
  apply andb_prop in H1 as [H1 Hothers]. apply andb_prop in H1 as [Hdigit Hd].
  apply bool_decide_eq_true in Hdigit. apply negb_true_iff in Hd.
  rewrite forallb_forall in Hothers.
  apply list_elem_of_In in H2. specialize (Hothers _ H2).
  destruct (classification_of (_active_indices h2)) as [[[c2 a2] d2]|];
    [|discriminate Hothers].
  exists c1, a1, d1, c2, a2, d2. split_and!; try reflexivity.
  - exact Hdigit.
  - intros ->. by rewrite String.eqb_refl in Hd.
  - intros Hshared.
    assert (String.eqb c2 c1 || String.eqb a2 a1 || String.eqb d2 d1 = true)
      as Hor.
    { destruct Hshared as [-> | [-> | ->]]; rewrite String.eqb_refl;
        by rewrite ?orb_true_r. }
    rewrite Hor in Hothers. simpl in Hothers.
    by apply bool_decide_eq_true in Hothers.
Qed.

(** X2. The code, the alias and the description that [classify_host]
    gives two hosts go together: the codes are equal exactly when the
    hosts have the same active criteria, and then, and only then, the
    aliases are equal and the descriptions are equal. *)
Theorem classification_fields_agree (h1 h2 : host) :
  exists c1 a1 d1 c2 a2 d2,
    classify_host h1 = Some (c1, a1, d1) /\
    classify_host h2 = Some (c2, a2, d2) /\
    (c1 = c2 <-> _active_indices h1 = _active_indices h2) /\
    (a1 = a2 <-> c1 = c2) /\
    (d1 = d2 <-> c1 = c2).
Proof.
  destruct (classification_checked h1 h2)
    as (c1 & a1 & d1 & c2 & a2 & d2 & Hc1 & Hc2 & _ & _ & Hshared).
  exists c1, a1, d1, c2, a2, d2.
  assert (_active_indices h1 = _active_indices h2 ->
          c1 = c2 /\ a1 = a2 /\ d1 = d2) as Hsame.
  { intros Heq. rewrite !classify_host_classification, Heq in *.
    rewrite Hc1 in Hc2. by simplify_eq. }
  split; [exact Hc1|]. split; [exact Hc2|]. split_and!; split.
  - intros ->. symmetry. apply Hshared. by left.
  - intros Heq. by apply Hsame.
  - intros ->. apply Hsame. symmetry. apply Hshared. right. by left.
  - intros ->. apply Hsame. symmetry. apply Hshared. by left.
  - intros ->. apply Hsame. symmetry. apply Hshared. right. by right.
  - intros ->. apply Hsame. symmetry. apply Hshared. by left.
Qed.

(** X3. The code [classify_host] returns starts with the number of active
    criteria as a digit, so it is ["0"] exactly when no criterion is
    active; the description is never empty. *)
Theorem code_counts_active_criteria (h : host) :
  exists code alias description,
    classify_host h = Some (code, alias, description) /\
    String.get 0 code = Some (digit_char (length (_active_indices h))) /\
    (code = "0" <-> _active_indices h = []) /\
    description <> "".
Proof.
  destruct (classification_checked h ∅)
    as (c1 & a1 & d1 & c2 & a2 & d2 & Hc1 & Hc2 & Hdigit & Hd & Hshared).
  exists c1, a1, d1. split_and!; try done. split.
  - intros ->.
    pose proof (sublist_length _ _ (active_indices_sublist h)) as Hlen.
    rewrite length_seq in Hlen.
    destruct (_active_indices h) as [|i l]; [done|].
    change (String.get 0 "0") with (Some "0"%char) in Hdigit.
    injection Hdigit as Hdigit.
    apply (f_equal nat_of_ascii) in Hdigit. unfold digit_char in Hdigit.
    cbn [length] in Hlen.
    rewrite nat_ascii_embedding in Hdigit by lia.
    change (nat_of_ascii "0") with 48 in Hdigit. cbn [length] in Hdigit. lia.
  - intros Hnil. rewrite classify_host_classification, Hnil in Hc1.
    vm_compute in Hc1. by injection Hc1 as <- _ _.
Qed.

(** X4. [classify_host] reads nothing but the five criterion fields: two
    hosts that agree on them get the same code, alias and description,
    whatever else they carry. *)
Theorem classification_reads_only_criteria (h1 h2 : host) :
  (forall key, key ∈ CRITERIA_KEYS -> h1 !! key = h2 !! key) ->
  _active_indices h1 = _active_indices h2 /\
  classify_host h1 = classify_host h2.
Proof.
  intros Hkeys.
  assert (_active_indices h1 = _active_indices h2) as Heq.
  { unfold _active_indices. apply list_omap_ext.
    apply Forall2_same_length_lookup. split; [done|].
    intros j [i key] [i' key'] Hj Hj'. rewrite Hj in Hj'. injection Hj' as <- <-.
    unfold enumerate in Hj.
    apply list_lookup_imap_Some in Hj as (key' & Hkey & [= -> ->]).
    cbn [fst snd]. unfold criterion_active.
    by rewrite (Hkeys key') by by eapply list_elem_of_lookup_2. }
  split; [exact Heq|]. by rewrite !classify_host_classification, Heq.
Qed.

End ClassifierFurther.

Lemma classification_reads_only_criteria_witness :
  let h1 : host := py_dict [ ("Sustained_Low_CPU_criterion", PyInt 1);
                             ("hostname", PyStr "web-01") ] in
  let h2 : host := py_dict [ ("Sustained_Low_CPU_criterion", PyInt 1);
                             ("tenant", PyStr "acme");
                             ("dynatrace_host_id", PyStr "HOST-7") ] in
  (forall key, key ∈ CRITERIA_KEYS -> h1 !! key = h2 !! key) /\
  @_active_indices decimal_runtime h1 = @_active_indices decimal_runtime h2 /\
  @classify_host decimal_runtime h1 = @classify_host decimal_runtime h2.
Proof.
  intros h1 h2.
  assert (forall key, key ∈ CRITERIA_KEYS -> h1 !! key = h2 !! key) as Hkeys.
  { intros key Hkey. unfold CRITERIA_KEYS in Hkey.
    repeat (apply elem_of_cons in Hkey as [->|Hkey]; [vm_compute; reflexivity|]).
    by apply elem_of_nil in Hkey. }
  split; [exact Hkeys|].
  apply (@classification_reads_only_criteria decimal_runtime h1 h2 Hkeys).
Defined.

(** ** processor.py *)

Lemma py_update_lookup_not_in {V} (m : gmap string V) (l : list (string * V))
    (k : string) :
  k ∉ l.*1 -> py_update m l !! k = m !! k.
Proof.
  unfold py_update. revert m. induction l as [|[k' v] l IH]; intros m Hk.
  - reflexivity.
  - simpl in *. apply not_elem_of_cons in Hk as [Hne Hk].
    rewrite IH by exact Hk. by apply lookup_insert_ne.
Qed.

Lemma dom_py_update {V} (m : gmap string V) (l : list (string * V)) :
  dom (py_update m l) = dom m ∪ list_to_set l.*1.
Proof.
  unfold py_update. revert m. induction l as [|[k v] l IH]; intros m; simpl.
  - by rewrite (right_id_L ∅ (∪)).
  - rewrite IH, dom_insert_L. apply set_eq. intros x.
    rewrite !elem_of_union. tauto.
Qed.

Section ProcessorFurther.
Context `{PyRuntime}.

Lemma classify_host_code_zero (h : host) (code alias description : string) :
  classify_host h = Some (code, alias, description) ->
  code = "0" <-> _active_indices h = [].
Proof.
  intros Hclass.
  destruct (classification_checked h ∅)
    as (c1 & a1 & d1 & c2 & a2 & d2 & Hc1 & Hc2 & _ & _ & Hshared).
  rewrite Hclass in Hc1. injection Hc1 as <- <- <-.
  assert (c2 = "0") as ->.
  { vm_compute in Hc2. by injection Hc2 as <- _ _. }
  split.
  - intros ->. by rewrite <- Hshared by by left.
  - intros Hnil. rewrite classify_host_classification, Hnil in Hclass.
    vm_compute in Hclass. by injection Hclass as <- _ _.
Qed.

Lemma classify_host_code_known (h : host) (code alias description : string) :
  classify_host h = Some (code, alias, description) -> code ∈ all_codes.
Proof.
  rewrite classify_host_classification. unfold classification_of, all_codes.
  intros Hclass. apply list_elem_of_omap. exists (_active_indices h). split.
  - apply sublist_sublists, active_indices_sublist.
  - destruct (_code_for_active (_active_indices h)); simpl in *; [|done].
    destruct (_description_for_active _); simpl in *; [|done].
    by injection Hclass as -> _ _.
Qed.

(** X5. In the record [process_host_data] makes of a host, [is_zombie] is
    a boolean that is [True] exactly when at least one criterion is active
    and the states map does not give 0 to the host's code; it is [False]
    exactly when the record's [criterion_type] is ["0"]. *)
Theorem zombie_iff_active_and_enabled (states_config : gmap string Z)
    (h : host) :
  exists code alias description e b,
    classify_host h = Some (code, alias, description) /\
    enrich_host states_config h = Some e /\
    e !! "is_zombie" = Some (PyBool b) /\
    is_zombie e = b /\
    (b = true <->
     _active_indices h <> [] /\ states_config !! code <> Some 0%Z) /\
    (b = false <-> e !! "criterion_type" = Some (PyStr "0")).
Proof.
  destruct (classify_host_some h) as (code & alias & description & Hclass).
  destruct (enrich_host_fields states_config h _ _ _ Hclass)
    as (e & He & _ & Htype & _ & _ & Hzombie & _).
  pose proof (classify_host_code_zero _ _ _ _ Hclass) as Hzero.
  set (state := default 1%Z (states_config !! code)) in *.
  assert (state <> 0%Z <-> states_config !! code <> Some 0%Z) as Hstate.
  { unfold state. destruct (states_config !! code) as [z|]; simpl.
    - split; congruence.
    - split; [discriminate | lia]. }
  exists code, alias, description, e.
  exists (if (state =? 0)%Z then false else negb (String.eqb code "0")).
  split; [exact Hclass|]. split; [exact He|]. split; [exact Hzombie|].
  split; [unfold is_zombie; by rewrite Hzombie|].
  rewrite Htype, <- Hstate, <- Hzero.
  destruct (Z.eqb_spec state 0) as [Hst|Hst];
    destruct (String.eqb_spec code "0") as [Hcode|Hcode]; cbn [negb];
    naive_solver.
Qed.

(** X6. The record [process_host_data] makes of a host has the host's
    fields and the seven it writes; every other field keeps its value, the
    identifier and the hostname are the host's, or [None] where the host
    has none, so that a host accepted by [validate_host_data] keeps every
    field but the five of the classification. *)
Theorem enrichment_keeps_other_fields (states_config : gmap string Z)
    (h : host) :
  exists e,
    enrich_host states_config h = Some e /\
    dom e = dom h ∪ list_to_set enrichment_fields /\
    (forall k, k ∉ enrichment_fields -> e !! k = h !! k) /\
    e !! "dynatrace_host_id" = Some (default PyNone (h !! "dynatrace_host_id")) /\
    e !! "hostname" = Some (default PyNone (h !! "hostname")) /\
    (validate_host_data h = true ->
     forall k, k ∉ classification_fields -> e !! k = h !! k).
Proof.
  destruct (classify_host_some h) as (code & alias & description & Hclass).
  assert (exists l, enrich_host states_config h = Some (py_update h l) /\
                    l.*1 = enrichment_fields /\
                    l !! 0 = Some ("dynatrace_host_id",
                                   default PyNone (h !! "dynatrace_host_id")) /\
                    l !! 1 = Some ("hostname", default PyNone (h !! "hostname")))
    as (l & He & Hkeys & Hid & Hname).
  { unfold enrich_host. rewrite Hclass. cbn -[py_update default].
    destruct (_ =? 0)%Z; eexists; (split; [reflexivity|]); done. }
  assert (py_update h l !! "dynatrace_host_id"
          = Some (default PyNone (h !! "dynatrace_host_id")) /\
          py_update h l !! "hostname" = Some (default PyNone (h !! "hostname")))
    as [Heid Hename].
  { destruct l as [|[k0 v0] [|[k1 v1] l]]; try done.
    cbn [lookup list_lookup] in Hid, Hname.
    injection Hid as -> Hv0. injection Hname as -> Hv1.
    cbn [fmap list_fmap fst] in Hkeys. injection Hkeys as Hkeys.
    change (py_update h (("dynatrace_host_id", v0) :: ("hostname", v1) :: l))
      with (py_update (insert "hostname" v1 (insert "dynatrace_host_id" v0 h)) l).
    assert (("dynatrace_host_id" ∉ l.*1) /\ ("hostname" ∉ l.*1)) as [Hn1 Hn2].
    { rewrite Hkeys. split; apply (bool_decide_unpack _); vm_compute; exact I. }
    rewrite !py_update_lookup_not_in by done.
    rewrite lookup_insert_ne by done. rewrite !lookup_insert_eq.
    by rewrite Hv0, Hv1. }
  exists (py_update h l). split; [exact He|]. split_and!.
  - by rewrite dom_py_update, Hkeys.
  - intros k Hk. apply py_update_lookup_not_in. by rewrite Hkeys.
  - exact Heid.
  - exact Hename.
  - intros Hvalid k Hk. unfold validate_host_data in Hvalid.
    rewrite forallb_forall in Hvalid.
    destruct (decide (k = "dynatrace_host_id")) as [->|Hk1].
    { rewrite Heid.
      specialize (Hvalid "dynatrace_host_id" ltac:(by left)).
      apply bool_decide_eq_true in Hvalid as [v ->]. reflexivity. }
    destruct (decide (k = "hostname")) as [->|Hk2].
    { rewrite Hename.
      specialize (Hvalid "hostname" ltac:(right; by left)).
      apply bool_decide_eq_true in Hvalid as [v ->]. reflexivity. }
    apply py_update_lookup_not_in. rewrite Hkeys. unfold enrichment_fields.
    unfold classification_fields in Hk.
    rewrite !not_elem_of_cons in *. tauto.
Qed.

(** Entries of the states map under keys that are not classification
    codes are never read. *)
Lemma enrich_host_states_ext (states1 states2 : gmap string Z) (h : host) :
  (forall code, code ∈ all_codes -> states1 !! code = states2 !! code) ->
  enrich_host states1 h = enrich_host states2 h.
Proof.
  intros Hcodes. unfold enrich_host.
  destruct (classify_host h) as [[[code alias] description]|] eqn:Hclass;
    [|reflexivity].
  simpl. by rewrite (Hcodes code) by by eapply classify_host_code_known.
Qed.

(** X7. [process_host_data] reads the states map at classification codes
    only: two maps that agree on the 32 codes give the same records and
    the same effect on the data directory. *)
Theorem states_outside_codes_ignored (s : store) (hosts : list host)
    (states1 states2 : gmap string Z) (enable_tracking : bool) (now : Z) :
  (forall code, code ∈ all_codes -> states1 !! code = states2 !! code) ->
  (forall h, enrich_host states1 h = enrich_host states2 h) /\
  process_host_data s hosts states1 enable_tracking now =
  process_host_data s hosts states2 enable_tracking now.
Proof.
  intros Hcodes.
  assert (forall h, enrich_host states1 h = enrich_host states2 h) as Hext.
  { intros h. by apply enrich_host_states_ext. }
  split; [exact Hext|]. unfold process_host_data.
  by rewrite (mapM_ext _ _ hosts Hext).
Qed.

End ProcessorFurther.

Lemma states_outside_codes_ignored_witness :
  let fallback := load_criterion_type_states StateFileMissing in
  (forall code, code ∈ all_codes -> fallback !! code = (∅ : gmap string Z) !! code) /\
  (forall h, @enrich_host decimal_runtime fallback h
             = @enrich_host decimal_runtime ∅ h) /\
  @process_host_data decimal_runtime fresh_store [idle_host] fallback true 1 =
  @process_host_data decimal_runtime fresh_store [idle_host] ∅ true 1.
Proof.
  intros fallback.
  assert (forall code, code ∈ all_codes ->
                       fallback !! code = (∅ : gmap string Z) !! code) as Hcodes.
  { apply list.Forall_forall. apply (bool_decide_unpack _). vm_compute. exact I. }
  split; [exact Hcodes|].
  apply (@states_outside_codes_ignored decimal_runtime fresh_store [idle_host]
           fallback ∅ true 1 Hcodes).
Defined.

(** ** state_loader.py and __init__.py *)

Lemma fallback_states_miss_codes (f : state_file) (code : string) :
  f = StateFileMissing \/ f = StateFileUnreadable ->
  code ∈ all_codes ->
  load_criterion_type_states f !! code = (∅ : gmap string Z) !! code.
Proof.
  intros Hf Hcode. revert code Hcode. apply list.Forall_forall.
  destruct Hf as [-> | ->]; apply (bool_decide_unpack _); vm_compute; exact I.
Qed.

(** X8. The states [load_criterion_type_states] falls back on when the
    states file is missing or cannot be read are keyed by T1..T6, none of
    them a classification code: [process_zombies] then gives the records
    and the effect on the data directory that the empty states map gives,
    and every record has [criterion_state] 1 and the code [classify_host]
    returns. *)
Theorem fallback_states_disable_nothing `{PyRuntime} (s : store)
    (hosts : list host) (now : Z) (h : host) :
  process_zombies s (Some hosts) StateFileMissing now =
    process_host_data s hosts ∅ true now /\
  process_zombies s (Some hosts) StateFileUnreadable now =
    process_host_data s hosts ∅ true now /\
  exists code alias description e,
    classify_host h = Some (code, alias, description) /\
    enrich_host (load_criterion_type_states StateFileMissing) h = Some e /\
    enrich_host (load_criterion_type_states StateFileUnreadable) h = Some e /\
    e !! "criterion_state" = Some (PyInt 1) /\
    e !! "criterion_type" = Some (PyStr code) /\
    e !! "is_zombie" = Some (PyBool (bool_decide (code <> "0"))).
Proof.
  assert (forall f, f = StateFileMissing \/ f = StateFileUnreadable ->
            forall h', enrich_host (load_criterion_type_states f) h'
                       = enrich_host ∅ h') as Hext.
  { intros f Hf h'. apply enrich_host_states_ext. intros code Hcode.
    by apply fallback_states_miss_codes. }
  unfold process_zombies. cbn [mbind option_bind]. unfold process_host_data.
  rewrite (mapM_ext _ _ hosts (Hext StateFileMissing (or_introl eq_refl))).
  rewrite (mapM_ext _ _ hosts (Hext StateFileUnreadable (or_intror eq_refl))).
  split; [reflexivity|]. split; [reflexivity|].
  destruct (classify_host_some h) as (code & alias & description & Hclass).
  destruct (enrich_host_fields ∅ h _ _ _ Hclass)
    as (e & He & Hstate & Htype & _ & _ & Hzombie & _).
  rewrite lookup_empty in Hstate, Htype, Hzombie. cbn in Hstate, Htype, Hzombie.
  exists code, alias, description, e.
  rewrite !Hext by auto. rewrite <- is_zombie_flag. done.
Qed.

(** ** processor.py: tracking *)

Section TrackingFurther.
Context `{PyRuntime}.

(** [process_host_data] in terms of its three steps. *)
Lemma process_host_data_steps (s : store) (hosts enriched : list host)
    (states_config : gmap string Z) (enable_tracking : bool) (now : Z) :
  mapM (enrich_host states_config) hosts = Some enriched ->
  process_host_data s hosts states_config enable_tracking now =
  if enable_tracking then
    if decide (filter_zombies enriched = []) then Some (enriched, s)
    else
      r ← save_current_zombies s (filter_zombies enriched) now;
      Some (attach_tracking_info (fst r) enriched, snd r)
  else Some (enriched, s).
Proof.
  intros Hmap. unfold process_host_data, filter_zombies. rewrite Hmap.
  cbn [mbind option_bind]. destruct enable_tracking; [|reflexivity].
  destruct (filter _ enriched) as [|z zs] eqn:Hfilter; [reflexivity|].
  rewrite decide_False by done.
  destruct (save_current_zombies s (z :: zs) now) as [[info s']|];
    [|reflexivity].
  cbn. destruct enriched; [|reflexivity]. done.
Qed.

(** X9. With tracking disabled [process_host_data] never fails and never
    touches the data directory: it returns one record per host, in order,
    each the enrichment of its host. *)
Theorem tracking_disabled_never_writes (s : store) (hosts : list host)
    (states_config : gmap string Z) (now : Z) :
  exists enriched,
    process_host_data s hosts states_config false now = Some (enriched, s) /\
    length enriched = length hosts /\
    Forall2 (fun h e => enrich_host states_config h = Some e) hosts enriched.
Proof.
  destruct (mapM_enrich_host states_config hosts) as (enriched & Hmap & Hall).
  exists enriched. split_and!.
  - by rewrite (process_host_data_steps _ _ _ _ _ _ Hmap).
  - symmetry. by eapply Forall2_length.
  - exact Hall.
Qed.

Lemma enriched_host_id (states_config : gmap string Z) (h e : host) :
  enrich_host states_config h = Some e ->
  hashable (default PyNone (h !! "dynatrace_host_id")) = true ->
  host_id e = Some (default PyNone (h !! "dynatrace_host_id")).
Proof.
  intros He Hhash.
  destruct (classify_host_some h) as (code & alias & description & Hclass).
  destruct (enrich_host_fields states_config h _ _ _ Hclass)
    as (e' & He' & _ & _ & _ & _ & _ & Hid & _).
  rewrite He in He'. injection He' as <-.
  unfold host_id. rewrite Hid. cbn. by rewrite Hhash.
Qed.

Lemma attach_tracking_info_lookup (info : tracking_info) (records : list host) :
  Forall2 (fun r e => forall k, k <> "_tracking_info" -> r !! k = e !! k)
          (attach_tracking_info info records) records /\
  tail (attach_tracking_info info records) = tail records /\
  clean_results (attach_tracking_info info records) = clean_results records /\
  (records <> [] ->
   head (attach_tracking_info info records) ≫= (fun r => r !! "_tracking_info")
   = Some (tracking_info_value info)).
Proof.
  destruct records as [|first rest]; [by repeat split|].
  cbn [attach_tracking_info]. split_and!.
  - constructor.
    + intros k Hk. by rewrite lookup_insert_ne.
    + apply Forall2_same_length_lookup. split; [done|].
      intros i r e Hr He. rewrite Hr in He. by injection He as <-.
  - reflexivity.
  - unfold clean_results, clean_result. cbn. by rewrite delete_insert_eq.
  - intros _. cbn. apply lookup_insert_eq.
Qed.

(** X10. With tracking enabled, a readable previous snapshot and hosts
    whose identifiers can be hashed, [process_host_data] succeeds.  Its
    records are the enriched records, except that the first one carries
    the tracking report under ["_tracking_info"] when some record is a
    zombie: removing that key gives the enriched records back.  The
    tracker is called exactly when some record is a zombie, on the zombie
    records, which then form the current snapshot. *)
Theorem tracking_only_adds_info (s : store) (hosts : list host)
    (states_config : gmap string Z) (now : Z) (P : gset py_value) :
  id_set (_load_current_zombies s) = Some P ->
  Forall (fun h => hashable (default PyNone (h !! "dynatrace_host_id")) = true)
         hosts ->
  exists enriched results s',
    Forall2 (fun h e => enrich_host states_config h = Some e) hosts enriched /\
    process_host_data s hosts states_config true now = Some (results, s') /\
    Forall2 (fun r e => forall k, k <> "_tracking_info" -> r !! k = e !! k)
            results enriched /\
    tail results = tail enriched /\
    clean_results results = clean_results enriched /\
    (filter_zombies enriched = [] -> results = enriched /\ s' = s) /\
    (filter_zombies enriched <> [] ->
     exists info,
       save_current_zombies s (filter_zombies enriched) now = Some (info, s') /\
       _load_current_zombies s' = filter_zombies enriched /\
       head results ≫= (fun r => r !! "_tracking_info")
       = Some (tracking_info_value info)).
Proof.
  intros HP Hhash.
  destruct (mapM_enrich_host states_config hosts) as (enriched & Hmap & Hall).
  assert (is_Some (id_set (filter_zombies enriched))) as [C HC].
  { unfold id_set.
    destruct (mapM_is_Some_2 host_id (filter_zombies enriched)) as [ids ->];
      [|by eexists].
    apply list.Forall_forall. intros e He.
    apply list_elem_of_filter in He as [_ He].
    apply list_elem_of_lookup in He as [i Hi].
    destruct (Forall2_lookup_r _ _ _ _ _ Hall Hi) as (h & Hh & Hhe).
    rewrite list.Forall_forall in Hhash. unfold compose.
    rewrite (enriched_host_id _ _ _ Hhe); [by eexists|].
    apply Hhash. by eapply list_elem_of_lookup_2. }
  destruct (save_current_zombies_killed s _ now P C HP HC)
    as (info & s' & appended & Hsave & Hload & _).
  rewrite (process_host_data_steps _ _ _ _ _ _ Hmap).
  destruct (decide (filter_zombies enriched = [])) as [Hz|Hz].
  - exists enriched, enriched, s. split_and!; try done.
    apply Forall2_same_length_lookup. split; [done|].
    intros i r e Hr He. rewrite Hr in He. by injection He as <-.
  - rewrite Hsave. cbn [mbind option_bind fst snd].
    assert (enriched <> []) as Hne by (by intros ->).
    destruct (attach_tracking_info_lookup info enriched)
      as (Hsame & Htail & Hclean & Hhead).
    exists enriched, (attach_tracking_info info enriched), s'.
    split_and!; try done.
    intros _. exists info. split_and!; try done. by apply Hhead.
Qed.

End TrackingFurther.

Lemma tracking_only_adds_info_witness :
  let P : gset py_value := list_to_set [PyStr "HOST-1"; PyStr "HOST-2"] in
  let hosts : list host :=
    [ idle_host;
      py_dict [ ("dynatrace_host_id", PyStr "HOST-3");
                ("Sustained_Low_CPU_criterion", PyInt 1) ] ] in
  id_set (_load_current_zombies store_after_round1) = Some P /\
  Forall (fun h => hashable (default PyNone (h !! "dynatrace_host_id")) = true)
         hosts /\
  exists enriched results s',
    Forall2 (fun h e => @enrich_host decimal_runtime ∅ h = Some e)
            hosts enriched /\
    @process_host_data decimal_runtime store_after_round1 hosts ∅ true 1
      = Some (results, s') /\
    Forall2 (fun r e => forall k, k <> "_tracking_info" -> r !! k = e !! k)
            results enriched /\
    tail results = tail enriched /\
    clean_results results = clean_results enriched /\
    (filter_zombies enriched = [] -> results = enriched /\ s' = store_after_round1) /\
    (filter_zombies enriched <> [] ->
     exists info,
       save_current_zombies store_after_round1 (filter_zombies enriched) 1
         = Some (info, s') /\
       _load_current_zombies s' = filter_zombies enriched /\
       head results ≫= (fun r => r !! "_tracking_info")
       = Some (tracking_info_value info)).
Proof.
  intros P hosts.
  assert (id_set (_load_current_zombies store_after_round1) = Some P) as HP.
  { apply sample_id_set. vm_compute. reflexivity. }
  assert (Forall (fun h => hashable (default PyNone (h !! "dynatrace_host_id"))
                           = true) hosts) as Hhash.
  { repeat constructor. }
  split; [exact HP|]. split; [exact Hhash|].
  apply (@tracking_only_adds_info decimal_runtime store_after_round1 hosts ∅ 1 P
           HP Hhash).
Defined.

(** ** processor.py: summaries *)

Lemma count_keys_fold {A} (f : A -> py_value) (l : list A)
    (acc : gmap py_value nat) :
  Forall (fun x => hashable (f x) = true) l ->
  exists m,
    foldl (fun counts x => count_key counts (f x)) (Some acc) l = Some m /\
    dom m = dom acc ∪ list_to_set (f <$> l) /\
    forall k, default 0 (m !! k)
              = default 0 (acc !! k) + length (filter (fun x => f x = k) l).
Proof.
  intros Hl. revert acc. induction Hl as [|x l Hx _ IH]; intros acc.
  - exists acc. cbn. split_and!; [done| |].
    + by rewrite (right_id_L ∅ (∪)).
    + intros k. lia.
  - cbn [foldl]. unfold count_key at 2. cbn [mbind option_bind]. rewrite Hx.
    destruct (IH (<[f x := default 0 (acc !! f x) + 1]> acc))
      as (m & Hm & Hdom & Hcount).
    exists m. split; [exact Hm|]. split.
    + rewrite Hdom, dom_insert_L, fmap_cons, list_to_set_cons.
      apply set_eq. intros k. rewrite !elem_of_union. tauto.
    + intros k. rewrite Hcount. rewrite filter_cons.
      destruct (decide (f x = k)) as [<-|Hne].
      * rewrite lookup_insert_eq. cbn. lia.
      * rewrite lookup_insert_ne by done. lia.
Qed.

Lemma count_keys_unhashable {A} (f : A -> py_value) (l : list A)
    (acc : option (gmap py_value nat)) :
  Exists (fun x => hashable (f x) = false) l ->
  foldl (fun counts x => count_key counts (f x)) acc l = None.
Proof.
  assert (forall k, foldl (fun counts x => count_key counts (f x)) None k = None)
    as Hnone.
  { induction k as [|y k IHk]; [done|]. exact IHk. }
  intros Hex. revert acc. induction Hex as [x l Hx|x l _ IH]; intros acc.
  - cbn [foldl]. unfold count_key at 2.
    destruct acc as [acc|]; cbn [mbind option_bind]; [|apply Hnone].
    rewrite Hx. apply Hnone.
  - cbn [foldl]. apply IH.
Qed.

Lemma get_zombie_summary_hashable `{PyFloatArith} (hosts : list host) :
  Forall (fun h => hashable (counted_type h) = true) hosts ->
  exists sm,
    get_zombie_summary hosts = Some sm /\
    total_hosts sm = length hosts /\
    zombie_hosts sm = length (filter_zombies hosts) /\
    zombie_hosts sm + non_zombie_hosts sm = total_hosts sm /\
    dom (criterion_breakdown sm) = list_to_set (counted_type <$> hosts) /\
    (forall k, default 0 (criterion_breakdown sm !! k)
               = length (filter (fun h => counted_type h = k) hosts)) /\
    zombie_percentage sm =
      match hosts with
      | [] => PyInt 0
      | _ => PyFloat (round_percentage (zombie_hosts sm) (total_hosts sm))
      end.
Proof.
  intros Hall.
  destruct (count_keys_fold counted_type hosts ∅ Hall)
    as (m & Hm & Hdom & Hcount).
  unfold get_zombie_summary. unfold counted_type in Hm. rewrite Hm.
  cbn [mbind option_bind]. eexists. split; [reflexivity|].
  cbn [total_hosts zombie_hosts non_zombie_hosts criterion_breakdown
       zombie_percentage].
  split_and!.
  - reflexivity.
  - reflexivity.
  - pose proof (length_filter (fun h => is_zombie h = true) hosts). lia.
  - by rewrite Hdom, dom_empty_L, (left_id_L ∅ (∪)).
  - intros k. rewrite Hcount, lookup_empty. cbn. lia.
  - by destruct hosts.
Qed.

Lemma string_type_hashable (hosts : list host) :
  forallb string_type hosts = true ->
  Forall (fun h => hashable (counted_type h) = true) hosts.
Proof.
  induction hosts as [|h hosts IH]; cbn [forallb]; [constructor|].
  intros [Hh Hhosts]%andb_true_iff. constructor; [|by apply IH].
  unfold string_type in Hh. by destruct (counted_type h).
Qed.

(** X11. [get_zombie_summary] fails when the [criterion_type] of a record
    (["0"] when missing) cannot be hashed and succeeds otherwise.  On
    success [total_hosts] is the number of records, [zombie_hosts] the
    number [filter_zombies] keeps, [non_zombie_hosts] the rest, and the
    percentage is the integer 0 for no record (there is no division) and a
    float otherwise.  When every [criterion_type] is a string the breakdown
    counts, for every value, the records with that [criterion_type], and
    has no other key. *)
Theorem summary_counts `{PyFloatArith} (hosts : list host) :
  (Exists (fun h => hashable (counted_type h) = false) hosts ->
   get_zombie_summary hosts = None) /\
  (Forall (fun h => hashable (counted_type h) = true) hosts ->
   exists sm,
     get_zombie_summary hosts = Some sm /\
     total_hosts sm = length hosts /\
     zombie_hosts sm = length (filter_zombies hosts) /\
     zombie_hosts sm + non_zombie_hosts sm = total_hosts sm /\
     zombie_percentage sm =
       match hosts with
       | [] => PyInt 0
       | _ => PyFloat (round_percentage (zombie_hosts sm) (total_hosts sm))
       end) /\
  (forallb string_type hosts = true ->
   exists sm,
     get_zombie_summary hosts = Some sm /\
     dom (criterion_breakdown sm) = list_to_set (counted_type <$> hosts) /\
     (forall k, default 0 (criterion_breakdown sm !! k)
                = length (filter (fun h => counted_type h = k) hosts))).
Proof.
  split_and!.
  - intros Hex. unfold get_zombie_summary.
    by rewrite (count_keys_unhashable counted_type hosts (Some ∅) Hex).
  - intros Hall.
    destruct (get_zombie_summary_hashable hosts Hall)
      as (sm & Hsm & Htotal & Hz & Hsplit & _ & _ & Hpct).
    exists sm. by split_and!.
  - intros Hall%string_type_hashable.
    destruct (get_zombie_summary_hashable hosts Hall)
      as (sm & Hsm & _ & _ & _ & Hdom & Hcount & _).
    exists sm. by split_and!.
Qed.

Section SummaryOfProcessed.
Context `{PyRuntime} `{PyFloatArith}.

Lemma enriched_is_processed (states_config : gmap string Z) (h e : host) :
  enrich_host states_config h = Some e -> processed_record e.
Proof.
  intros He.
  destruct (classify_host_some h) as (code & alias & description & Hclass).
  destruct (enrich_host_fields states_config h _ _ _ Hclass)
    as (e' & He' & _ & Htype & _ & _ & Hzombie & _).
  rewrite He in He'. injection He' as <-.
  pose proof (classify_host_code_known _ _ _ _ Hclass) as Hknown.
  eexists _, _. split; [|split; [exact Htype | split; [exact Hzombie|]]].
  - destruct (_ =? 0)%Z; [|exact Hknown].
    apply (bool_decide_unpack _). vm_compute. exact I.
  - destruct (_ =? 0)%Z; [done|].
    destruct (String.eqb_spec code "0"); cbn; naive_solver.
Qed.

Lemma processed_records_counts (records : list host) :
  Forall processed_record records ->
  Forall (fun r => hashable (counted_type r) = true) records /\
  length records - length (filter_zombies records)
  = length (filter (fun r => counted_type r = PyStr "0") records).
Proof.
  intros Hall. split.
  - eapply Forall_impl; [exact Hall|].
    intros r (code & b & _ & Htype & _). unfold counted_type. by rewrite Htype.
  - assert (length (filter_zombies records)
            + length (filter (fun r => counted_type r = PyStr "0") records)
            = length records) as Hsum; [|lia].
    unfold filter_zombies.
    induction Hall as [|r records (code & b & _ & Htype & Hz & Hb) _ IH];
      [done|].
    assert (is_zombie r = b) as Hzb.
    { unfold is_zombie. by rewrite Hz. }
    assert (counted_type r = PyStr code) as Hct.
    { unfold counted_type. by rewrite Htype. }
    destruct b.
    + rewrite filter_cons_True by done.
      rewrite filter_cons_False.
      * cbn [length]. lia.
      * rewrite Hct. intros [= Hc]. by apply Hb in Hc.
    + rewrite filter_cons_False by (rewrite Hzb; done).
      rewrite filter_cons_True.
      * cbn [length]. lia.
      * rewrite Hct. f_equal. by apply Hb.
Qed.

(** X12. [get_zombie_summary] never fails on the records
    [process_host_data] makes: the keys of the breakdown are
    classification codes, [non_zombie_hosts] is the count under ["0"], and
    [zombie_hosts] is the number of records with another code. *)
Theorem summary_of_processed (states_config : gmap string Z)
    (hosts : list host) :
  exists enriched sm,
    Forall2 (fun h e => enrich_host states_config h = Some e) hosts enriched /\
    get_zombie_summary enriched = Some sm /\
    total_hosts sm = length hosts /\
    non_zombie_hosts sm = default 0 (criterion_breakdown sm !! PyStr "0") /\
    zombie_hosts sm
    = length (filter (fun e => counted_type e <> PyStr "0") enriched) /\
    forall k, k ∈ dom (criterion_breakdown sm) ->
              exists code, k = PyStr code /\ code ∈ all_codes.
Proof.
  destruct (mapM_enrich_host states_config hosts) as (enriched & _ & Hall).
  assert (Forall processed_record enriched) as Hproc.
  { apply list.Forall_forall. intros e He.
    apply list_elem_of_lookup in He as [i Hi].
    destruct (Forall2_lookup_r _ _ _ _ _ Hall Hi) as (h & _ & Hhe).
    by eapply enriched_is_processed. }
  destruct (processed_records_counts _ Hproc) as [Hhash Hnon].
  destruct (get_zombie_summary_hashable enriched Hhash)
    as (sm & Hsm & Htotal & Hz & Hsplit & Hdom & Hcount & _).
  exists enriched, sm. split; [exact Hall|]. split; [exact Hsm|]. split_and!.
  - rewrite Htotal. symmetry. by eapply Forall2_length.
  - rewrite Hcount, <- Hnon. lia.
  - pose proof (filter_app_complement
                  (fun e => counted_type e = PyStr "0") enriched) as Hperm.
    apply Permutation_length in Hperm. rewrite length_app in Hperm.
    rewrite Hz. pose proof (length_filter (fun h => is_zombie h = true) enriched).
    unfold filter_zombies in *. lia.
  - intros k Hk. rewrite Hdom, elem_of_list_to_set in Hk.
    apply list_elem_of_fmap in Hk as (e & -> & He).
    rewrite list.Forall_forall in Hproc.
    destruct (Hproc e He) as (code & b & Hcode & Htype & _).
    exists code. unfold counted_type. by rewrite Htype.
Qed.

End SummaryOfProcessed.

(** The summary of a processed batch, evaluated. *)
Example summary_of_sample_batch :
  let hosts : list host :=
    [ idle_host;
      py_dict [ ("dynatrace_host_id", PyStr "HOST-3");
                ("Sustained_Low_CPU_criterion", PyInt 1) ];
      py_dict [ ("dynatrace_host_id", PyStr "HOST-4");
                ("Sustained_Low_CPU_criterion", PyStr "1") ] ] in
  (enriched ← mapM (@enrich_host decimal_runtime ∅) hosts;
   sm ← @get_zombie_summary whole_percentage enriched;
   Some (total_hosts sm, zombie_hosts sm, non_zombie_hosts sm,
         zombie_percentage sm, map_to_list (criterion_breakdown sm))) =
  Some (3, 2, 1, PyFloat (S754_finite false 66 0),
        [(PyStr "1C", 2); (PyStr "0", 1)]).
Proof. vm_compute. reflexivity. Qed.

(** ** api/rest.py *)

Lemma default_states_lookup (code : string) :
  code ∈ all_codes ->
  Rest.default_states !! code = Some (if String.eqb code "0" then 0 else 1)%Z.
Proof.
  revert code. apply list.Forall_forall.
  apply (bool_decide_unpack _). vm_compute. exact I.
Qed.

Section RestFurther.
Context `{PyRuntime} `{PyFloatArith}.

Lemma enrich_host_state_ext (states1 states2 : gmap string Z) (h : host)
    (code alias description : string) :
  classify_host h = Some (code, alias, description) ->
  default 1%Z (states1 !! code) = default 1%Z (states2 !! code) ->
  enrich_host states1 h = enrich_host states2 h.
Proof.
  intros Hclass Hstate. unfold enrich_host. rewrite Hclass.
  cbn [mbind option_bind]. cbv beta iota zeta. by rewrite Hstate.
Qed.

(** X13. The states the REST endpoint adds to the caller's are observed
    in one place only.  For every host, the record made under
    [{**default_states, **states}] and the record made under [states]
    alone agree on every field except [criterion_state]; they are the same
    record unless the host has no active criterion and the caller gives no
    state for ["0"], in which case the endpoint reports [criterion_state]
    0 where the caller's map alone gives 1. *)
Theorem rest_default_states_neutral (states : gmap string Z) (h : host) :
  exists code alias description e_rest e_plain,
    classify_host h = Some (code, alias, description) /\
    enrich_host (Rest.final_states states) h = Some e_rest /\
    enrich_host states h = Some e_plain /\
    (forall k, k <> "criterion_state" -> e_rest !! k = e_plain !! k) /\
    (code <> "0" \/ is_Some (states !! "0") -> e_rest = e_plain) /\
    (code = "0" -> states !! "0" = None ->
     e_rest !! "criterion_state" = Some (PyInt 0) /\
     e_plain !! "criterion_state" = Some (PyInt 1)).
Proof.
  destruct (classify_host_some h) as (code & alias & description & Hclass).
  pose proof (classify_host_code_known _ _ _ _ Hclass) as Hknown.
  pose proof (default_states_lookup _ Hknown) as Hdefault.
  assert (Rest.final_states states !! code =
          Some (default (if String.eqb code "0" then 0 else 1)%Z
                        (states !! code))) as Hfinal.
  { unfold Rest.final_states. rewrite lookup_union.
    destruct (states !! code) as [z|]; rewrite Hdefault; reflexivity. }
  destruct (enrich_host_fields (Rest.final_states states) h _ _ _ Hclass)
    as (e1 & He1 & Hs1 & _).
  destruct (enrich_host_fields states h _ _ _ Hclass) as (e2 & He2 & Hs2 & _).
  exists code, alias, description, e1, e2.
  split; [exact Hclass|]. split; [exact He1|]. split; [exact He2|].
  assert (code <> "0" \/ is_Some (states !! "0") -> e1 = e2) as Hsame.
  { intros Hcase.
    assert (default 1%Z (Rest.final_states states !! code)
            = default 1%Z (states !! code)) as Hstate.
    { rewrite Hfinal. cbn [default].
      destruct (String.eqb_spec code "0") as [->|Hcode].
      - destruct Hcase as [Hne|[z Hz]]; [done|]. by rewrite Hz.
      - by destruct (states !! code). }
    rewrite (enrich_host_state_ext _ _ _ _ _ _ Hclass Hstate) in He1.
    rewrite He1 in He2. by injection He2. }
  destruct (decide (code <> "0" \/ is_Some (states !! "0"))) as [Hcase|Hcase].
  - rewrite (Hsame Hcase). split_and!; [done | done |].
    intros -> Hz. destruct Hcase as [Hne|[z Hsome]]; [done|].
    by rewrite Hz in Hsome.
  - assert (code = "0") as ->.
    { destruct (decide (code = "0")); [done|]. destruct Hcase. by left. }
    assert (states !! "0" = None) as Hz.
    { destruct (states !! "0") eqn:Hz; [|done]. destruct Hcase. right. eauto. }
    destruct (classify_host_zero _ _ _ Hclass) as [-> ->].
    rewrite Hfinal, Hz in Hs1. rewrite Hz in Hs2. cbn in Hs1, Hs2.
    split_and!; [|done|done].
    intros k Hk. unfold enrich_host in He1, He2. rewrite Hclass in He1, He2.
    cbn [mbind option_bind] in He1, He2. cbv beta iota zeta in He1, He2.
    rewrite Hfinal, Hz in He1. rewrite Hz in He2.
    cbn -[py_update] in He1, He2.
    injection He1 as <-. injection He2 as <-.
    unfold py_update. cbn [foldl fst snd].
    destruct (decide (k = "is_zombie")) as [->|Hk'].
    { by rewrite !lookup_insert_eq. }
    rewrite !(lookup_insert_ne _ "is_zombie") by done.
    by rewrite !(lookup_insert_ne _ "criterion_state") by done.
Qed.

Lemma invalid_host_indices (hosts : list host) (i : nat) :
  i ∈ omap (fun ih => if validate_host_data (snd ih) then None
                      else Some (fst ih)) (enumerate hosts) <->
  exists h, hosts !! i = Some h /\ validate_host_data h = false.
Proof.
  rewrite list_elem_of_omap. unfold enumerate. split.
  - intros ([j h] & Hin & Hsel). cbn [fst snd] in Hsel.
    apply elem_of_lookup_imap in Hin as (j' & h' & [= -> ->] & Hh).
    destruct (validate_host_data h') eqn:Hv; [done|].
    injection Hsel as ->. eauto.
  - intros (h & Hh & Hv). exists (i, h). split.
    + apply elem_of_lookup_imap. eauto.
    + cbn [fst snd]. by rewrite Hv.
Qed.

Lemma processed_results (s s' : store) (hosts results : list host)
    (states_config : gmap string Z) (enable_tracking : bool) (now : Z) :
  process_host_data s hosts states_config enable_tracking now
    = Some (results, s') ->
  Forall processed_record results.
Proof.
  destruct (mapM_enrich_host states_config hosts) as (enriched & Hmap & Hall).
  rewrite (process_host_data_steps _ _ _ _ _ _ Hmap).
  assert (Forall processed_record enriched) as Hproc.
  { apply list.Forall_forall. intros e He.
    apply list_elem_of_lookup in He as [i Hi].
    destruct (Forall2_lookup_r _ _ _ _ _ Hall Hi) as (h & _ & Hhe).
    by eapply enriched_is_processed. }
  assert (forall info, Forall processed_record
                         (attach_tracking_info info enriched)) as Hattach.
  { intros info. destruct Hproc as [|e l (code & b & ? & ? & ? & ?) Hl];
      [constructor|].
    constructor; [|exact Hl]. exists code, b.
    by rewrite !lookup_insert_ne by done. }
  destruct enable_tracking; [|by intros [= <- _]].
  destruct (decide _); [by intros [= <- _]|].
  destruct (save_current_zombies _ _ _) as [[info s'']|]; [|done].
  cbn. intros [= <- _]. apply Hattach.
Qed.

(** X14. How a request to the detection endpoint ends.  It is refused
    (400) when no host is sent or when some host lacks a required field,
    with the positions of those hosts, before anything is processed; it
    fails (500) when processing raises; otherwise the response holds the
    processed records, filtered to the zombies if asked, with their
    summary if asked, which is always available.  Only a successful
    response leaves the data directory changed. *)
Theorem rest_detection_outcomes (s : store) (hosts : list host)
    (states : option (gmap string Z)) (options : option Rest.DetectionOptions)
    (now : Z) :
  let final := Rest.final_states (default ∅ states) in
  let opts := default {| Rest.zombies_only := false;
                         Rest.include_summary := false |} options in
  match Rest.detect_zombies s hosts states options now with
  | (Rest.BadRequestNoHosts, s') => hosts = [] /\ s' = s
  | (Rest.BadRequestInvalidHosts idx, s') =>
      hosts <> [] /\ s' = s /\ idx <> [] /\
      forall i, i ∈ idx <->
                exists h, hosts !! i = Some h /\ validate_host_data h = false
  | (Rest.InternalServerError, s') =>
      s' = s /\ hosts <> [] /\
      Forall (fun h => validate_host_data h = true) hosts /\
      process_host_data s hosts final true now = None
  | (Rest.DetectionResponse results summary, s') =>
      hosts <> [] /\
      Forall (fun h => validate_host_data h = true) hosts /\
      exists processed,
        process_host_data s hosts final true now = Some (processed, s') /\
        results = (if Rest.zombies_only opts then filter_zombies processed
                   else processed) /\
        is_Some (get_zombie_summary results) /\
        summary = (if Rest.include_summary opts then get_zombie_summary results
                   else None)
  end.
Proof.
  intros final opts. unfold Rest.detect_zombies. fold opts. fold final.
  destruct hosts as [|h0 hosts0] eqn:Hhosts; [done|]. rewrite <- Hhosts.
  assert (hosts <> []) as Hne by (by rewrite Hhosts).
  clear Hhosts.
  destruct (omap _ (enumerate hosts)) as [|i0 idx0] eqn:Hidx.
  - assert (Forall (fun h => validate_host_data h = true) hosts) as Hvalid.
    { apply list.Forall_forall. intros h Hh.
      apply list_elem_of_lookup in Hh as [i Hi].
      destruct (validate_host_data h) eqn:Hv; [done|].
      assert (i ∈ @nil nat) as Hin; [|by apply elem_of_nil in Hin].
      rewrite <- Hidx. apply invalid_host_indices. eauto. }
    unfold process_zombies. cbn [mbind option_bind load_criterion_type_states].
    destruct (process_host_data s hosts final true now)
      as [[processed s']|] eqn:Hproc; [|done].
    assert (is_Some (get_zombie_summary
                       (if Rest.zombies_only opts then filter_zombies processed
                        else processed))) as Hsummary.
    { pose proof (processed_results _ _ _ _ _ _ _ Hproc) as Hrecords.
      assert (Forall processed_record
                (if Rest.zombies_only opts then filter_zombies processed
                 else processed)) as Hrecords'.
      { destruct (Rest.zombies_only opts); [|done].
        unfold filter_zombies. rewrite list.Forall_forall in Hrecords.
        apply list.Forall_forall. intros r Hr.
        apply list_elem_of_filter in Hr as [_ Hr]. by apply Hrecords. }
      destruct (processed_records_counts _ Hrecords') as [Hhash _].
      destruct (get_zombie_summary_hashable _ Hhash) as (sm & -> & _).
      by eexists. }
    destruct (Rest.include_summary opts) eqn:Hinc.
    + destruct Hsummary as [sm Hsm]. rewrite Hsm.
      split_and!; try done. exists processed. rewrite Hsm. by eauto.
    + split_and!; try done. exists processed. by eauto.
  - split_and!; try done. intros i. rewrite <- Hidx.
    apply invalid_host_indices.
Qed.

End RestFurther.

(** ** zombie_tracker.py: recording, queries and retention together *)

Lemma id_set_None (zombies : list host) :
  id_set zombies = None <-> Exists (fun z => host_id z = None) zombies.
Proof.
  rewrite <- mapM_None. unfold id_set.
  by destruct (mapM host_id zombies).
Qed.

(** X15. [save_current_zombies] raises exactly when a record of the
    previous snapshot or of the current zombies has no identifier that can
    be hashed; registering the killed ones never raises by itself. *)
Theorem recording_fails_iff (s : store) (zombies : list host) (now : Z) :
  save_current_zombies s zombies now = None <->
  Exists (fun z => host_id z = None) (_load_current_zombies s ++ zombies).
Proof.
  rewrite Exists_app, <- !id_set_None.
  destruct (id_set (_load_current_zombies s)) as [P|] eqn:HP.
  - destruct (id_set zombies) as [C|] eqn:HC.
    + destruct (save_current_zombies_result s zombies now P C HP HC)
        as (appended & _ & ->). cbn zeta. naive_solver.
    + unfold save_current_zombies. rewrite HP, HC. naive_solver.
  - unfold save_current_zombies. rewrite HP. naive_solver.
Qed.

(** X16. Recording a snapshot of records whose identifiers are strings,
    over a snapshot of such records, only appends to the killed registry:
    the entries it held stay, in order, before the new ones, which carry
    the instant of the run and identifiers of the previous snapshot that
    are gone; when no identifier is gone the file is left as it was,
    missing if it was missing.  As [is_zombie_killed] returns the first
    entry of an identifier, what it answered before the run for a string
    it answers after it: a host killed twice is reported with its first
    kill. *)
Theorem killed_registry_append_only (s : store) (zombies : list host)
    (now : Z) (P C : gset py_value) :
  string_ids (_load_current_zombies s) = true ->
  string_ids zombies = true ->
  id_set (_load_current_zombies s) = Some P ->
  id_set zombies = Some C ->
  exists r s' appended,
    save_current_zombies s zombies now = Some (r, s') /\
    default [] (killed_zombies_file s')
      = default [] (killed_zombies_file s) ++ appended /\
    (P ⊆ C -> killed_zombies_file s' = killed_zombies_file s) /\
    (forall e, e ∈ appended ->
               ke_killed_at e = now /\ ke_dynatrace_host_id e ∈ P ∖ C) /\
    forall (zombie_id : string) e,
      is_zombie_killed s (PyStr zombie_id) = Some e ->
      is_zombie_killed s' (PyStr zombie_id) = Some e.
Proof.
  intros _ _ HP HC.
  destruct (save_current_zombies_result s zombies now P C HP HC)
    as (appended & Happ & Hsave).
  destruct (killed_entries_appended (P ∖ C) P _ now HP)
    as (appended' & Happ' & Hin).
  rewrite Happ in Happ'. injection Happ' as <-.
  destruct (decide (P ∖ C = ∅)) as [Hnone|Hsome].
  - eexists _, _, []. split; [exact Hsave|]. cbn [killed_zombies_file].
    split_and!.
    + by rewrite (right_id_L [] (++)).
    + done.
    + by intros e ?%elem_of_nil.
    + done.
  - eexists _, _, (concat appended). split; [exact Hsave|].
    cbn [killed_zombies_file default]. split_and!.
    + done.
    + intros Hsub. destruct Hsome. apply set_eq. intros x.
      rewrite elem_of_difference. split; [|by intros ?%not_elem_of_empty].
      intros [HxP HxC]. destruct HxC. by apply Hsub.
    + intros e (z & id & _ & _ & Hid & ->)%Hin. done.
    + intros zombie_id e. unfold is_zombie_killed. cbn [killed_zombies_file].
      destruct (killed_zombies_file s) as [killed|]; [|done]. cbn [default].
      destruct (list_find _ killed) as [[i e']|] eqn:Hfind; [|done].
      intros [= <-]. by rewrite (list_find_app_l _ _ _ _ _ Hfind).
Qed.

Lemma killed_registry_append_only_witness :
  let P : gset py_value := list_to_set [PyStr "HOST-1"; PyStr "HOST-2"] in
  let C : gset py_value := list_to_set [PyStr "HOST-1"; PyStr "HOST-3"] in
  let s := store_after_round1 in
  let zombies := [HOST_1; HOST_3] in
  string_ids (_load_current_zombies s) = true /\
  string_ids zombies = true /\
  id_set (_load_current_zombies s) = Some P /\
  id_set zombies = Some C /\
  exists r s' appended,
    save_current_zombies s zombies 1 = Some (r, s') /\
    default [] (killed_zombies_file s')
      = default [] (killed_zombies_file s) ++ appended /\
    (P ⊆ C -> killed_zombies_file s' = killed_zombies_file s) /\
    (forall e, e ∈ appended ->
               ke_killed_at e = 1%Z /\ ke_dynatrace_host_id e ∈ P ∖ C) /\
    forall (zombie_id : string) e,
      is_zombie_killed s (PyStr zombie_id) = Some e ->
      is_zombie_killed s' (PyStr zombie_id) = Some e.
Proof.
  intros P C s zombies.
  assert (string_ids (_load_current_zombies s) = true) as Hprevious
    by (vm_compute; reflexivity).
  assert (string_ids zombies = true) as Hcurrent by (vm_compute; reflexivity).
  assert (id_set (_load_current_zombies s) = Some P) as HP.
  { apply sample_id_set. vm_compute. reflexivity. }
  assert (id_set zombies = Some C) as HC.
  { apply sample_id_set. vm_compute. reflexivity. }
  split; [exact Hprevious|]. split; [exact Hcurrent|].
  split; [exact HP|]. split; [exact HC|].
  apply (killed_registry_append_only s zombies 1 P C Hprevious Hcurrent HP HC).
Defined.

(** X17. A kill recorded by a run is listed by a later
    [get_killed_zombies] exactly when the period asked for reaches back to
    the run: the identifiers being strings, for an identifier of the
    previous snapshot that is gone, the entry made from its previous record
    is in the list if and only if the cutoff is not after the instant of
    the run. *)
Theorem recorded_kill_is_listed (s : store) (zombies : list host)
    (now later since_hours delta cutoff : Z) (P C : gset py_value)
    (id : py_value) :
  string_ids (_load_current_zombies s) = true ->
  string_ids zombies = true ->
  id_set (_load_current_zombies s) = Some P ->
  id_set zombies = Some C ->
  id ∈ P -> id ∉ C ->
  timedelta_hours since_hours = Some delta ->
  datetime_sub later delta = Some cutoff ->
  exists r s' listed z,
    save_current_zombies s zombies now = Some (r, s') /\
    get_killed_zombies s' since_hours later = Some listed /\
    z ∈ _load_current_zombies s /\
    z !! "dynatrace_host_id" = Some id /\
    (killed_record id z now ∈ listed <-> (cutoff <= now)%Z) /\
    forall e, e ∈ listed -> (cutoff <= ke_killed_at e)%Z.
Proof.
  intros _ _ HP HC HidP HidC Hdelta Hcutoff.
  destruct (save_current_zombies_killed s zombies now P C HP HC)
    as (r & s' & appended & Hsave & _ & Hfile & _ & Hkilled).
  destruct (Hkilled id HidP HidC) as [(z & Hz & Hid & Hrec) _].
  assert (P ∖ C <> ∅) as Hne.
  { intros Hempty. apply (not_elem_of_empty (C:=gset py_value) id).
    rewrite <- Hempty. by apply elem_of_difference. }
  specialize (Hfile Hne).
  exists r, s'. eexists _, z. split; [exact Hsave|].
  unfold get_killed_zombies. rewrite Hfile, Hdelta. cbn [mbind option_bind].
  rewrite Hcutoff. cbn [mbind option_bind]. split; [reflexivity|].
  split; [exact Hz|]. split; [exact Hid|]. split.
  - rewrite list_elem_of_filter. cbn [killed_record ke_killed_at]. split.
    + by intros [? _].
    + intros Hle. split; [exact Hle|]. apply elem_of_app. by right.
  - intros e. rewrite list_elem_of_filter. by intros [? _].
Qed.

Lemma recorded_kill_is_listed_witness :
  let P : gset py_value := list_to_set [PyStr "HOST-1"; PyStr "HOST-2"] in
  let C : gset py_value := list_to_set [PyStr "HOST-1"; PyStr "HOST-3"] in
  let s := store_after_round1 in
  let zombies := [HOST_1; HOST_3] in
  let now := new_year_2025 in
  let later := (new_year_2025 + 5 * MICROSECONDS_PER_HOUR)%Z in
  let cutoff := (new_year_2025 - 19 * MICROSECONDS_PER_HOUR)%Z in
  string_ids (_load_current_zombies s) = true /\
  string_ids zombies = true /\
  id_set (_load_current_zombies s) = Some P /\
  id_set zombies = Some C /\
  (PyStr "HOST-2" ∈ P) /\ (PyStr "HOST-2" ∉ C) /\
  timedelta_hours 24 = Some (24 * MICROSECONDS_PER_HOUR)%Z /\
  datetime_sub later (24 * MICROSECONDS_PER_HOUR) = Some cutoff /\
  exists r s' listed z,
    save_current_zombies s zombies now = Some (r, s') /\
    get_killed_zombies s' 24 later = Some listed /\
    z ∈ _load_current_zombies s /\
    z !! "dynatrace_host_id" = Some (PyStr "HOST-2") /\
    (killed_record (PyStr "HOST-2") z now ∈ listed <-> (cutoff <= now)%Z) /\
    forall e, e ∈ listed -> (cutoff <= ke_killed_at e)%Z.
Proof.
  intros P C s zombies now later cutoff.
  assert (string_ids (_load_current_zombies s) = true) as Hprevious
    by (vm_compute; reflexivity).
  assert (string_ids zombies = true) as Hcurrent by (vm_compute; reflexivity).
  assert (id_set (_load_current_zombies s) = Some P) as HP.
  { apply sample_id_set. vm_compute. reflexivity. }
  assert (id_set zombies = Some C) as HC.
  { apply sample_id_set. vm_compute. reflexivity. }
  assert (PyStr "HOST-2" ∈ P) as HidP.
  { unfold P. rewrite elem_of_list_to_set, !elem_of_cons. tauto. }
  assert (PyStr "HOST-2" ∉ C) as HidC.
  { unfold C. rewrite elem_of_list_to_set, !elem_of_cons, elem_of_nil.
    intros [[=]|[[=]|[]]]. }
  assert (timedelta_hours 24 = Some (24 * MICROSECONDS_PER_HOUR)%Z) as Hdelta.
  { vm_compute. reflexivity. }
  assert (datetime_sub later (24 * MICROSECONDS_PER_HOUR) = Some cutoff)
    as Hcutoff.
  { vm_compute. reflexivity. }
  split; [exact Hprevious|]. split; [exact Hcurrent|].
  split; [exact HP|]. split; [exact HC|]. split; [exact HidP|].
  split; [exact HidC|]. split; [exact Hdelta|]. split; [exact Hcutoff|].
  apply (recorded_kill_is_listed s zombies now later 24 _ cutoff P C
           (PyStr "HOST-2") Hprevious Hcurrent HP HC HidP HidC Hdelta Hcutoff).
Defined.

(** ** Retention and the killed list *)

Lemma filter_killed_window (c1 c2 : Z) (killed : list killed_entry) :
  (c1 <= c2)%Z ->
  filter (fun e => (c2 <= ke_killed_at e)%Z)
         (filter (fun e => (c1 <= ke_killed_at e)%Z) killed)
  = filter (fun e => (c2 <= ke_killed_at e)%Z) killed.
Proof.
  intros Hle. rewrite list_filter_filter. apply list_filter_iff.
  intros e. lia.
Qed.

Lemma filter_history_window (c : Z) (history : list history_entry) :
  filter (fun e => (c <= he_timestamp e)%Z)
         (filter (fun e => (c <= he_timestamp e)%Z) history)
  = filter (fun e => (c <= he_timestamp e)%Z) history.
Proof.
  rewrite list_filter_filter. apply list_filter_iff. intros e. lia.
Qed.

Lemma timedelta_hours_of_days (d delta : Z) :
  timedelta_days d = Some delta -> timedelta_hours (24 * d) = Some delta.
Proof.
  unfold timedelta_days, timedelta_hours.
  destruct (decide (-999999999 <= d <= 999999999)%Z) as [Hd|]; [|done].
  intros [= <-].
  replace (24 * d * MICROSECONDS_PER_HOUR)%Z with (d * MICROSECONDS_PER_DAY)%Z
    by (unfold MICROSECONDS_PER_HOUR, MICROSECONDS_PER_DAY; lia).
  rewrite Z.div_mul by done. by rewrite decide_True.
Qed.

(** X18. [cleanup_old_data] and the killed list agree on the period.
    When the cutoff of [days_to_keep] days can be represented the cleanup
    returns, never touches the current snapshot, and repeating it at the
    same instant changes nothing more; [get_killed_zombies] over
    [24 * days_to_keep] hours or fewer answers after the cleanup what it
    answered before; and when the history file could be read, everything
    left in the registry is listed by the query over
    [24 * days_to_keep] hours. *)
Theorem cleanup_keeps_recent_window (s : store) (days_to_keep now cutoff : Z) :
  timedelta_days days_to_keep ≫= datetime_sub now = Some cutoff ->
  exists s',
    cleanup_old_data s days_to_keep now = Some s' /\
    current_zombies_file s' = current_zombies_file s /\
    cleanup_old_data s' days_to_keep now = Some s' /\
    (forall since_hours, (since_hours <= 24 * days_to_keep)%Z ->
       get_killed_zombies s' since_hours now
       = get_killed_zombies s since_hours now) /\
    (is_Some (zombie_history_file s) ->
     get_killed_zombies s' (24 * days_to_keep) now
     = Some (default [] (killed_zombies_file s'))).
Proof.
  intros Hcut.
  destruct (timedelta_days days_to_keep) as [delta|] eqn:Hdelta; [|done].
  cbn [mbind option_bind] in Hcut.
  pose proof (timedelta_hours_of_days _ _ Hdelta) as Hhours.
  assert (forall killed since_hours, (since_hours <= 24 * days_to_keep)%Z ->
            (d ← timedelta_hours since_hours;
             c ← datetime_sub now d;
             Some (filter (fun e => (c <= ke_killed_at e)%Z)
                     (filter (fun e => (cutoff <= ke_killed_at e)%Z) killed)))
            = (d ← timedelta_hours since_hours;
               c ← datetime_sub now d;
               Some (filter (fun e => (c <= ke_killed_at e)%Z) killed)
               : option (list killed_entry)))
    as Hwindow.
  { intros killed h Hh. unfold timedelta_hours.
    destruct (decide _); [|done]. cbn [mbind option_bind].
    unfold datetime_sub in Hcut |- *.
    destruct (decide (0 <= now - delta < DATETIME_END)%Z); [|done].
    injection Hcut as <-.
    destruct (decide _); [|done]. cbn [mbind option_bind].
    rewrite filter_killed_window; [done|].
    unfold timedelta_days in Hdelta. destruct (decide _); [|done].
    injection Hdelta as <-.
    unfold MICROSECONDS_PER_HOUR, MICROSECONDS_PER_DAY. lia. }
  unfold cleanup_old_data. rewrite Hdelta. cbn [mbind option_bind].
  rewrite Hcut. cbn [mbind option_bind].
  destruct s as [current [history|] killed_file];
    cbn [zombie_history_file killed_zombies_file current_zombies_file].
  - destruct killed_file as [killed|].
    + eexists. split; [reflexivity|].
      cbn [zombie_history_file killed_zombies_file current_zombies_file].
      split_and!.
      * reflexivity.
      * by rewrite filter_history_window,
          (filter_killed_window cutoff cutoff) by lia.
      * intros h Hh. unfold get_killed_zombies. cbn [killed_zombies_file].
        by apply Hwindow.
      * intros _. unfold get_killed_zombies. cbn [killed_zombies_file].
        rewrite Hhours. cbn [mbind option_bind]. rewrite Hcut.
        cbn [mbind option_bind default].
        by rewrite (filter_killed_window cutoff cutoff) by lia.
    + eexists. split; [reflexivity|].
      cbn [zombie_history_file killed_zombies_file current_zombies_file].
      split_and!; try done.
      by rewrite filter_history_window.
  - eexists. split; [reflexivity|]. by split_and!.
Qed.

Lemma cleanup_keeps_recent_window_witness :
  let s := store_with_registry in
  let now := new_year_2025 in
  let cutoff := (new_year_2025 - 30 * MICROSECONDS_PER_DAY)%Z in
  timedelta_days 30 ≫= datetime_sub now = Some cutoff /\
  exists s',
    cleanup_old_data s 30 now = Some s' /\
    current_zombies_file s' = current_zombies_file s /\
    cleanup_old_data s' 30 now = Some s' /\
    (forall since_hours, (since_hours <= 24 * 30)%Z ->
       get_killed_zombies s' since_hours now
       = get_killed_zombies s since_hours now) /\
    (is_Some (zombie_history_file s) ->
     get_killed_zombies s' (24 * 30) now
     = Some (default [] (killed_zombies_file s'))).
Proof.
  intros s now cutoff.
  assert (timedelta_days 30 ≫= datetime_sub now = Some cutoff) as Hcut.
  { vm_compute. reflexivity. }
  split; [exact Hcut|].
  apply (cleanup_keeps_recent_window s 30 now cutoff Hcut).
Defined.

(** On the sample directory the cleanup drops the entries forty days old
    and keeps those of the day before. *)
Example cleanup_of_sample_registry :
  (s' ← cleanup_old_data store_with_registry 30 new_year_2025;
   Some (he_timestamp <$> default [] (zombie_history_file s'),
         ke_dynatrace_host_id <$> default [] (killed_zombies_file s'))) =
  Some ([(new_year_2025 - MICROSECONDS_PER_DAY)%Z], [PyStr "HOST-2"]).
Proof. vm_compute. reflexivity. Qed.

(** ** The lifecycle of a zombie *)

Lemma forallb_Forall {A} (f : A -> bool) (l : list A) :
  forallb f l = true <-> Forall (fun x => f x = true) l.
Proof.
  induction l as [|x l IH]; cbn [forallb].
  - split; [constructor | done].
  - rewrite andb_true_iff, IH, list.Forall_cons. done.
Qed.

Lemma tracked_record_fields (z : host) :
  tracked_record z = true <->
  exists id ty al, host_id z = Some id /\
                   z !! "criterion_type" = Some ty /\
                   z !! "criterion_alias" = Some al.
Proof.
  unfold tracked_record. rewrite !andb_true_iff, !bool_decide_eq_true.
  unfold is_Some. naive_solver.
Qed.

Lemma tracked_store_records (s : store) :
  tracked_store s = true <->
  Forall (fun z => tracked_record z = true) (_load_current_zombies s) /\
  Forall (fun entry => Forall (fun z => tracked_record z = true)
                              (he_zombies entry))
         (default [] (zombie_history_file s)).
Proof.
  unfold tracked_store. rewrite andb_true_iff, !forallb_Forall.
  assert (forall entry,
            forallb tracked_record (he_zombies entry) = true <->
            Forall (fun z => tracked_record z = true) (he_zombies entry))
    as Hentry by (intros entry; apply forallb_Forall).
  split; intros [Hc Hh]; (split; [exact Hc|]);
    (eapply Forall_impl; [exact Hh|]); intros entry; apply Hentry.
Qed.

Lemma tracked_records_id_set (zombies : list host) :
  Forall (fun z => tracked_record z = true) zombies ->
  is_Some (id_set zombies).
Proof.
  intros Hall. unfold id_set.
  destruct (mapM_is_Some_2 host_id zombies) as [ids ->]; [|by eexists].
  eapply Forall_impl; [exact Hall|].
  intros z (id & ty & al & Hid & _)%tracked_record_fields.
  unfold compose. eauto.
Qed.

Lemma detection_of_tracked (id : py_value) (t : Z) (z : host) :
  tracked_record z = true ->
  exists found,
    detection_of id t z = Some found /\
    d_timestamp <$> found
    = if decide (z !! "dynatrace_host_id" = Some id) then [t] else [].
Proof.
  intros (v & ty & al & Hid%host_id_lookup & Hty & Hal)%tracked_record_fields.
  unfold detection_of. rewrite Hid. cbn [mbind option_bind].
  destruct (decide (v = id)) as [->|Hne].
  - rewrite Hty, Hal. cbn [mbind option_bind].
    eexists. split; [reflexivity|]. by rewrite decide_True.
  - eexists. split; [reflexivity|]. rewrite decide_False; [done|].
    by intros [= ->].
Qed.

Lemma detections_of_entry (id : py_value) (t : Z) (zombies : list host) :
  Forall (fun z => tracked_record z = true) zombies ->
  exists found,
    mapM (detection_of id t) zombies = Some found /\
    d_timestamp <$> concat found
    = zombies ≫= (fun z => if decide (z !! "dynatrace_host_id" = Some id)
                           then [t] else []).
Proof.
  induction 1 as [|z zombies Hz _ (found & Hfound & Heq)].
  - by exists [].
  - destruct (detection_of_tracked id t z Hz) as (f & Hf & Hfeq).
    exists (f :: found). split.
    + cbn. rewrite Hf. cbn. by rewrite Hfound.
    + cbn [concat]. by rewrite fmap_app, Hfeq, Heq, bind_cons.
Qed.

Lemma detections_of_history (id : py_value) (history : list history_entry) :
  Forall (fun entry => Forall (fun z => tracked_record z = true)
                              (he_zombies entry)) history ->
  exists per_entry,
    mapM (fun entry =>
            found ← mapM (detection_of id (he_timestamp entry))
                         (he_zombies entry);
            Some (concat found)) history = Some per_entry /\
    d_timestamp <$> concat per_entry = detections_in id history.
Proof.
  induction 1 as [|entry history Hentry _ (per_entry & Hper & Heq)].
  - by exists [].
  - destruct (detections_of_entry id (he_timestamp entry) _ Hentry)
      as (found & Hfound & Hfeq).
    exists (concat found :: per_entry). split.
    + cbn. rewrite Hfound. cbn. by rewrite Hper.
    + cbn [concat]. rewrite fmap_app, Hfeq, Heq. unfold detections_in.
      by rewrite bind_cons.
Qed.

Lemma any_has_id_ids (id : py_value) (zombies : list host)
    (ids : list py_value) :
  Forall2 (fun z v => host_id z = Some v) zombies ids ->
  any_has_id id zombies = Some (bool_decide (id ∈ ids)).
Proof.
  induction 1 as [|z v zombies ids Hz _ IH]; cbn [any_has_id].
  - rewrite bool_decide_eq_false_2; [done|]. apply not_elem_of_nil.
  - rewrite (host_id_lookup _ _ Hz). cbn [mbind option_bind].
    destruct (decide (v = id)) as [->|Hne].
    + rewrite bool_decide_eq_true_2; [done|]. by left.
    + rewrite IH. f_equal. apply bool_decide_ext. rewrite elem_of_cons.
      naive_solver.
Qed.

(** On a directory of tracked records [get_zombie_lifecycle] returns, with
    the detections of the history log and the state of the snapshot and of
    the killed registry. *)
Lemma get_zombie_lifecycle_tracked (s : store) (id : py_value)
    (X : gset py_value) :
  tracked_store s = true ->
  id_set (_load_current_zombies s) = Some X ->
  let seen := detections_in id (default [] (zombie_history_file s)) in
  exists lc,
    get_zombie_lifecycle s id = Some lc /\
    lc_zombie_id lc = id /\
    lc_is_active lc = bool_decide (id ∈ X) /\
    lc_killed_info lc = is_zombie_killed s id /\
    d_timestamp <$> lc_detection_history lc = seen /\
    lc_total_detections lc = length (lc_detection_history lc) /\
    lc_first_seen lc = head seen /\
    lc_last_seen lc = last seen.
Proof.
  intros [_ Hhistory]%tracked_store_records HX seen.
  destruct (detections_of_history id _ Hhistory) as (per_entry & Hper & Heq).
  fold seen in Heq.
  unfold id_set in HX.
  destruct (mapM host_id (_load_current_zombies s)) as [ids|] eqn:Hids;
    [|done].
  cbn [mbind option_bind] in HX. injection HX as <-.
  apply mapM_Some_1 in Hids.
  pose proof (any_has_id_ids id _ _ Hids) as Hany.
  unfold get_zombie_lifecycle. cbv zeta. rewrite Hper.
  cbn [mbind option_bind]. rewrite Hany. cbn [mbind option_bind].
  eexists. split; [reflexivity|].
  cbn [lc_zombie_id lc_is_active lc_killed_info lc_detection_history
       lc_total_detections lc_first_seen lc_last_seen].
  split_and!.
  - reflexivity.
  - apply bool_decide_ext. by rewrite elem_of_list_to_set.
  - reflexivity.
  - exact Heq.
  - reflexivity.
  - rewrite <- Heq. by destruct (concat per_entry).
  - by rewrite <- Heq, fmap_last.
Qed.

Lemma update_zombie_history_tail (s : store) (zombies : list host) (now : Z) :
  exists n,
    zombie_history_file (_update_zombie_history s zombies now)
    = Some (drop n (default [] (zombie_history_file s))
            ++ [ {| he_timestamp := now;
                    he_zombie_count := length zombies;
                    he_zombies := zombies |} ]).
Proof.
  unfold _update_zombie_history. cbn [zombie_history_file].
  set (old := default [] (zombie_history_file s)).
  destruct (1000 <? length (old ++ _)) eqn:Hcap.
  - exists (length old - 999). f_equal.
    rewrite length_app. cbn [length].
    replace (length old + 1 - 1000) with (length old - 999) by lia.
    apply drop_app_le. lia.
  - by exists 0.
Qed.

Lemma save_current_zombies_history (s s' : store) (zombies : list host)
    (now : Z) (r : tracking_info) :
  save_current_zombies s zombies now = Some (r, s') ->
  _load_current_zombies s' = zombies /\
  exists n,
    zombie_history_file s'
    = Some (drop n (default [] (zombie_history_file s))
            ++ [ {| he_timestamp := now;
                    he_zombie_count := length zombies;
                    he_zombies := zombies |} ]).
Proof.
  intros Hsave.
  destruct (id_set (_load_current_zombies s)) as [P|] eqn:HP;
    [|by unfold save_current_zombies in Hsave; rewrite HP in Hsave].
  destruct (id_set zombies) as [C|] eqn:HC;
    [|by unfold save_current_zombies in Hsave; rewrite HP, HC in Hsave].
  destruct (save_current_zombies_result s zombies now P C HP HC)
    as (appended & _ & Hresult).
  cbv zeta in Hresult. rewrite Hresult in Hsave. injection Hsave as _ <-.
  split; [reflexivity|]. cbn [zombie_history_file].
  apply update_zombie_history_tail.
Qed.

Lemma save_keeps_tracked (s s' : store) (zombies : list host) (now : Z)
    (r : tracking_info) :
  tracked_store s = true ->
  Forall (fun z => tracked_record z = true) zombies ->
  save_current_zombies s zombies now = Some (r, s') ->
  tracked_store s' = true.
Proof.
  intros [_ Hhistory]%tracked_store_records Hzombies Hsave.
  destruct (save_current_zombies_history _ _ _ _ _ Hsave)
    as (Hload & n & Hfile).
  apply tracked_store_records. rewrite Hload, Hfile. cbn [default].
  split; [exact Hzombies|]. apply Forall_app. split.
  - by apply Forall_drop.
  - by apply Forall_singleton.
Qed.

Lemma last_all_equal (t : Z) (l : list Z) :
  Forall (eq t) l -> l <> [] -> last l = Some t.
Proof.
  induction 1 as [|x l <- Hl IH]; [done|]. intros _.
  destruct l as [|y l]; [done|].
  change (last (t :: y :: l)) with (last (y :: l)). by apply IH.
Qed.

Lemma detections_of_recorded (id : py_value) (now : Z) (zombies : list host)
    (C : gset py_value) :
  id_set zombies = Some C -> id ∈ C ->
  let seen := detections_in id [ {| he_timestamp := now;
                                    he_zombie_count := length zombies;
                                    he_zombies := zombies |} ] in
  last seen = Some now /\ 0 < length seen.
Proof.
  intros HC Hid seen.
  apply (elem_of_id_set _ _ _ HC) in Hid as (z & Hz & Hzid%host_id_lookup).
  assert (Forall (eq now) seen) as Hall.
  { apply list.Forall_forall. intros t.
    unfold seen, detections_in. rewrite bind_singleton. cbn [he_zombies].
    intros (z' & Ht & _)%list_elem_of_bind. cbn [he_timestamp] in Ht.
    destruct (decide _); [|by apply elem_of_nil in Ht].
    by apply list_elem_of_singleton in Ht. }
  assert (now ∈ seen) as Hin.
  { unfold seen, detections_in. rewrite bind_singleton. cbn [he_zombies].
    apply list_elem_of_bind. exists z. split; [|exact Hz].
    cbn [he_timestamp]. rewrite decide_True by done.
    by apply list_elem_of_singleton. }
  assert (seen <> []) as Hne.
  { intros Hnil. rewrite Hnil in Hin. by apply elem_of_nil in Hin. }
  split; [by apply last_all_equal|].
  destruct seen; [done | cbn; lia].
Qed.

(** X19. The lifecycle of a string identifier after a run is recorded, on
    a directory of tracked records, the identifiers of the snapshot and of
    the records of the run being strings.  [get_zombie_lifecycle] returns
    (no field it reads is missing), the directory still holds tracked
    records only, and: [is_active] says whether the identifier is among
    the zombies just recorded; if it is, [last_seen] is the instant of the
    run and [total_detections] is positive; if it was in the previous
    snapshot and is gone, [killed_info] holds the first entry of the
    registry with that identifier; [total_detections] is the length of
    [detection_history], whose timestamps are those of the records of the
    identifier in the history log, in order. *)
Theorem lifecycle_after_recording (s : store) (zombies : list host) (now : Z)
    (zombie_id : string) :
  tracked_store s = true ->
  forallb tracked_record zombies = true ->
  string_ids (_load_current_zombies s) = true ->
  string_ids zombies = true ->
  let id := PyStr zombie_id in
  exists P C r s' lc,
    id_set (_load_current_zombies s) = Some P /\
    id_set zombies = Some C /\
    save_current_zombies s zombies now = Some (r, s') /\
    tracked_store s' = true /\
    get_zombie_lifecycle s' id = Some lc /\
    lc_is_active lc = bool_decide (id ∈ C) /\
    (id ∈ C -> lc_last_seen lc = Some now /\ 0 < lc_total_detections lc) /\
    (id ∈ P -> id ∉ C ->
     exists e killed,
       lc_killed_info lc = Some e /\
       killed_zombies_file s' = Some killed /\
       first_entry_of id killed e) /\
    lc_total_detections lc = length (lc_detection_history lc) /\
    d_timestamp <$> lc_detection_history lc
    = detections_in id (default [] (zombie_history_file s')).
Proof.
  intros Hs Hzombies%forallb_Forall _ _ id.
  pose proof Hs as [Hcurrent _]%tracked_store_records.
  destruct (tracked_records_id_set _ Hcurrent) as [P HP].
  destruct (tracked_records_id_set _ Hzombies) as [C HC].
  destruct (save_current_zombies_killed s zombies now P C HP HC)
    as (r & s' & appended & Hsave & Hload & _ & _ & Hkilled).
  pose proof (save_keeps_tracked _ _ _ _ _ Hs Hzombies Hsave) as Hs'.
  destruct (save_current_zombies_history _ _ _ _ _ Hsave) as (_ & n & Hfile).
  assert (id_set (_load_current_zombies s') = Some C) as HC'
    by (by rewrite Hload).
  destruct (get_zombie_lifecycle_tracked s' id C Hs' HC')
    as (lc & Hlc & _ & Hactive & Hinfo & Hseen & Htotal & _ & Hlast).
  exists P, C, r, s', lc. split_and!; try done.
  - intros Hid.
    destruct (detections_of_recorded id now zombies C HC Hid) as [Hl Hpos].
    rewrite Hlast, Htotal, <- (length_fmap d_timestamp), Hseen, Hfile.
    cbn [default from_option Datatypes.id]. unfold detections_in in *.
    rewrite bind_app. split.
    + rewrite last_app. by rewrite Hl.
    + rewrite length_app. lia.
  - intros HidP HidC. rewrite Hinfo.
    destruct (Hkilled id HidP HidC) as [_ (e & He & _)].
    pose proof He as (killed & Hkilled_file & Hfirst)%is_zombie_killed_first.
    by exists e, killed.
Qed.

Lemma lifecycle_after_recording_witness :
  let s := store_after_round1 in
  let zombies := [HOST_1; HOST_3] in
  let id := PyStr "HOST-2" in
  tracked_store s = true /\
  forallb tracked_record zombies = true /\
  string_ids (_load_current_zombies s) = true /\
  string_ids zombies = true /\
  exists P C r s' lc,
    id_set (_load_current_zombies s) = Some P /\
    id_set zombies = Some C /\
    save_current_zombies s zombies 1 = Some (r, s') /\
    tracked_store s' = true /\
    get_zombie_lifecycle s' id = Some lc /\
    lc_is_active lc = bool_decide (id ∈ C) /\
    (id ∈ C -> lc_last_seen lc = Some 1%Z /\ 0 < lc_total_detections lc) /\
    (id ∈ P -> id ∉ C ->
     exists e killed,
       lc_killed_info lc = Some e /\
       killed_zombies_file s' = Some killed /\
       first_entry_of id killed e) /\
    lc_total_detections lc = length (lc_detection_history lc) /\
    d_timestamp <$> lc_detection_history lc
    = detections_in id (default [] (zombie_history_file s')).
Proof.
  intros s zombies id.
  assert (tracked_store s = true) as Hs by (vm_compute; reflexivity).
  assert (forallb tracked_record zombies = true) as Hzombies
    by (vm_compute; reflexivity).
  assert (string_ids (_load_current_zombies s) = true) as Hprevious
    by (vm_compute; reflexivity).
  assert (string_ids zombies = true) as Hcurrent by (vm_compute; reflexivity).
  split; [exact Hs|]. split; [exact Hzombies|].
  split; [exact Hprevious|]. split; [exact Hcurrent|].
  apply (lifecycle_after_recording s zombies 1 "HOST-2" Hs Hzombies
           Hprevious Hcurrent).
Defined.

(** The lifecycle of HOST-2 after the second run of the sample: seen once,
    at the first run, no longer active, killed at the second run. *)
Example lifecycle_of_killed_sample :
  (r ← save_current_zombies store_after_round1 [HOST_1; HOST_3] 1;
   lc ← get_zombie_lifecycle (snd r) (PyStr "HOST-2");
   Some (lc_first_seen lc, lc_last_seen lc, lc_total_detections lc,
         lc_is_active lc, ke_killed_at <$> lc_killed_info lc)) =
  Some (Some 0%Z, Some 0%Z, 1, false, Some 1%Z).
Proof. vm_compute. reflexivity. Qed.

(** ** Detection runs and the tracker together *)

Section RunsKeepTracking.
Context `{PyRuntime}.

Lemma enriched_has_classification (states_config : gmap string Z)
    (h e : host) :
  enrich_host states_config h = Some e ->
  is_Some (e !! "criterion_type") /\ is_Some (e !! "criterion_alias") /\
  e !! "dynatrace_host_id" = Some (default PyNone (h !! "dynatrace_host_id")).
Proof.
  intros He.
  destruct (classify_host_some h) as (code & alias & description & Hclass).
  destruct (enrich_host_fields states_config h _ _ _ Hclass)
    as (e' & He' & _ & Htype & Halias & _ & _ & Hid & _).
  rewrite He in He'. injection He' as <-.
  rewrite Htype, Halias. by eauto.
Qed.

(** X20. Detection runs keep the data directory readable.  On a directory
    of tracked records, a run of [process_host_data] that returns leaves a
    directory of tracked records, on which [get_zombie_lifecycle] returns
    for every identifier; and a run fails only with tracking enabled, on a
    host that is classified as a zombie and whose identifier cannot be
    hashed. *)
Theorem detection_keeps_lifecycle_readable (s : store) (hosts : list host)
    (states_config : gmap string Z) (enable_tracking : bool) (now : Z) :
  tracked_store s = true ->
  match process_host_data s hosts states_config enable_tracking now with
  | Some (results, s') =>
      tracked_store s' = true /\
      forall id, is_Some (get_zombie_lifecycle s' id)
  | None =>
      enable_tracking = true /\
      exists h e, h ∈ hosts /\
        enrich_host states_config h = Some e /\
        is_zombie e = true /\
        hashable (default PyNone (h !! "dynatrace_host_id")) = false
  end.
Proof.
  intros Hs.
  assert (forall s0, tracked_store s0 = true ->
            forall id, is_Some (get_zombie_lifecycle s0 id)) as Hread.
  { intros s0 Hs0 id.
    pose proof Hs0 as [Hcurrent _]%tracked_store_records.
    destruct (tracked_records_id_set _ Hcurrent) as [X HX].
    destruct (get_zombie_lifecycle_tracked s0 id X Hs0 HX) as (lc & -> & _).
    by eexists. }
  destruct (mapM_enrich_host states_config hosts) as (enriched & Hmap & Hall).
  rewrite (process_host_data_steps _ _ _ _ _ _ Hmap).
  destruct enable_tracking; [|by split; [|apply Hread]].
  destruct (decide (filter_zombies enriched = [])); [by split; [|apply Hread]|].
  assert (forall z, z ∈ filter_zombies enriched ->
            exists h, h ∈ hosts /\ enrich_host states_config h = Some z /\
                      is_zombie z = true) as Horigin.
  { intros z [Hz Hin]%list_elem_of_filter.
    apply list_elem_of_lookup in Hin as [i Hi].
    destruct (Forall2_lookup_r _ _ _ _ _ Hall Hi) as (h & Hh & Hhz).
    exists h. split_and!; [by eapply list_elem_of_lookup_2 | done | done]. }
  destruct (id_set (filter_zombies enriched)) as [C|] eqn:HC.
  - assert (Forall (fun z => tracked_record z = true) (filter_zombies enriched))
      as Hzombies.
    { apply list.Forall_forall. intros z Hz.
      destruct (Horigin z Hz) as (h & _ & Hhz & _).
      destruct (enriched_has_classification _ _ _ Hhz)
        as ([ty Hty] & [al Hal] & _).
      destruct (id_set_host_id _ _ _ HC Hz) as [v Hv].
      apply tracked_record_fields. eauto 10. }
    pose proof Hs as [Hcurrent _]%tracked_store_records.
    destruct (tracked_records_id_set _ Hcurrent) as [P HP].
    destruct (save_current_zombies_result s _ now P C HP HC)
      as (appended & _ & Hsave).
    cbv zeta in Hsave.
    pose proof (save_keeps_tracked _ _ _ _ _ Hs Hzombies Hsave) as Hs'.
    rewrite Hsave. cbn [mbind option_bind fst snd].
    split; [exact Hs' | by apply Hread].
  - assert (save_current_zombies s (filter_zombies enriched) now = None)
      as ->.
    { unfold save_current_zombies. rewrite HC.
      by destruct (id_set (_load_current_zombies s)). }
    cbn [mbind option_bind]. split; [done|].
    apply id_set_None, Exists_exists in HC as (z & Hz & Hnone).
    destruct (Horigin z Hz) as (h & Hh & Hhz & Hzombie).
    exists h, z. split_and!; try done.
    destruct (enriched_has_classification _ _ _ Hhz) as (_ & _ & Hid).
    unfold host_id in Hnone. rewrite Hid in Hnone.
    cbn [mbind option_bind] in Hnone.
    by destruct (hashable (default PyNone (h !! "dynatrace_host_id"))).
Qed.

End RunsKeepTracking.

Lemma detection_keeps_lifecycle_readable_witness :
  let h : host := py_dict [ ("dynatrace_host_id", PyStr "HOST-3");
                            ("Sustained_Low_CPU_criterion", PyInt 1) ] in
  tracked_store store_after_round1 = true /\
  match @process_host_data decimal_runtime store_after_round1 [h] ∅ true 1 with
  | Some (results, s') =>
      tracked_store s' = true /\
      forall id, is_Some (get_zombie_lifecycle s' id)
  | None =>
      true = true /\
      exists h' e, h' ∈ [h] /\
        @enrich_host decimal_runtime ∅ h' = Some e /\
        is_zombie e = true /\
        hashable (default PyNone (h' !! "dynatrace_host_id")) = false
  end.
Proof.
  intros h.
  assert (tracked_store store_after_round1 = true) as Hs
    by (vm_compute; reflexivity).
  split; [exact Hs|].
  apply (@detection_keeps_lifecycle_readable decimal_runtime
           store_after_round1 [h] ∅ true 1 Hs).
Defined.

(** A zombie whose identifier is a list makes the run fail, and a host
    without identifier is tracked under [None]. *)
Example unhashable_identifier_fails :
  let bad : host := py_dict [ ("dynatrace_host_id", PyList [PyStr "HOST-3"]);
                              ("Sustained_Low_CPU_criterion", PyInt 1) ] in
  let anonymous : host := py_dict [ ("Sustained_Low_CPU_criterion", PyInt 1) ] in
  @process_host_data decimal_runtime fresh_store [bad] ∅ true 1 = None /\
  (r ← @process_host_data decimal_runtime fresh_store [anonymous] ∅ true 1;
   cz_zombie_ids <$> current_zombies_file (snd r)) = Some [PyNone].
Proof. split; vm_compute; reflexivity. Qed.

(** ** processor.py: the summary of the killed *)

Lemma string_killed_type_hashable (listed : list killed_entry) :
  forallb string_killed_type listed = true ->
  Forall (fun e => hashable (ke_criterion_type e) = true) listed.
Proof.
  induction listed as [|e listed IH]; cbn [forallb]; [constructor|].
  intros [He Hlisted]%andb_true_iff. constructor; [|by apply IH].
  unfold string_killed_type in He. by destruct (ke_criterion_type e).
Qed.

(** X21. [get_killed_zombies_summary] counts what [get_killed_zombies]
    lists.  With the registry missing it answers the empty summary for any
    [since_hours]; it fails when the list cannot be made or the
    [criterion_type] of a listed entry cannot be hashed; otherwise the
    summary holds [since_hours], the list itself and its length.  When the
    [criterion_type] of every listed entry is a string the breakdown holds,
    for every [criterion_type], the number of listed entries with it, and
    no other key. *)
Theorem killed_summary_counts (s : store) (since_hours now : Z) :
  (killed_zombies_file s = None ->
   get_killed_zombies_summary s since_hours now
   = Some {| killed_zombies_count := 0;
             ks_since_hours := since_hours;
             ks_killed_zombies := [];
             ks_criterion_breakdown := ∅ |}) /\
  (get_killed_zombies s since_hours now = None ->
   get_killed_zombies_summary s since_hours now = None) /\
  (forall listed,
     get_killed_zombies s since_hours now = Some listed ->
     Exists (fun e => hashable (ke_criterion_type e) = false) listed ->
     get_killed_zombies_summary s since_hours now = None) /\
  (forall listed,
     get_killed_zombies s since_hours now = Some listed ->
     Forall (fun e => hashable (ke_criterion_type e) = true) listed ->
     exists sm,
       get_killed_zombies_summary s since_hours now = Some sm /\
       killed_zombies_count sm = length listed /\
       ks_since_hours sm = since_hours /\
       ks_killed_zombies sm = listed) /\
  (forall listed,
     get_killed_zombies s since_hours now = Some listed ->
     forallb string_killed_type listed = true ->
     exists sm,
       get_killed_zombies_summary s since_hours now = Some sm /\
       dom (ks_criterion_breakdown sm)
         = list_to_set (ke_criterion_type <$> listed) /\
       forall k, default 0 (ks_criterion_breakdown sm !! k)
                 = length (filter (fun e => ke_criterion_type e = k) listed)).
Proof.
  unfold get_killed_zombies_summary. split_and!.
  - intros Hfile. unfold get_killed_zombies. by rewrite Hfile.
  - by intros ->.
  - intros listed -> Hex. cbn [mbind option_bind].
    by rewrite (count_keys_unhashable ke_criterion_type listed (Some ∅) Hex).
  - intros listed -> Hall. cbn [mbind option_bind].
    destruct (count_keys_fold ke_criterion_type listed ∅ Hall)
      as (m & -> & _). cbn [mbind option_bind].
    eexists. split; [reflexivity|]. by split_and!.
  - intros listed -> Hall%string_killed_type_hashable.
    cbn [mbind option_bind].
    destruct (count_keys_fold ke_criterion_type listed ∅ Hall)
      as (m & -> & Hdom & Hcount).
    cbn [mbind option_bind]. eexists. split; [reflexivity|].
    cbn [ks_criterion_breakdown]. split.
    + by rewrite Hdom, dom_empty_L, (left_id_L ∅ (∪)).
    + intros k. rewrite Hcount, lookup_empty. cbn. lia.
Qed.

(** The summary of the last day on the sample directory. *)
Example killed_summary_of_sample :
  (sm ← get_killed_zombies_summary store_with_registry 24 new_year_2025;
   Some (killed_zombies_count sm,
         ke_dynatrace_host_id <$> ks_killed_zombies sm,
         map_to_list (ks_criterion_breakdown sm))) =
  Some (1, [PyStr "HOST-2"], [(PyStr "T2", 1)]).
Proof. vm_compute. reflexivity. Qed.

(** ** The counts of a run *)

Lemma size_list_to_set_le (l : list py_value) :
  size (list_to_set l : gset py_value) <= length l.
Proof.
  induction l as [|x l IH]; cbn [list_to_set length].
  - by rewrite size_empty.
  - rewrite size_union_alt, size_singleton.
    pose proof (subseteq_size (list_to_set l ∖ {[x]} : gset py_value)
                  (list_to_set l)) as Hle.
    assert (size (list_to_set l ∖ {[x]} : gset py_value)
            <= size (list_to_set l : gset py_value)); [|lia].
    apply Hle. intros y. rewrite elem_of_difference. tauto.
Qed.

Lemma size_list_to_set_NoDup (l : list py_value) :
  size (list_to_set l : gset py_value) = length l <-> NoDup l.
Proof.
  split; [|apply size_list_to_set].
  induction l as [|x l IH]; [constructor|].
  cbn [list_to_set length]. intros Hsize.
  pose proof (size_list_to_set_le l) as Hle.
  destruct (decide (x ∈ l)) as [Hin|Hin].
  - exfalso.
    assert (({[x]} ∪ list_to_set l : gset py_value) = list_to_set l) as Heq.
    { apply set_eq. intros y.
      rewrite elem_of_union, elem_of_singleton, elem_of_list_to_set.
      split; [intros [->|?]; done | tauto]. }
    rewrite Heq in Hsize. lia.
  - rewrite size_union, size_singleton in Hsize.
    + constructor; [exact Hin|]. apply IH. lia.
    + apply elem_of_disjoint. intros y ->%elem_of_singleton.
      by rewrite elem_of_list_to_set.
Qed.

(** X22. The counts of a run and repeated identifiers, the identifiers
    being strings.  [new_zombies] and [persisting_zombies] count distinct
    identifiers while [total_zombies] counts records: new + persisting is
    the number of distinct identifiers of the current records, at most
    [total_zombies], and equal to it exactly when no two records share an
    identifier; persisting + killed is the number of distinct identifiers
    of the previous snapshot.  The counts returned are the ones written to
    the snapshot file. *)
Theorem stats_add_up_iff_distinct (s : store) (zombies : list host) (now : Z)
    (P : gset py_value) (ids : list py_value) :
  string_ids (_load_current_zombies s) = true ->
  string_ids zombies = true ->
  id_set (_load_current_zombies s) = Some P ->
  mapM host_id zombies = Some ids ->
  exists r s',
    save_current_zombies s zombies now = Some (r, s') /\
    (cz_stats <$> current_zombies_file s') = Some (tracking_stats r) /\
    let st := tracking_stats r in
    st_new_zombies st + st_persisting_zombies st
      = size (list_to_set ids : gset py_value) /\
    st_persisting_zombies st + st_killed_zombies st = size P /\
    st_new_zombies st + st_persisting_zombies st <= st_total_zombies st /\
    (st_new_zombies st + st_persisting_zombies st = st_total_zombies st
     <-> NoDup ids).
Proof.
  intros _ _ HP Hids.
  pose proof (sample_id_set _ _ Hids) as HC.
  destruct (save_current_zombies_result s zombies now P _ HP HC)
    as (appended & _ & Hsave).
  cbv zeta in Hsave. eexists _, _. split; [exact Hsave|].
  cbn [current_zombies_file fmap option_fmap option_map cz_stats
       tracking_stats st_new_zombies st_persisting_zombies st_killed_zombies
       st_total_zombies].
  split; [reflexivity|].
  set (C := list_to_set ids : gset py_value).
  assert (size (C ∖ P) + size (C ∩ P) = size C) as Hcurrent.
  { rewrite <- size_union.
    - f_equal. apply set_eq. intros x.
      rewrite elem_of_union, elem_of_difference, elem_of_intersection.
      destruct (decide (x ∈ P)); tauto.
    - apply elem_of_disjoint. intros x.
      rewrite elem_of_difference, elem_of_intersection. tauto. }
  assert (size (C ∩ P) + size (P ∖ C) = size P) as Hprevious.
  { rewrite <- size_union.
    - f_equal. apply set_eq. intros x.
      rewrite elem_of_union, elem_of_difference, elem_of_intersection.
      destruct (decide (x ∈ C)); tauto.
    - apply elem_of_disjoint. intros x.
      rewrite elem_of_difference, elem_of_intersection. tauto. }
  assert (length zombies = length ids) as Hlen.
  { apply mapM_Some_1 in Hids. by eapply Forall2_length. }
  pose proof (size_list_to_set_le ids) as Hle. fold C in Hle.
  split_and!.
  - exact Hcurrent.
  - exact Hprevious.
  - lia.
  - rewrite <- size_list_to_set_NoDup. fold C. lia.
Qed.

Lemma stats_add_up_iff_distinct_witness :
  let P : gset py_value := list_to_set [PyStr "HOST-1"; PyStr "HOST-2"] in
  let ids := [PyStr "HOST-1"; PyStr "HOST-3"] in
  let s := store_after_round1 in
  let zombies := [HOST_1; HOST_3] in
  string_ids (_load_current_zombies s) = true /\
  string_ids zombies = true /\
  id_set (_load_current_zombies s) = Some P /\
  mapM host_id zombies = Some ids /\
  exists r s',
    save_current_zombies s zombies 1 = Some (r, s') /\
    (cz_stats <$> current_zombies_file s') = Some (tracking_stats r) /\
    let st := tracking_stats r in
    st_new_zombies st + st_persisting_zombies st
      = size (list_to_set ids : gset py_value) /\
    st_persisting_zombies st + st_killed_zombies st = size P /\
    st_new_zombies st + st_persisting_zombies st <= st_total_zombies st /\
    (st_new_zombies st + st_persisting_zombies st = st_total_zombies st
     <-> NoDup ids).
Proof.
  intros P ids s zombies.
  assert (string_ids (_load_current_zombies s) = true) as Hprevious
    by (vm_compute; reflexivity).
  assert (string_ids zombies = true) as Hcurrent by (vm_compute; reflexivity).
  assert (id_set (_load_current_zombies s) = Some P) as HP.
  { apply sample_id_set. vm_compute. reflexivity. }
  assert (mapM host_id zombies = Some ids) as Hids.
  { vm_compute. reflexivity. }
  split; [exact Hprevious|]. split; [exact Hcurrent|].
  split; [exact HP|]. split; [exact Hids|].
  apply (stats_add_up_iff_distinct s zombies 1 P ids Hprevious Hcurrent
           HP Hids).
Defined.

(** Two records of one host on a first run: two zombies in total, one
    new. *)
Example repeated_identifier_counts :
  tracking_stats <$> (fst <$> save_current_zombies fresh_store
                                [HOST_1; HOST_1] 1) =
  Some {| st_total_zombies := 2;
          st_new_zombies := 1;
          st_persisting_zombies := 0;
          st_killed_zombies := 0 |}.
Proof. vm_compute. reflexivity. Qed.
